(** * PyRS: detector geometry, scattering angle and histogram reduction

    A shallow embedding of the native HB2B reduction engine
    ([pyrs/core/reduce_hb2b_pyrs.py]), of the result store of
    [pyrs/core/workspaces.py] and of the sub-run orchestrator of
    [pyrs/core/reduction_manager.py].

    Numbers.  The engine computes with numpy [float64].  They are modelled
    by [float64] below: a real number, one of the two infinities, or
    not-a-number, with the IEEE 754 rules for the special values (NaN is
    absorbing, 0/0 and inf-inf are NaN, comparisons with NaN are false).
    Rounding, overflow and the sign of zero are abstracted: a finite result
    is the exact real result. *)

From Stdlib Require Import Reals Lra ZArith.
From stdpp Require Import base option list gmap strings sorting.

Set Default Proof Using "Type".

(* ===================================================================== *)
(** * Floating-point values *)
(* ===================================================================== *)

#[global] Instance Rle_decision (x y : R) : Decision (x <= y)%R := Rle_dec x y.
#[global] Instance Rlt_decision (x y : R) : Decision (x < y)%R := Rlt_dec x y.
#[global] Instance Req_decision : EqDecision R := Req_dec_T.

Inductive float64 : Type :=
| Fin (r : R)
| PInf
| NInf
| NaN.

Module F.

(** The infinity a non-zero real turns into when divided by zero or
    multiplied by infinity; NaN for zero. *)
Definition signed_inf (a : R) : float64 :=
  if decide (0 < a)%R then PInf else if decide (a < 0)%R then NInf else NaN.

Definition neg (x : float64) : float64 :=
  match x with
  | Fin a => Fin (- a)
  | PInf => NInf
  | NInf => PInf
  | NaN => NaN
  end.

Definition add (x y : float64) : float64 :=
  match x, y with
  | NaN, _ | _, NaN => NaN
  | Fin a, Fin b => Fin (a + b)
  | PInf, NInf | NInf, PInf => NaN
  | PInf, _ | _, PInf => PInf
  | NInf, _ | _, NInf => NInf
  end.

Definition sub (x y : float64) : float64 := add x (neg y).

Definition mul (x y : float64) : float64 :=
  match x, y with
  | NaN, _ | _, NaN => NaN
  | Fin a, Fin b => Fin (a * b)
  | Fin a, PInf | PInf, Fin a => signed_inf a
  | Fin a, NInf | NInf, Fin a => signed_inf (- a)
  | PInf, PInf | NInf, NInf => PInf
  | PInf, NInf | NInf, PInf => NInf
  end.

Definition div (x y : float64) : float64 :=
  match x, y with
  | NaN, _ | _, NaN => NaN
  | Fin a, Fin b => if decide (b = 0%R) then signed_inf a else Fin (a / b)
  | Fin _, (PInf | NInf) => Fin 0
  | PInf, Fin b => if decide (b < 0)%R then NInf else PInf
  | NInf, Fin b => if decide (b < 0)%R then PInf else NInf
  | (PInf | NInf), (PInf | NInf) => NaN
  end.

(** [x ** 2] *)
Definition square (x : float64) : float64 := mul x x.

Definition sqrt (x : float64) : float64 :=
  match x with
  | Fin a => if decide (a < 0)%R then NaN else Fin (R_sqrt.sqrt a)
  | PInf => PInf
  | NInf | NaN => NaN
  end.

Definition cos (x : float64) : float64 :=
  match x with Fin a => Fin (Rtrigo_def.cos a) | _ => NaN end.

Definition sin (x : float64) : float64 :=
  match x with Fin a => Fin (Rtrigo_def.sin a) | _ => NaN end.

Definition arccos (x : float64) : float64 :=
  match x with
  | Fin a =>
      if decide (-1 <= a <= 1)%R then Fin (Ratan.acos a) else NaN
  | _ => NaN
  end.

Definition pi : float64 := Fin PI.

Definition of_Z (z : Z) : float64 := Fin (IZR z).
Definition of_nat (n : nat) : float64 := Fin (INR n).

Definition isnan (x : float64) : bool :=
  match x with NaN => true | _ => false end.

Definition isfinite (x : float64) : bool :=
  match x with Fin _ => true | _ => false end.

(** Comparisons; every comparison with NaN is false. *)
Definition leb (x y : float64) : bool :=
  match x, y with
  | NaN, _ | _, NaN => false
  | Fin a, Fin b => bool_decide (a <= b)%R
  | NInf, _ | _, PInf => true
  | _, _ => false
  end.

Definition ltb (x y : float64) : bool :=
  match x, y with
  | NaN, _ | _, NaN => false
  | Fin a, Fin b => bool_decide (a < b)%R
  | PInf, _ | _, NInf => false
  | _, _ => true
  end.

Definition geb (x y : float64) : bool := leb y x.
Definition gtb (x y : float64) : bool := ltb y x.

Definition eqb (x y : float64) : bool :=
  match x, y with
  | Fin a, Fin b => bool_decide (a = b)
  | PInf, PInf | NInf, NInf => true
  | _, _ => false
  end.

(** [float.astype(intp)] on a finite non-negative value: truncation. *)
Definition to_index (x : float64) : option nat :=
  match x with
  | Fin a => Some (Z.to_nat (Zfloor a))
  | _ => None
  end.

End F.

Declare Scope f64_scope.
Delimit Scope f64_scope with fl.
Bind Scope f64_scope with float64.
Infix "+" := F.add : f64_scope.
Infix "-" := F.sub : f64_scope.
Infix "*" := F.mul : f64_scope.
Infix "/" := F.div : f64_scope.
Notation "- x" := (F.neg x) : f64_scope.

#[global] Instance float64_inhabited : Inhabited float64 := populate (Fin 0).

(* ===================================================================== *)
(** * Arrays *)
(* ===================================================================== *)

(** The last axis of every position array has length 3 (channels X, Y, Z);
    [axis] is the index into it and [vec3] the triple it holds. *)
Inductive axis : Type := AX | AY | AZ.

(** [range(3)] *)
Definition range3 : list axis := [AX; AY; AZ].

Record vec3 (A : Type) : Type := V3 { c0 : A; c1 : A; c2 : A }.
Arguments V3 {A} _ _ _.
Arguments c0 {A} _.
Arguments c1 {A} _.
Arguments c2 {A} _.

Definition getc {A} (i : axis) (v : vec3 A) : A :=
  match i with AX => c0 v | AY => c1 v | AZ => c2 v end.

Definition setc {A} (i : axis) (a : A) (v : vec3 A) : vec3 A :=
  match i with
  | AX => V3 a (c1 v) (c2 v)
  | AY => V3 (c0 v) a (c2 v)
  | AZ => V3 (c0 v) (c1 v) a
  end.

Abbreviation pixel := (vec3 float64).
(** an ndarray of shape (rows, columns, 3) *)
Abbreviation grid := (list (list pixel)).
(** an ndarray of shape (rows, columns) *)
Abbreviation plane := (list (list float64)).
(** a 3x3 [numpy.matrix], row by row *)
Abbreviation mat3 := (vec3 (vec3 float64)).

#[global] Instance pixel_inhabited : Inhabited pixel :=
  populate (V3 (Fin 0) (Fin 0) (Fin 0)).

(** Arrays of shape (pixels, 3) and (pixels,) *)
Module Nd1.

(** [a[:, j]] *)
Definition channel (j : axis) (a : list pixel) : list float64 := map (getc j) a.

(** [s * v] for a scalar [s] *)
Definition scale (s : float64) (v : list float64) : list float64 :=
  map (F.mul s) v.

(** [v * k] for a scalar [k] *)
Definition times (v : list float64) (k : float64) : list float64 :=
  map (fun x => x * k)%fl v.

(** [v / k] for a scalar [k] *)
Definition over (v : list float64) (k : float64) : list float64 :=
  map (fun x => x / k)%fl v.

(** [v ** 2] *)
Definition square (v : list float64) : list float64 := map F.square v.

(** [v + w], elementwise *)
Definition add (v w : list float64) : list float64 := zip_with F.add v w.

(** [a[:, i] += v] *)
Definition iadd_channel (i : axis) (v : list float64) (a : list pixel)
    : list pixel :=
  zip_with (fun p x => setc i (getc i p + x)%fl p) a v.

(** [a[:, i] += s] for a scalar [s] *)
Definition iadd_channel_scalar (i : axis) (s : float64) (a : list pixel)
    : list pixel :=
  map (fun p => setc i (getc i p + s)%fl p) a.

(** [a[:, i] /= v] *)
Definition idiv_channel (i : axis) (v : list float64) (a : list pixel)
    : list pixel :=
  zip_with (fun p x => setc i (getc i p / x)%fl p) a v.

(** [a[:, i] = s] *)
Definition set_channel (i : axis) (s : float64) (a : list pixel) : list pixel :=
  map (setc i s) a.

End Nd1.

(** Arrays of shape (rows, columns, 3) and (rows, columns): the operations
    of [Nd1] row by row. *)
Module Nd.

(** [m[:, :, j]] *)
Definition channel (j : axis) (m : grid) : plane := map (Nd1.channel j) m.

(** [s * a] for a scalar [s] *)
Definition scale (s : float64) (a : plane) : plane := map (Nd1.scale s) a.

(** [a * k] for a scalar [k] *)
Definition times (a : plane) (k : float64) : plane :=
  map (fun v => Nd1.times v k) a.

(** [a / k] for a scalar [k] *)
Definition over (a : plane) (k : float64) : plane :=
  map (fun v => Nd1.over v k) a.

(** [a ** 2] *)
Definition square (a : plane) : plane := map Nd1.square a.

(** [a + b], elementwise *)
Definition add (a b : plane) : plane := zip_with Nd1.add a b.

(** [m[:, :, i] += a] *)
Definition iadd_channel (i : axis) (a : plane) (m : grid) : grid :=
  zip_with (fun row v => Nd1.iadd_channel i v row) m a.

(** [m[:, :, i] += s] for a scalar [s] *)
Definition iadd_channel_scalar (i : axis) (s : float64) (m : grid) : grid :=
  map (Nd1.iadd_channel_scalar i s) m.

(** [m[:, :, i] /= a] *)
Definition idiv_channel (i : axis) (a : plane) (m : grid) : grid :=
  zip_with (fun row v => Nd1.idiv_channel i v row) m a.

(** [m[r, :, i] = s] *)
Definition set_row_channel (r : nat) (i : axis) (s : float64) (m : grid) : grid :=
  alter (Nd1.set_channel i s) r m.

(** [m[:, c, i] = s] *)
Definition set_col_channel (c : nat) (i : axis) (s : float64) (m : grid) : grid :=
  map (alter (setc i s) c) m.

(** [m[:, :, i] = s] *)
Definition set_channel (i : axis) (s : float64) (m : grid) : grid :=
  map (Nd1.set_channel i s) m.

(** [np.zeros(m.shape, dtype='float')] *)
Definition zeros_like (m : grid) : grid :=
  map (map (fun _ => V3 (Fin 0) (Fin 0) (Fin 0))) m.

(** [np.ndarray(shape=(rows, columns, 3))]: the entries are whatever the
    allocator leaves there, given by [junk]. *)
Definition ndarray (rows columns : nat) (junk : nat -> nat -> pixel) : grid :=
  map (fun r => map (junk r) (seq 0 columns)) (seq 0 rows).

(** [m[r, c]] *)
Definition at2 {A} (r c : nat) (m : list (list A)) : option A :=
  m !! r ≫= fun row => row !! c.

(** the shape (rows, columns) of a grid whose rows all have the same length *)
Definition has_shape {A} (rows columns : nat) (m : list (list A)) : Prop :=
  length m = rows /\ Forall (fun row => length row = columns) m.

(** [m.shape[1]] *)
Definition columns {A} (m : list (list A)) : nat :=
  match m with [] => 0 | row :: _ => length row end.

(** [m.transpose((1, 0, 2))]: entry [c, r] is [m[r, c]] *)
Definition transpose (num_y : nat) (m : grid) : grid :=
  map (fun c => map (fun row => row !!! c) m) (seq 0 num_y).

(** [m.reshape(num_x * num_y, 3)]: the first two axes merged in C
    (row-major) order. *)
Definition reshape_flat (m : grid) : list pixel := mjoin m.

End Nd.

(** 3x3 matrices of [numpy.matrix] *)
Module Mat.

Definition dot3 (a b : vec3 float64) : float64 :=
  (c0 a * c0 b + c1 a * c1 b + c2 a * c2 b)%fl.

Definition col (j : axis) (m : mat3) : vec3 float64 :=
  V3 (getc j (c0 m)) (getc j (c1 m)) (getc j (c2 m)).

Definition row_times (r : vec3 float64) (b : mat3) : vec3 float64 :=
  V3 (dot3 r (col AX b)) (dot3 r (col AY b)) (dot3 r (col AZ b)).

(** the matrix product [a * b] *)
Definition mul (a b : mat3) : mat3 :=
  V3 (row_times (c0 a) b) (row_times (c1 a) b) (row_times (c2 a) b).

End Mat.

(* ===================================================================== *)
(** * Exceptions *)
(* ===================================================================== *)

Inductive exn : Type :=
| RuntimeError (msg : string)
| AttributeError (cls attr : string)
| TypeError (msg : string)
| KeyError (msg : string)
| ValueError (msg : string)
| IndexError (msg : string)
| AssertionError (msg : string).

Inductive result (A : Type) : Type :=
| Ok (a : A)
| Raise (e : exn).
Arguments Ok {A} _.
Arguments Raise {A} _.

Definition is_ok {A} (r : result A) : bool :=
  match r with Ok _ => true | Raise _ => false end.

(* ===================================================================== *)
(** * Instrument geometry: class ResidualStressInstrument *)
(* ===================================================================== *)

(** Modelled from the spec: [calibration_file_io.InstrumentSetup], a record
    of the panel dimensions, the pixel sizes and the arm length; the class
    is declared outside the files at hand. *)
Record InstrumentSetup : Type := {
  detector_rows : nat;
  detector_columns : nat;
  pixel_size_x : float64;
  pixel_size_y : float64;
  arm_length : float64
}.

(** Modelled from the spec:
    [calibration_file_io.ResidualStressInstrumentCalibration], the three
    centre shifts and the three rotation angles in degrees; the class is
    declared outside the files at hand. *)
Record ResidualStressInstrumentCalibration : Type := {
  center_shift_x : float64;
  center_shift_y : float64;
  center_shift_z : float64;
  rotation_x : float64;
  rotation_y : float64;
  rotation_z : float64
}.

(** Arrays are objects: a field holds a reference into the store. *)
Definition loc : Type := positive.
Abbreviation store := (gmap loc grid).

Module Store.

Definition read (l : loc) (h : store) : grid := h !!! l.

Definition alloc (g : grid) (h : store) : loc * store :=
  let l := fresh (dom h) in (l, <[l := g]> h).

Definition update (l : loc) (f : grid -> grid) (h : store) : store :=
  alter f l h.

End Store.

Module ResidualStressInstrument.

Record t : Type := {
  _init_setup : InstrumentSetup;
  _raw_pixel_matrix : loc;
  _pixel_matrix : option loc
}.

Definition with_pixel_matrix (l : loc) (self : t) : t :=
  {| _init_setup := _init_setup self;
     _raw_pixel_matrix := _raw_pixel_matrix self;
     _pixel_matrix := Some l |}.

(** [_set_uncalibrated_pixels] *)
Definition _set_uncalibrated_pixels (setup : InstrumentSetup)
    (junk : nat -> nat -> pixel) : grid :=
  let num_rows := detector_rows setup in
  let num_columns := detector_columns setup in
  let pixel_size_x := pixel_size_x setup in
  let pixel_size_y := pixel_size_y setup in
  let pixel_matrix := Nd.ndarray num_rows num_columns junk in
  let start_y_pos :=
    (- (F.of_nat num_rows * Fin 0.5 - Fin 0.5) * pixel_size_y)%fl in
  let start_x_pos :=
    ((F.of_nat num_columns * Fin 0.5 - Fin 0.5) * pixel_size_x)%fl in
  let pixel_matrix :=
    foldl (fun m row_index =>
             Nd.set_row_channel row_index AY
               (start_y_pos + F.of_nat row_index * pixel_size_y)%fl m)
          pixel_matrix (seq 0 num_rows) in
  let pixel_matrix :=
    foldl (fun m col_index =>
             Nd.set_col_channel col_index AX
               (start_x_pos - F.of_nat col_index * pixel_size_x)%fl m)
          pixel_matrix (seq 0 num_columns) in
  Nd.set_channel AZ (Fin 0) pixel_matrix.

(** [_rotate_detector]: a fresh zero array, then for every output channel
    [i] and input channel [j] the scaled input channel is accumulated in
    place. *)
Definition _rotate_detector (detector_matrix : loc) (rotation_matrix : mat3)
    (h : store) : loc * store :=
  let '(rotate_det, h) :=
    Store.alloc (Nd.zeros_like (Store.read detector_matrix h)) h in
  let h :=
    foldl (fun h i =>
      foldl (fun h j =>
        let temp_det :=
          Nd.scale (getc j (getc i rotation_matrix))
                   (Nd.channel j (Store.read detector_matrix h)) in
        Store.update rotate_det (Nd.iadd_channel i temp_det) h)
      h range3)
    h range3 in
  (rotate_det, h).

(** [_cal_rotation_matrix_x] *)
Definition _cal_rotation_matrix_x (angle_rad : float64) : mat3 :=
  V3 (V3 (Fin 1) (Fin 0) (Fin 0))
     (V3 (Fin 0) (F.cos angle_rad) (- F.sin angle_rad)%fl)
     (V3 (Fin 0) (F.sin angle_rad) (F.cos angle_rad)).

(** [_cal_rotation_matrix_y] *)
Definition _cal_rotation_matrix_y (angle_rad : float64) : mat3 :=
  V3 (V3 (F.cos angle_rad) (Fin 0) (F.sin angle_rad))
     (V3 (Fin 0) (Fin 1) (Fin 0))
     (V3 (- F.sin angle_rad)%fl (Fin 0) (F.cos angle_rad)).

(** [_cal_rotation_matrix_z] *)
Definition _cal_rotation_matrix_z (angle_rad : float64) : mat3 :=
  V3 (V3 (F.cos angle_rad) (- F.sin angle_rad)%fl (Fin 0))
     (V3 (F.sin angle_rad) (F.cos angle_rad) (Fin 0))
     (V3 (Fin 0) (Fin 0) (Fin 1)).

(** [generate_rotation_matrix]; [*] on [numpy.matrix] is the matrix
    product, associated to the left. *)
Definition generate_rotation_matrix (rot_x_rad rot_y_rad rot_z_rad : float64)
    : mat3 :=
  let rot_x_matrix := _cal_rotation_matrix_x rot_x_rad in
  let rot_y_matrix := _cal_rotation_matrix_y rot_y_rad in
  let rot_z_matrix := _cal_rotation_matrix_z rot_z_rad in
  Mat.mul (Mat.mul rot_x_matrix rot_y_matrix) rot_z_matrix.

(** [build_instrument]; returns the reference it leaves in
    [_pixel_matrix].  The progress message printed after the centre shift
    reads [self._pixel_matrix[0, 0]], which raises on a grid without
    pixels. *)
Definition build_instrument (two_theta : float64)
    (instrument_calibration : ResidualStressInstrumentCalibration)
    (self : t) (h : store) : result loc * (t * store) :=
  (* make a copy *)
  let '(pm, h) := Store.alloc (Store.read (_raw_pixel_matrix self) h) h in
  let self := with_pixel_matrix pm self in
  (* shift center *)
  let h := Store.update pm
             (Nd.iadd_channel_scalar AX (center_shift_x instrument_calibration)) h in
  let h := Store.update pm
             (Nd.iadd_channel_scalar AY (center_shift_y instrument_calibration)) h in
  match Nd.at2 0 0 (Store.read pm h) with
  | None => (Raise (IndexError "index 0 is out of bounds"), (self, h))
  | Some _ =>
  (* rotation at origin *)
  let rot_x_flip := (rotation_x instrument_calibration * F.pi / Fin 180)%fl in
  let rot_y_flip := (rotation_y instrument_calibration * F.pi / Fin 180)%fl in
  let rot_z_spin := (rotation_z instrument_calibration * F.pi / Fin 180)%fl in
  let calib_matrix := generate_rotation_matrix rot_x_flip rot_y_flip rot_z_spin in
  let '(pm, h) := _rotate_detector pm calib_matrix h in
  let self := with_pixel_matrix pm self in
  (* push to +Z at length of detector arm *)
  let h := Store.update pm
             (Nd.iadd_channel_scalar AZ
                (arm_length (_init_setup self)
                 + center_shift_z instrument_calibration)%fl) h in
  (* rotate 2theta *)
  let two_theta_rad := (two_theta * F.pi / Fin 180)%fl in
  let two_theta_matrix := _cal_rotation_matrix_y two_theta_rad in
  let '(pm, h) := _rotate_detector pm two_theta_matrix h in
  let self := with_pixel_matrix pm self in
  (Ok pm, (self, h))
  end.

(** [get_pixel_matrix] *)
Definition get_pixel_matrix (self : t) (h : store) : result grid :=
  match _pixel_matrix self with
  | None => Raise (RuntimeError "Instrument has not been built yet")
  | Some pm => Ok (Store.read pm h)
  end.

(** [get_pixel_array]: the grid transposed to (columns, rows, 3) and
    reshaped to (rows * columns, 3).  The last axis has length 3 by
    typing, so the check of [num_z] always passes. *)
Definition get_pixel_array (self : t) (h : store) : result (list pixel) :=
  match _pixel_matrix self with
  | None => Raise (RuntimeError "Instrument has not been built yet")
  | Some pm =>
      let m := Store.read pm h in
      let num_y := Nd.columns m in
      let pixel_pos_matrix := Nd.transpose num_y m in
      let pixel_pos_array := Nd.reshape_flat pixel_pos_matrix in
      Ok pixel_pos_array
  end.

(** [__init__]: the raw grid is built and stored; no pose yet. *)
Definition __init__ (setup : InstrumentSetup) (junk : nat -> nat -> pixel)
    (h : store) : t * store :=
  let '(raw, h) := Store.alloc (_set_uncalibrated_pixels setup junk) h in
  ({| _init_setup := setup; _raw_pixel_matrix := raw; _pixel_matrix := None |}, h).

End ResidualStressInstrument.

(* ===================================================================== *)
(** * The numpy functions the engine calls *)
(* ===================================================================== *)

#[global] Instance result_ret : MRet result := fun A a => Ok a.
#[global] Instance result_bind : MBind result := fun A B f r =>
  match r with Ok a => f a | Raise e => Raise e end.
#[global] Instance result_fmap : FMap result := fun A B f r =>
  match r with Ok a => Ok (f a) | Raise e => Raise e end.

Module Np.

(** [np.minimum] / [np.maximum] of two values: NaN propagates. *)
Definition min2 (x y : float64) : float64 :=
  if F.isnan x || F.isnan y then NaN else if F.leb x y then x else y.
Definition max2 (x y : float64) : float64 :=
  if F.isnan x || F.isnan y then NaN else if F.leb x y then y else x.

(** [a.min()], [a.max()] of a non-empty array *)
Definition amin (a : list float64) : float64 :=
  match a with [] => NaN | x :: l => foldl min2 x l end.
Definition amax (a : list float64) : float64 :=
  match a with [] => NaN | x :: l => foldl max2 x l end.

(** [np.sum] *)
Definition sum (a : list float64) : float64 := foldr F.add (Fin 0) a.

(** [np.linspace(start, stop, n + 1)] for [n >= 1] and [start <> stop]:
    [arange(0, n + 1) * step + start] with the last entry set to [stop]. *)
Definition linspace (start stop : float64) (n : nat) : list float64 :=
  let step := ((stop - start) / F.of_nat n)%fl in
  map (fun i => (F.of_nat i * step + start)%fl) (seq 0 n) ++ [stop].

(** [np.bincount(indices, weights=weights, minlength=minlength)] *)
Definition bincount (indices : list nat) (weights : list float64)
    (minlength : nat) : list float64 :=
  let size := Nat.max minlength (foldr Nat.max 0 (map S indices)) in
  foldl (fun out iw => alter (fun x => x + iw.2)%fl iw.1 out)
        (replicate size (Fin 0)) (zip indices weights).

(** [_get_outer_edges]: the range given, else the range of the data;
    an empty range is widened by one half on each side. *)
Definition _get_outer_edges (a : list float64)
    (range : option (float64 * float64)) : result (float64 * float64) :=
  edges ← match range with
          | Some (first_edge, last_edge) =>
              if F.gtb first_edge last_edge then
                Raise (ValueError "max must be larger than min in range parameter.")
              else if negb (F.isfinite first_edge && F.isfinite last_edge) then
                Raise (ValueError "supplied range of [{}, {}] is not finite")
              else Ok (first_edge, last_edge)
          | None =>
              match a with
              | [] => Ok (Fin 0, Fin 1)
              | _ =>
                  let first_edge := amin a in
                  let last_edge := amax a in
                  if negb (F.isfinite first_edge && F.isfinite last_edge) then
                    Raise (ValueError "autodetected range of [{}, {}] is not finite")
                  else Ok (first_edge, last_edge)
              end
          end;
  if F.eqb edges.1 edges.2
  then Ok ((edges.1 - Fin 0.5)%fl, (edges.2 + Fin 0.5)%fl)
  else Ok edges.

(** The bin of one kept sample: the truncated scaled offset, the last
    edge folded into the last bin, then the two corrections against the
    edges themselves. *)
Definition bin_index (bin_edges : list float64) (n : nat)
    (first_edge norm x : float64) : nat :=
  let f_index := ((x - first_edge) * norm)%fl in
  let index := default 0 (F.to_index f_index) in
  let index := if index =? n then index - 1 else index in
  let index := if F.ltb x (bin_edges !!! index) then index - 1 else index in
  let index :=
    if F.geb x (bin_edges !!! (index + 1)) && negb (index =? n - 1)
    then index + 1 else index in
  index.

(** Modelled from the spec: [np.histogram(a, bins=bins, range=range,
    weights=weights)] with an integer [bins], the library function the
    reducer calls ("partition the range into num_bins equal-width
    intervals; for every pixel whose angle falls within the range, add
    its count into the owning bin; pixels outside the range are
    dropped"), following numpy's implementation for equal-width bins.
    Returns [(hist, bin_edges)]. *)
Definition histogram (a : list float64) (bins : Z)
    (range : option (float64 * float64)) (weights : list float64)
    : result (list float64 * list float64) :=
  if negb (length weights =? length a) then
    Raise (ValueError "weights should have the same shape as a.")
  else if (bins <? 1)%Z then
    Raise (ValueError "`bins` must be positive, when an integer")
  else
    edges ← _get_outer_edges a range;
    let first_edge := edges.1 in
    let last_edge := edges.2 in
    let n_equal_bins := Z.to_nat bins in
    let bin_edges := linspace first_edge last_edge n_equal_bins in
    let norm := (F.of_nat n_equal_bins / (last_edge - first_edge))%fl in
    let kept :=
      List.filter (fun xw => F.geb xw.1 first_edge && F.leb xw.1 last_edge)
                  (zip a weights) in
    let indices :=
      map (fun xw => bin_index bin_edges n_equal_bins first_edge norm xw.1)
          kept in
    Ok (bincount indices (map snd kept) n_equal_bins, bin_edges).

End Np.

(* ===================================================================== *)
(** * The reduction engine: class PyHB2BReduction *)
(* ===================================================================== *)

(** A position array is either (rows, columns, 3) or (pixels, 3); the angle
    array has the same shape without the last axis. *)
Inductive positions : Type :=
| Pos3 (m : grid)
| Pos2 (a : list pixel).

Inductive angles : Type :=
| Ang2 (p : plane)
| Ang1 (v : list float64).

(** An integer ndarray of detector counts: its shape and its entries. *)
Record int_array : Type := IntArray {
  ia_shape : list nat;
  ia_data : list Z
}.

(** A one-dimensional counts vector. *)
Definition counts_vector (v : list Z) : int_array := IntArray [length v] v.

Module PyHB2BReduction.

Record t : Type := { _instrument : ResidualStressInstrument.t }.

(** [__init__] *)
Definition __init__ (instrument : InstrumentSetup) (junk : nat -> nat -> pixel)
    (h : store) : t * store :=
  let '(i, h) := ResidualStressInstrument.__init__ instrument junk h in
  ({| _instrument := i |}, h).

(** [build_instrument] *)
Definition build_instrument
    (two_theta arm_length_shift center_shift_x center_shift_y
     rot_x_flip rot_y_flip rot_z_spin : float64)
    (self : t) (h : store) : result unit * (t * store) :=
  let calibration :=
    {| center_shift_z := arm_length_shift;
       center_shift_x := center_shift_x;
       center_shift_y := center_shift_y;
       rotation_x := rot_x_flip;
       rotation_y := rot_y_flip;
       rotation_z := rot_z_spin |} in
  let '(r, (i, h)) :=
    ResidualStressInstrument.build_instrument two_theta calibration
      (_instrument self) h in
  ((fun _ => tt) <$> r, ({| _instrument := i |}, h)).

(** [get_pixel_positions] *)
Definition get_pixel_positions (is_matrix : bool) (self : t) (h : store)
    : result positions :=
  if is_matrix
  then Pos3 <$> ResidualStressInstrument.get_pixel_matrix (_instrument self) h
  else Pos2 <$> ResidualStressInstrument.get_pixel_array (_instrument self) h.

(** [k_in_vec = [0, 0, 1]] *)
Definition k_in_vec : vec3 Z := V3 0%Z 0%Z 1%Z.

(** [convert_to_2theta]: the return value, and the argument as the
    in-place normalisation leaves it. *)
Definition convert_to_2theta (des_pos_array : positions) : angles * positions :=
  match des_pos_array with
  | Pos3 m =>
      let det_pos_norm_matrix :=
        map (map F.sqrt)
            (Nd.add (Nd.add (Nd.square (Nd.channel AX m))
                            (Nd.square (Nd.channel AY m)))
                    (Nd.square (Nd.channel AZ m))) in
      let m :=
        foldl (fun m i_dir => Nd.idiv_channel i_dir det_pos_norm_matrix m)
              m range3 in
      let diff_angle_cos_matrix :=
        Nd.add (Nd.add (Nd.times (Nd.channel AX m) (F.of_Z (c0 k_in_vec)))
                       (Nd.times (Nd.channel AY m) (F.of_Z (c1 k_in_vec))))
               (Nd.times (Nd.channel AZ m) (F.of_Z (c2 k_in_vec))) in
      let twotheta_matrix :=
        Nd.over (Nd.times (map (map F.arccos) diff_angle_cos_matrix) (Fin 180))
                F.pi in
      (Ang2 twotheta_matrix, Pos3 m)
  | Pos2 a =>
      let det_pos_norm_array :=
        map F.sqrt
            (Nd1.add (Nd1.add (Nd1.square (Nd1.channel AX a))
                              (Nd1.square (Nd1.channel AY a)))
                     (Nd1.square (Nd1.channel AZ a))) in
      let a :=
        foldl (fun a i_dir => Nd1.idiv_channel i_dir det_pos_norm_array a)
              a range3 in
      let diff_angle_cos_array :=
        Nd1.add (Nd1.add (Nd1.times (Nd1.channel AX a) (F.of_Z (c0 k_in_vec)))
                         (Nd1.times (Nd1.channel AY a) (F.of_Z (c1 k_in_vec))))
                (Nd1.times (Nd1.channel AZ a) (F.of_Z (c2 k_in_vec))) in
      let twotheta_array :=
        Nd1.over (Nd1.times (map F.arccos diff_angle_cos_array) (Fin 180))
                 F.pi in
      (Ang1 twotheta_array, Pos2 a)
  end.

(** the angle vector of a (pixels, 3) array *)
Definition two_theta_of (pixel_array : list pixel) : list float64 :=
  match (convert_to_2theta (Pos2 pixel_array)).1 with
  | Ang1 v => v
  | Ang2 _ => []
  end.

(** Modelled from the spec: [checkdatatypes.check_numpy_arrays] as the
    reducer calls it on the counts and the mask, with dimension 1 and the
    same-shape flag ("if mask is supplied it must also match that
    shape"); the function is defined outside the files at hand. *)
Definition check_numpy_arrays (counts_array : int_array) (mask : list float64)
    : result unit :=
  if decide (ia_shape counts_array = [length mask]) then Ok tt
  else Raise (AssertionError "Counts vector and mask vector").

(** [reduce_to_2theta_histogram]; returns [(bin_edges, hist)]. *)
Definition reduce_to_2theta_histogram (self : t) (h : store)
    (counts_array : int_array) (mask : option (list float64))
    (num_bins : Z) (x_range : option (float64 * float64))
    (is_point_data : bool) : result (list float64 * list float64) :=
  pixel_array ← ResidualStressInstrument.get_pixel_array (_instrument self) h;
  let two_theta_array := two_theta_of pixel_array in
  if decide ([length two_theta_array] ≠ ia_shape counts_array) then
    Raise (RuntimeError "Counts (array) has a different ... blabla")
  else
    let vec_counts := map F.of_Z (ia_data counts_array) in
    _ ← match x_range with
        | Some (lo, hi) =>
            if F.geb lo hi
            then Raise (RuntimeError "X range {} is not allowed")
            else Ok tt
        | None => Ok tt
        end;
    vec_counts ← match mask with
                 | Some mask =>
                     _ ← check_numpy_arrays counts_array mask;
                     Ok (zip_with F.mul vec_counts mask)
                 | None => Ok vec_counts
                 end;
    hb ← Np.histogram two_theta_array num_bins x_range vec_counts;
    let hist := hb.1 in
    let bin_edges := hb.2 in
    let bin_edges :=
      if is_point_data then
        let delta_bin := (bin_edges !!! 1 - bin_edges !!! 0)%fl in
        let bin_edges := map (fun e => e + delta_bin * Fin 0.5)%fl bin_edges in
        removelast bin_edges
      else bin_edges in
    Ok (bin_edges, hist).

End PyHB2BReduction.

(* ===================================================================== *)
(** * The result store: class HidraWorkspace *)
(* ===================================================================== *)

(** A float ndarray as the workspace keeps them: one-dimensional (as a
    project file may leave the 2theta vector) or two-dimensional with its
    shape. *)
Inductive fl_array : Type :=
| Arr1 (v : list float64)
| Arr2 (nrows ncols : nat) (rows : list (list float64)).

(** Modelled from the spec: [instrument_geometry.AnglerCameraDetectorShift],
    the calibration shift object handed to the orchestrator; the class is
    declared outside the files at hand. *)
Definition AnglerCameraDetectorShift : Type := ResidualStressInstrumentCalibration.

Module HidraWorkspace.

Record t : Type := {
  _name : string;
  _raw_counts : gmap Z int_array;
  _sub_run_to_spectrum : option (gmap Z nat);
  _spectrum_to_sub_run : option (gmap nat Z);
  _2theta_matrix : option fl_array;
  _diff_data_set : gmap (option string) fl_array;
  _instrument_setup : option InstrumentSetup;
  _instrument_geometry_shift : option AnglerCameraDetectorShift;
  _sample_log_dict : gmap string (gmap Z float64)
}.

(** the names an instance answers to: the methods and properties of the
    class and the fields [__init__] sets *)
Definition attrs : list string :=
  [ "__init__"; "name"; "_create_subrun_spectrum_map"; "_load_raw_counts";
    "_load_reduced_diffraction_data"; "_load_instrument";
    "_load_sample_logs"; "_load_wave_length"; "get_2theta"; "get_l2";
    "get_instrument_setup"; "get_detector_counts"; "get_sub_runs";
    "get_wave_length"; "load_hidra_project"; "get_detector_shift";
    "get_reduced_diffraction_data_set"; "get_reduced_diffraction_data";
    "get_sample_log_value"; "get_sample_log_values"; "get_spectrum_index";
    "get_sub_runs_from_spectrum"; "has_raw_data"; "has_sample_log";
    "set_raw_counts"; "set_reduced_diffraction_data"; "set_sample_log";
    "set_sub_runs"; "save_experimental_data";
    "save_reduced_diffraction_data"; "sample_log_names";
    "sample_logs_for_plot"; "set_wave_length";
    "_name"; "_raw_counts"; "_sub_run_to_spectrum"; "_spectrum_to_sub_run";
    "_sub_run_array"; "_wave_length_dict"; "_wave_length_calibrated_dict";
    "_2theta_matrix"; "_diff_data_set"; "_instrument_setup";
    "_instrument_geometry_shift"; "_sample_log_dict"; "_project_file_name" ].

(** [__init__] *)
Definition __init__ (name : string) : t :=
  {| _name := name; _raw_counts := ∅;
     _sub_run_to_spectrum := None; _spectrum_to_sub_run := None;
     _2theta_matrix := None; _diff_data_set := ∅;
     _instrument_setup := None; _instrument_geometry_shift := None;
     _sample_log_dict := ∅ |}.

Definition with_2theta_matrix (m : fl_array) (self : t) : t :=
  {| _name := _name self; _raw_counts := _raw_counts self;
     _sub_run_to_spectrum := _sub_run_to_spectrum self;
     _spectrum_to_sub_run := _spectrum_to_sub_run self;
     _2theta_matrix := Some m; _diff_data_set := _diff_data_set self;
     _instrument_setup := _instrument_setup self;
     _instrument_geometry_shift := _instrument_geometry_shift self;
     _sample_log_dict := _sample_log_dict self |}.

Definition with_diff_data_set (d : gmap (option string) fl_array) (self : t) : t :=
  {| _name := _name self; _raw_counts := _raw_counts self;
     _sub_run_to_spectrum := _sub_run_to_spectrum self;
     _spectrum_to_sub_run := _spectrum_to_sub_run self;
     _2theta_matrix := _2theta_matrix self; _diff_data_set := d;
     _instrument_setup := _instrument_setup self;
     _instrument_geometry_shift := _instrument_geometry_shift self;
     _sample_log_dict := _sample_log_dict self |}.

Definition with_sub_runs (s2s : gmap Z nat) (s2r : gmap nat Z) (self : t) : t :=
  {| _name := _name self; _raw_counts := _raw_counts self;
     _sub_run_to_spectrum := Some s2s;
     _spectrum_to_sub_run := Some s2r;
     _2theta_matrix := _2theta_matrix self;
     _diff_data_set := _diff_data_set self;
     _instrument_setup := _instrument_setup self;
     _instrument_geometry_shift := _instrument_geometry_shift self;
     _sample_log_dict := _sample_log_dict self |}.

(** [_create_subrun_spectrum_map]: two new dictionaries, filled by
    [for spec_id, sub_run in enumerate(sorted(sub_run_list))] with one
    assignment to each per round, so that a sub run listed twice keeps the
    spectrum of its last occurrence.  The method also sets
    [_sub_run_array], which no method below reads. *)
Definition _create_subrun_spectrum_map (sub_run_list : list Z) (self : t) : t :=
  let sorted_list := merge_sort Z.le sub_run_list in
  let maps :=
    foldl (fun (maps : gmap Z nat * gmap nat Z) (entry : nat * Z) =>
             (<[entry.2 := entry.1]> maps.1, <[entry.1 := entry.2]> maps.2))
          (∅, ∅) (zip (seq 0 (length sorted_list)) sorted_list) in
  with_sub_runs maps.1 maps.2 self.

(** [a.shape[1]] *)
Definition shape1 (a : fl_array) : result nat :=
  match a with
  | Arr1 _ => Raise (IndexError "tuple index out of range")
  | Arr2 _ ncols _ => Ok ncols
  end.

(** [np.ndarray(shape=(nrows, ncols))]; the entries are what the
    allocator leaves there *)
Definition ndarray (nrows ncols : nat) (junk : nat -> nat -> float64) : fl_array :=
  Arr2 nrows ncols (map (fun r => map (junk r) (seq 0 ncols)) (seq 0 nrows)).

(** [a[i] = v] for a vector [v] whose length is the row length *)
Definition set_row (i : nat) (v : list float64) (a : fl_array) : result fl_array :=
  match a with
  | Arr1 _ => Raise (ValueError "setting an array element with a sequence.")
  | Arr2 nrows ncols rows =>
      if decide (i < nrows) then Ok (Arr2 nrows ncols (<[i := v]> rows))
      else Raise (IndexError "index out of bounds")
  end.

Section Methods.

(** [checkdatatypes.check_int_variable] and [check_string_variable] are
    defined outside the files at hand: whatever they do on a value,
    they pass or raise. *)
Variable check_int_variable :
  string -> Z -> option Z * option Z -> result unit.
Variable check_string_variable : string -> string -> result unit.
(** [rs_project_file.HidraConstants.TWO_THETA] *)
Variable TWO_THETA : string.
(** what a freshly allocated array holds *)
Variable junk : nat -> nat -> float64.

(** [get_2theta] *)
Definition get_2theta (sub_run : Z) (self : t) : result float64 :=
  _ ← check_int_variable "Sub run number" sub_run (Some 0%Z, None);
  match _sample_log_dict self !! TWO_THETA ≫= fun log => log !! sub_run with
  | Some two_theta => Ok two_theta
  | None =>
      Raise (RuntimeError
               "Unable to retrieve 2theta value ({}) from sub run {} due to missing key {}.")
  end.

(** [get_instrument_setup] *)
Definition get_instrument_setup (self : t) : option InstrumentSetup :=
  _instrument_setup self.

(** [get_detector_shift] *)
Definition get_detector_shift (self : t) : option AnglerCameraDetectorShift :=
  _instrument_geometry_shift self.

(** [get_detector_counts] *)
Definition get_detector_counts (sub_run : Z) (self : t) : result int_array :=
  _ ← check_int_variable "Sub run number" sub_run (Some 1%Z, None);
  match _raw_counts self !! sub_run with
  | Some counts => Ok counts
  | None =>
      Raise (RuntimeError "Sub run {} does not exist in loaded raw counts.")
  end.

(** [get_sub_runs] *)
Definition get_sub_runs (self : t) : result (list Z) :=
  match _sub_run_to_spectrum self with
  | None => Raise (AttributeError "NoneType" "keys")
  | Some s2s =>
      let sub_runs := (map_to_list s2s).*1 in
      if decide (length sub_runs = 0)
      then Raise (RuntimeError "Sub run - spectrum map has not been built")
      else Ok (merge_sort Z.le sub_runs)
  end.

(** [set_reduced_diffraction_data]; the outcome and the workspace as
    the call leaves it. *)
Definition set_reduced_diffraction_data (sub_run : Z)
    (mask_id : option string) (two_theta_array intensity_array : list float64)
    (self : t) : result unit * t :=
  match _sub_run_to_spectrum self with
  | None =>
      (Raise (RuntimeError "Sub run - spectrum map has not been set up yet!"),
       self)
  | Some sub_run_to_spectrum =>
  match check_int_variable "Sub run number" sub_run (Some 1%Z, None) with
  | Raise e => (Raise e, self)
  | Ok _ =>
  match (match mask_id with
         | Some m => check_string_variable "Mask ID" m
         | None => Ok tt
         end) with
  | Raise e => (Raise e, self)
  | Ok _ =>
  (* two theta array and intensity array shall match on size *)
  if decide ([length two_theta_array] ≠ [length intensity_array]) then
    (Raise (RuntimeError
              "Two theta array (bin centers) must have same dimension as intensity array. Now they are {} and {}"),
     self)
  else
  (* Set 2-theta 2D array *)
  let num_sub_runs := size sub_run_to_spectrum in
  let self :=
    match _2theta_matrix self with
    | Some (Arr2 _ _ _) => self
    | _ =>
        with_2theta_matrix
          (ndarray num_sub_runs (length two_theta_array) junk) self
    end in
  (* Set intensity data set (matrix) if not initialized yet *)
  let self :=
    match _diff_data_set self !! mask_id with
    | Some _ => self
    | None =>
        with_diff_data_set
          (<[mask_id := ndarray num_sub_runs (length intensity_array) junk]>
             (_diff_data_set self)) self
    end in
  (* Get spectrum index from sub run number *)
  match sub_run_to_spectrum !! sub_run with
  | None => (Raise (KeyError "sub_run"), self)
  | Some spec_id =>
  let tth := default (Arr1 []) (_2theta_matrix self) in
  let dds := default (Arr1 []) (_diff_data_set self !! mask_id) in
  (* Another sanity check on the size of 2theta and intensity.  Both
     shape[1] are read before the RuntimeError is raised: the second one as
     the right operand of `or`, or, when the left operand already holds, as
     the last argument of the message's format(), so that an array
     without a second axis raises IndexError in either case. *)
  match shape1 tth, shape1 dds with
  | Raise e, _ | Ok _, Raise e => (Raise e, self)
  | Ok tth_cols, Ok dds_cols =>
  if negb (tth_cols =? length two_theta_array)
     || negb (dds_cols =? length intensity_array) then
    (Raise (RuntimeError
              "2theta vector are different between parent method set {} and reduction engine returned {} OR Histogram (shape: {}) to set does not match data diffraction data set defined in worksapce (shape: {})"),
     self)
  else
  (* Set 2theta array *)
  match set_row spec_id two_theta_array tth with
  | Raise e => (Raise e, self)
  | Ok tth =>
  let self := with_2theta_matrix tth self in
  (* Set intensity *)
  match set_row spec_id intensity_array dds with
  | Raise e => (Raise e, self)
  | Ok dds =>
  (Ok tt, with_diff_data_set (<[mask_id := dds]> (_diff_data_set self)) self)
  end end end end end end end.

(** the histogram stored for a sub-run under a mask id *)
Definition stored (sub_run : Z) (mask_id : option string) (self : t)
    : option (list float64 * list float64) :=
  s2s ← _sub_run_to_spectrum self;
  spec_id ← s2s !! sub_run;
  tth ← _2theta_matrix self;
  dds ← _diff_data_set self !! mask_id;
  match tth, dds with
  | Arr2 _ _ trows, Arr2 _ _ drows =>
      x ← trows !! spec_id; y ← drows !! spec_id; Some (x, y)
  | _, _ => None
  end.

End Methods.

End HidraWorkspace.

#[global] Instance workspace_inhabited : Inhabited HidraWorkspace.t :=
  populate (HidraWorkspace.__init__ "hidradata").

(* ===================================================================== *)
(** * The orchestrator: class HB2BReductionManager *)
(* ===================================================================== *)

(** Computations that change an object and may raise: the outcome, and the
    object as the computation leaves it. *)
Definition stM (S A : Type) : Type := S -> result A * S.

Definition st_bind {S A B} (m : stM S A) (f : A -> stM S B) : stM S B :=
  fun s => match m s with
           | (Ok a, s') => f a s'
           | (Raise e, s') => (Raise e, s')
           end.

Definition st_lift {S A} (r : result A) : stM S A := fun s => (r, s).

Definition st_get {S} : stM S S := fun s => (Ok s, s).

Definition st_put {S} (s : S) : stM S unit := fun _ => (Ok tt, s).

Notation "x <~ m ;; k" := (st_bind m (fun x => k))
  (at level 100, m at next level, right associativity).

(** [for x in l: body x] *)
Fixpoint st_for {S A} (l : list A) (body : A -> stM S unit) : stM S unit :=
  match l with
  | [] => st_lift (Ok tt)
  | x :: l => _ <~ body x ;; st_for l body
  end.

(** the computation raises from state [s] and leaves [s] as it was *)
Definition raises_unchanged {S A} (m : stM S A) (s : S) : Prop :=
  (exists e, (m s).1 = Raise e) /\ (m s).2 = s.

(** [obj.name(...)] on an instance of class [cls] answering to the names
    [attrs]: the attribute is looked up, then the call runs [body]. *)
Definition call {A} (cls : string) (attrs : list string) (name : string)
    (body : result A) : result A :=
  if decide (name ∈ attrs) then body else Raise (AttributeError cls name).

(** what stands for the body of a method the class does not define *)
Definition no_method {A} (cls name : string) : result A :=
  Raise (AttributeError cls name).

(** the [mask] argument: nothing, a mask ID, or a mask vector *)
Inductive mask_arg : Type :=
| MaskNone
| MaskId (mask_id : string)
| MaskVector (mask_vec : list float64).

(** the [apply_calibrated_geometry] argument: a shift object or a flag *)
Inductive geometry_arg : Type :=
| ShiftObject (shift : AnglerCameraDetectorShift)
| ShiftFlag (flag : bool).

Module HB2BReductionManager.

(** the names an instance of [PyHB2BReduction] answers to *)
Definition PyHB2BReduction_attrs : list string :=
  [ "__init__"; "build_instrument"; "get_pixel_positions";
    "convert_to_2theta"; "reduce_to_2theta_histogram"; "_instrument" ].

Section Manager.

Variable check_int_variable :
  string -> Z -> option Z * option Z -> result unit.
Variable check_string_variable : string -> string -> result unit.
Variable TWO_THETA : string.
Variable junk : nat -> nat -> float64.
Variable pixel_junk : nat -> nat -> pixel.

(** The other engine, [reduce_hb2b_mtd.MantidHB2BReduction], is defined
    outside the files at hand: its instances and the methods the
    orchestrator calls on them. *)
Variable MantidHB2BReduction : Type.
Variable mantid_new : option string -> MantidHB2BReduction.
Variable mantid_set_experimental_data :
  float64 -> int_array -> MantidHB2BReduction -> result MantidHB2BReduction.
Variable mantid_build_instrument :
  option AnglerCameraDetectorShift -> MantidHB2BReduction ->
  result MantidHB2BReduction.
Variable mantid_set_mask :
  list float64 -> MantidHB2BReduction -> result MantidHB2BReduction.
Variable mantid_reduce_to_2theta_histogram :
  MantidHB2BReduction -> result (list float64 * list float64).

Inductive engine : Type :=
| Mantid (e : MantidHB2BReduction)
| PyRS (e : PyHB2BReduction.t) (h : store).

(** A workspace is an object shared between [_curr_workspace] and
    [_session_dict]: both hold the name under which [workspaces]
    keeps it. *)
Record t : Type := {
  workspaces : gmap string HidraWorkspace.t;
  _curr_workspace : option string;
  _curr_session_name : option string;
  _session_dict : gmap string string;
  _last_reduction_engine : option engine;
  _mantid_idf : option string;
  _loaded_mask_dict : gmap string (list float64 * float64 * string)
}.

Definition with_workspace (ref : string) (ws : HidraWorkspace.t) (self : t) : t :=
  {| workspaces := <[ref := ws]> (workspaces self);
     _curr_workspace := _curr_workspace self;
     _curr_session_name := _curr_session_name self;
     _session_dict := _session_dict self;
     _last_reduction_engine := _last_reduction_engine self;
     _mantid_idf := _mantid_idf self;
     _loaded_mask_dict := _loaded_mask_dict self |}.

Definition with_last_reduction_engine (e : engine) (self : t) : t :=
  {| workspaces := workspaces self;
     _curr_workspace := _curr_workspace self;
     _curr_session_name := _curr_session_name self;
     _session_dict := _session_dict self;
     _last_reduction_engine := Some e;
     _mantid_idf := _mantid_idf self;
     _loaded_mask_dict := _loaded_mask_dict self |}.

(** [__init__] *)
Definition __init__ : t :=
  {| workspaces := ∅; _curr_workspace := None; _curr_session_name := None;
     _session_dict := ∅; _last_reduction_engine := None;
     _mantid_idf := None; _loaded_mask_dict := ∅ |}.

(** [init_session] *)
Definition init_session (session_name : string) : stM t unit := fun self =>
  match check_string_variable "Reduction session name" session_name with
  | Raise e => (Raise e, self)
  | Ok _ =>
      if decide (session_name = "" \/ is_Some (_session_dict self !! session_name))
      then (Raise (RuntimeError
                     "Session name {} is either empty or previously used (not unique)"),
            self)
      else
        (Ok tt,
         {| workspaces :=
              <[session_name := HidraWorkspace.__init__ "hidradata"]> (workspaces self);
            _curr_workspace := Some session_name;
            _curr_session_name := Some session_name;
            _session_dict := <[session_name := session_name]> (_session_dict self);
            _last_reduction_engine := _last_reduction_engine self;
            _mantid_idf := _mantid_idf self;
            _loaded_mask_dict := _loaded_mask_dict self |})
  end.

(** [get_mask_vector] *)
Definition get_mask_vector (mask_id : string) (self : t) : result (list float64) :=
  match _loaded_mask_dict self !! mask_id with
  | Some entry => Ok entry.1.1
  | None => Raise (KeyError "mask_id")
  end.

(** a method call on the workspace object behind a reference; a
    reference may be [None] when no session was initialised *)
Definition ws_call {A} (workspace : option string) (name : string)
    (body : HidraWorkspace.t -> result A) : stM t A := fun self =>
  match workspace with
  | None => (Raise (AttributeError "NoneType" name), self)
  | Some ref =>
      (call "HidraWorkspace" HidraWorkspace.attrs name
            (body (workspaces self !!! ref)), self)
  end.

(** [reduce_sub_run_diffraction] *)
Definition reduce_sub_run_diffraction (workspace : option string)
    (sub_run : Z) (geometry_calibration : option AnglerCameraDetectorShift)
    (use_mantid_engine : bool)
    (mask_vec_id : option string * option (list float64)) : stM t unit :=
  (* Get the raw data *)
  raw_count_vec <~
    ws_call (A := int_array) workspace "get_raw_data"
      (fun _ => no_method "HidraWorkspace" "get_raw_data") ;;
  (* process two theta *)
  two_theta <~
    ws_call workspace "get_2theta"
      (HidraWorkspace.get_2theta check_int_variable TWO_THETA sub_run) ;;
  let two_theta := (- two_theta)%fl in
  (* Set up reduction engine *)
  reduction_engine <~
    (if use_mantid_engine then
       mantid_idf <~ (fun self => (Ok (_mantid_idf self), self)) ;;
       st_lift (
         e ← mantid_set_experimental_data two_theta raw_count_vec
               (mantid_new mantid_idf);
         e ← mantid_build_instrument geometry_calibration e;
         Ok (Mantid e))
     else
       setup <~ ws_call workspace "get_instrument_setup"
                  (fun ws => Ok (HidraWorkspace.get_instrument_setup ws)) ;;
       st_lift (
         setup ← match setup with
                 | Some setup => Ok setup
                 | None => Raise (AssertionError "Instrument setup")
                 end;
         let '(e, h) := PyHB2BReduction.__init__ setup pixel_junk ∅ in
         _ ← call (A := unit) "PyHB2BReduction" PyHB2BReduction_attrs
               "set_experimental_data"
               (no_method "PyHB2BReduction" "set_experimental_data");
         (* one argument where the method takes seven *)
         _ ← call (A := unit) "PyHB2BReduction" PyHB2BReduction_attrs
               "build_instrument"
               (Raise (TypeError "build_instrument() takes exactly 8 arguments (2 given)"));
         _ ← call "PyHB2BReduction" PyHB2BReduction_attrs
               "get_pixel_positions"
               (PyHB2BReduction.get_pixel_positions false e h);
         Ok (PyRS e h))) ;;
  (* Mask *)
  let '(mask_id, mask_vec) := mask_vec_id in
  reduction_engine <~
    st_lift (
      match mask_vec with
      | None => Ok reduction_engine
      | Some mask_vec =>
          match reduction_engine with
          | Mantid e => Mantid <$> mantid_set_mask mask_vec e
          | PyRS e h =>
              call "PyHB2BReduction" PyHB2BReduction_attrs "set_mask"
                   (no_method "PyHB2BReduction" "set_mask")
          end
      end) ;;
  (* Reduce *)
  data_set <~
    st_lift (
      match reduction_engine with
      | Mantid e => mantid_reduce_to_2theta_histogram e
      | PyRS e h =>
          (* keyword arguments the method does not take *)
          call "PyHB2BReduction" PyHB2BReduction_attrs
               "reduce_to_2theta_histogram"
               (Raise (TypeError
                         "reduce_to_2theta_histogram() got an unexpected keyword argument 'apply_mask'"))
      end) ;;
  let bin_edges := data_set.1 in
  let hist := data_set.2 in
  (* record *)
  _ <~ (fun self =>
          match workspace with
          | None => (Raise (AttributeError "NoneType" "set_reduced_diffraction_data"), self)
          | Some ref =>
              let '(r, ws) :=
                HidraWorkspace.set_reduced_diffraction_data
                  check_int_variable check_string_variable junk
                  sub_run mask_id bin_edges hist (workspaces self !!! ref) in
              (r, with_workspace ref ws self)
          end) ;;
  fun self => (Ok tt, with_last_reduction_engine reduction_engine self).

(** [reduce_diffraction_data] *)
Definition reduce_diffraction_data (session_name : option string)
    (apply_calibrated_geometry : geometry_arg) (bin_size_2theta : float64)
    (use_pyrs_engine : bool) (mask : mask_arg) : stM t unit :=
  (* Get workspace *)
  workspace <~
    (fun self =>
       match session_name with
       | None => (Ok (_curr_workspace self), self)
       | Some name =>
           match _session_dict self !! name with
           | Some ref => (Ok (Some ref), self)
           | None => (Raise (KeyError "session_name"), self)
           end
       end) ;;
  (* Process mask: No mask, Mask ID and mask vector *)
  mask_vec_id <~
    (fun self =>
       match mask with
       | MaskNone => (Ok (None, None), self)
       | MaskId mask =>
           ((fun v => (Some mask, Some v)) <$> get_mask_vector mask self, self)
       | MaskVector mask =>
           (* [random.randint(1000)]: one argument where two are needed *)
           (Raise (TypeError "randint() takes exactly 3 arguments (2 given)"), self)
       end) ;;
  (* Apply (or not) instrument geometry calibration shift *)
  det_pos_shift <~
    match apply_calibrated_geometry with
    | ShiftObject shift => st_lift (Ok (Some shift))
    | ShiftFlag true =>
        ws_call workspace "get_detector_shift"
          (fun ws => Ok (HidraWorkspace.get_detector_shift ws))
    | ShiftFlag false => st_lift (Ok None)
    end ;;
  sub_runs <~
    ws_call (A := list Z) workspace "get_subruns"
      (fun _ => no_method "HidraWorkspace" "get_subruns") ;;
  st_for sub_runs (fun sub_run =>
    reduce_sub_run_diffraction workspace sub_run det_pos_shift
      (negb use_pyrs_engine) mask_vec_id).

End Manager.

End HB2BReductionManager.

(* ===================================================================== *)
(** * The other methods of class HidraWorkspace *)
(* ===================================================================== *)

(** One entry [a[i]] of a float array: a number when the array is
    one-dimensional, a row when it is two-dimensional. *)
Inductive fl_item : Type :=
| Item0 (x : float64)
| Item1 (row : list float64).

(** What [get_sample_log_values] returns: the sub runs, when they are asked
    for by name and no log has that name, or the values of one log. *)
Inductive log_values : Type :=
| SubRunList (sub_runs : list Z)
| LogArray (values : list float64).

(** The [wave_length] argument of [set_wave_length]: a float, a dictionary,
    or a value of any other type. *)
Inductive wave_length_arg : Type :=
| WlFloat (w : float64)
| WlDict (d : gmap Z float64)
| WlOther.

(** A loop that collects one value per element; the first exception ends
    it. *)
Fixpoint result_mapM {A B} (f : A -> result B) (l : list A) : result (list B) :=
  match l with
  | [] => Ok []
  | x :: l => y ← f x; ys ← result_mapM f l; Ok (y :: ys)
  end.

(** the order of [(sub run, value)] tuples: the sub runs are the keys of a
    dictionary, so two tuples never agree on the first component *)
Definition key_le (a b : Z * float64) : Prop := (a.1 <= b.1)%Z.

#[global] Instance key_le_dec : RelDecision key_le :=
  fun a b => Z_le_dec a.1 b.1.

Module Workspace.

(** The two wave-length fields of an instance. *)
Record wave_lengths : Type := {
  _wave_length_dict : option (gmap Z float64);
  _wave_length_calibrated_dict : option (gmap Z float64)
}.

(** as [__init__] leaves them *)
Definition no_wave_lengths : wave_lengths :=
  {| _wave_length_dict := None; _wave_length_calibrated_dict := None |}.

Definition with_raw_counts (c : gmap Z int_array) (self : HidraWorkspace.t)
    : HidraWorkspace.t :=
  {| HidraWorkspace._name := HidraWorkspace._name self;
     HidraWorkspace._raw_counts := c;
     HidraWorkspace._sub_run_to_spectrum := HidraWorkspace._sub_run_to_spectrum self;
     HidraWorkspace._spectrum_to_sub_run := HidraWorkspace._spectrum_to_sub_run self;
     HidraWorkspace._2theta_matrix := HidraWorkspace._2theta_matrix self;
     HidraWorkspace._diff_data_set := HidraWorkspace._diff_data_set self;
     HidraWorkspace._instrument_setup := HidraWorkspace._instrument_setup self;
     HidraWorkspace._instrument_geometry_shift :=
       HidraWorkspace._instrument_geometry_shift self;
     HidraWorkspace._sample_log_dict := HidraWorkspace._sample_log_dict self |}.

Definition with_sample_log_dict (d : gmap string (gmap Z float64))
    (self : HidraWorkspace.t) : HidraWorkspace.t :=
  {| HidraWorkspace._name := HidraWorkspace._name self;
     HidraWorkspace._raw_counts := HidraWorkspace._raw_counts self;
     HidraWorkspace._sub_run_to_spectrum := HidraWorkspace._sub_run_to_spectrum self;
     HidraWorkspace._spectrum_to_sub_run := HidraWorkspace._spectrum_to_sub_run self;
     HidraWorkspace._2theta_matrix := HidraWorkspace._2theta_matrix self;
     HidraWorkspace._diff_data_set := HidraWorkspace._diff_data_set self;
     HidraWorkspace._instrument_setup := HidraWorkspace._instrument_setup self;
     HidraWorkspace._instrument_geometry_shift :=
       HidraWorkspace._instrument_geometry_shift self;
     HidraWorkspace._sample_log_dict := d |}.

(** [sorted(l)] on integers *)
Definition sorted (l : list Z) : list Z := merge_sort Z.le l.

(** The two dictionaries [_create_subrun_spectrum_map] fills, by
    themselves. *)
Definition subrun_spectrum_maps (sub_run_list : list Z)
    : gmap Z nat * gmap nat Z :=
  foldl (fun maps entry =>
           (<[entry.2 := entry.1]> maps.1, <[entry.1 := entry.2]> maps.2))
        (∅, ∅)
        (zip (seq 0 (length (sorted sub_run_list))) (sorted sub_run_list)).

(** [set_sub_runs] *)
Definition set_sub_runs (sub_runs : list Z) (self : HidraWorkspace.t)
    : HidraWorkspace.t :=
  let sub_runs := sorted sub_runs in
  HidraWorkspace._create_subrun_spectrum_map sub_runs self.

(** [a[i]] *)
Definition getitem (i : nat) (a : fl_array) : result fl_item :=
  match a with
  | Arr1 v =>
      match v !! i with
      | Some x => Ok (Item0 x)
      | None => Raise (IndexError "index out of bounds")
      end
  | Arr2 _ _ rows =>
      match rows !! i with
      | Some row => Ok (Item1 row)
      | None => Raise (IndexError "index out of bounds")
      end
  end.

(** the number of rows a two-dimensional array holds is the one its shape
    gives *)
Definition wf_array (a : fl_array) : Prop :=
  match a with
  | Arr1 _ => True
  | Arr2 nrows _ rows => length rows = nrows
  end.

(** every array of reduced data the workspace holds is well formed *)
Definition wf (self : HidraWorkspace.t) : Prop :=
  (forall a, HidraWorkspace._2theta_matrix self = Some a -> wf_array a) /\
  (forall k a, HidraWorkspace._diff_data_set self !! k = Some a -> wf_array a).

Section Methods.

(** The checkers of [checkdatatypes] are defined outside the files at
    hand: whatever they do on a value, they pass or raise.
    [check_string_variable_in] is [check_string_variable] called with a
    list of allowed values, [check_numpy_arrays] is given the shapes of
    the arrays, the dimension and the same-shape flag. *)
Variable check_int_variable :
  string -> Z -> option Z * option Z -> result unit.
Variable check_string_variable : string -> string -> result unit.
Variable check_string_variable_in :
  string -> string -> list string -> result unit.
Variable check_numpy_arrays :
  string -> list (list nat) -> option nat -> bool -> result unit.
(** [rs_project_file.HidraConstants.L2] and [SUB_RUNS] *)
Variable L2 : string.
Variable SUB_RUNS : string.
(** Whether the built-in [zip] returns a list, as under Python 2, or an
    iterator, as under Python 3; an iterator has no [sort]. *)
Variable zip_returns_list : bool.

(** [get_l2] *)
Definition get_l2 (sub_run : Z) (self : HidraWorkspace.t)
    : result (option float64) :=
  _ ← check_int_variable "Sub run number" sub_run (Some 0%Z, None);
  match HidraWorkspace._sample_log_dict self !! L2 with
  | Some log =>
      match log !! sub_run with
      | Some l2 => Ok (Some l2)
      | None =>
          Raise (RuntimeError
                   "Unable to retrieve L2 value for {} due to {}. Available sun runs are {}")
      end
  | None => Ok None
  end.

(** [get_wave_length] *)
Definition get_wave_length (calibrated throw_if_not_set : bool)
    (wl : wave_lengths) : result (option (gmap Z float64)) :=
  if calibrated then
    match _wave_length_calibrated_dict wl with
    | None =>
        if throw_if_not_set
        then Raise (RuntimeError
                      "There is no calibrated wave length in HidraWorkspace {}")
        else Ok None
    | Some d => Ok (Some d)
    end
  else
    match _wave_length_dict wl with
    | None =>
        if throw_if_not_set
        then Raise (RuntimeError
                      "There is no original/native wave length in HidraWorkspace {}")
        else Ok None
    | Some d => Ok (Some d)
    end.

(** [get_reduced_diffraction_data_set]; the two copies it returns *)
Definition get_reduced_diffraction_data_set (mask_id : option string)
    (self : HidraWorkspace.t) : result (fl_array * fl_array) :=
  _ ← match mask_id with
      | None => Ok tt
      | Some m => check_string_variable "Mask ID" m
      end;
  matrix_2theta ← match HidraWorkspace._2theta_matrix self with
                  | Some a => Ok a
                  | None => Raise (AttributeError "NoneType" "copy")
                  end;
  intensity_matrix ←
    match HidraWorkspace._diff_data_set self !! mask_id with
    | Some a => Ok a
    | None =>
        Raise (RuntimeError
                 "Mask ID {} does not exist in reduced diffraction pattern. The available masks are {}")
    end;
  Ok (matrix_2theta, intensity_matrix).

(** [get_reduced_diffraction_data].  Only a missing mask is turned into a
    [RuntimeError]; an index out of bounds is raised as it is.  A row of a
    one-dimensional array is a number, which cannot be sliced but can be
    copied. *)
Definition get_reduced_diffraction_data (sub_run : Z)
    (mask_id : option string) (self : HidraWorkspace.t)
    : result (list float64 * fl_item) :=
  _ ← check_int_variable "Sub run number" sub_run (Some 1%Z, None);
  _ ← match mask_id with
      | None => Ok tt
      | Some m => check_string_variable "Mask ID" m
      end;
  sub_run_to_spectrum ←
    match HidraWorkspace._sub_run_to_spectrum self with
    | Some m => Ok m
    | None => Raise (TypeError "argument of type 'NoneType' is not iterable")
    end;
  spec_index ←
    match sub_run_to_spectrum !! sub_run with
    | Some i => Ok i
    | None =>
        Raise (RuntimeError
                 "Sub run {} does not exist. FYI: available sub runs are {}")
    end;
  (* Vector 2theta *)
  matrix_2theta ←
    match HidraWorkspace._2theta_matrix self with
    | Some a => Ok a
    | None => Raise (TypeError "'NoneType' object has no attribute '__getitem__'")
    end;
  row ← getitem spec_index matrix_2theta;
  vec_2theta ← match row with
               | Item1 r => Ok r
               | Item0 _ => Raise (IndexError "invalid index to scalar variable.")
               end;
  (* Vector intensity *)
  vec_intensity ←
    match HidraWorkspace._diff_data_set self !! mask_id with
    | Some a => getitem spec_index a
    | None =>
        Raise (RuntimeError
                 "Mask ID {} does not exist in reduced diffraction pattern. The available masks are {}")
    end;
  Ok (vec_2theta, vec_intensity).

(** [get_sample_log_value]; [sub_run] defaults to [None], which is the key
    of no entry *)
Definition get_sample_log_value (sample_log_name : string)
    (sub_run : option Z) (self : HidraWorkspace.t) : result float64 :=
  let logs := HidraWorkspace._sample_log_dict self in
  _ ← check_string_variable_in "Sample log name" sample_log_name
        (map_to_list logs).*1;
  match logs !! sample_log_name with
  | None => Raise (KeyError "sample_log_name")
  | Some log =>
      match sub_run ≫= fun s => log !! s with
      | Some v => Ok v
      | None => Raise (KeyError "sub_run")
      end
  end.

(** [get_sample_log_values] *)
Definition get_sample_log_values (sample_log_name : string)
    (sub_runs : option (list Z)) (self : HidraWorkspace.t)
    : result log_values :=
  let logs := HidraWorkspace._sample_log_dict self in
  if decide (sample_log_name = SUB_RUNS /\ logs !! sample_log_name = None) then
    SubRunList <$> HidraWorkspace.get_sub_runs self
  else
    _ ← check_string_variable_in "Sample log name" sample_log_name
          (map_to_list logs).*1;
    log ← match logs !! sample_log_name with
          | Some log => Ok log
          | None => Raise (KeyError "sample_log_name")
          end;
    match sub_runs with
    | None =>
        (* all sub runs' values ordered by sub run number *)
        if zip_returns_list then
          let tuple_list := merge_sort key_le (map_to_list log) in
          match tuple_list with
          | [] => Raise (IndexError "list index out of range")
          | _ => Ok (LogArray tuple_list.*2)
          end
        else Raise (AttributeError "zip" "sort")
    | Some sub_runs =>
        (* selected sub runs; the first one gives the type of the array *)
        _ ← match sub_runs with
            | [] => Raise (IndexError "list index out of range")
            | s0 :: _ =>
                match log !! s0 with
                | Some _ => Ok tt
                | None => Raise (KeyError "sub_run")
                end
            end;
        LogArray <$>
          result_mapM (fun s => match log !! s with
                                | Some v => Ok v
                                | None => Raise (KeyError "sub_run")
                                end) sub_runs
    end.

(** [get_spectrum_index] *)
Definition get_spectrum_index (sub_run : Z) (self : HidraWorkspace.t)
    : result nat :=
  _ ← check_int_variable "Sub run number" sub_run (Some 0%Z, None);
  match HidraWorkspace._sub_run_to_spectrum self with
  | None => Raise (TypeError "argument of type 'NoneType' is not iterable")
  | Some sub_run_to_spectrum =>
      match sub_run_to_spectrum !! sub_run with
      | Some spec => Ok spec
      | None =>
          Raise (KeyError
                   "Sub run {} does not exist in spectrum/sub run map.  Available sub runs are {}")
      end
  end.

(** [get_sub_runs_from_spectrum] on a list of workspace indexes *)
Definition get_sub_runs_from_spectrum (spectra : list Z)
    (self : HidraWorkspace.t) : result (list Z) :=
  result_mapM
    (fun ws_index =>
       match HidraWorkspace._spectrum_to_sub_run self with
       | None => Raise (TypeError "'NoneType' object has no attribute '__getitem__'")
       | Some spectrum_to_sub_run =>
           match (if (ws_index <? 0)%Z then None
                  else spectrum_to_sub_run !! Z.to_nat ws_index) with
           | Some sub_run => Ok sub_run
           | None => Raise (KeyError "ws_index")
           end
       end) spectra.

(** [has_raw_data] *)
Definition has_raw_data (sub_run : Z) (self : HidraWorkspace.t) : result bool :=
  _ ← check_int_variable "Sub run" sub_run (Some 1%Z, None);
  Ok (bool_decide (is_Some (HidraWorkspace._raw_counts self !! sub_run))).

(** [has_sample_log] *)
Definition has_sample_log (sample_log_name : string) (self : HidraWorkspace.t)
    : result bool :=
  _ ← check_string_variable "Sample log name" sample_log_name;
  Ok (bool_decide (is_Some (HidraWorkspace._sample_log_dict self !! sample_log_name))).

(** [set_raw_counts]; the outcome and the workspace as the call leaves it *)
Definition set_raw_counts (sub_run_number : Z) (counts : int_array)
    (self : HidraWorkspace.t) : result unit * HidraWorkspace.t :=
  match check_int_variable "Sub run number" sub_run_number (Some 1%Z, None) with
  | Raise e => (Raise e, self)
  | Ok _ =>
  match check_numpy_arrays "Counts" [ia_shape counts] None false with
  | Raise e => (Raise e, self)
  | Ok _ =>
      (Ok tt,
       with_raw_counts (<[sub_run_number := counts]> (HidraWorkspace._raw_counts self))
                       self)
  end end.

(** [set_sample_log]: the log is started afresh, then filled pair by
    pair *)
Definition set_sample_log (log_name : string) (sub_runs : list Z)
    (log_value_array : list float64) (self : HidraWorkspace.t)
    : result unit * HidraWorkspace.t :=
  match check_string_variable "Log name" log_name with
  | Raise e => (Raise e, self)
  | Ok _ =>
  match check_numpy_arrays "Sub runs and log values"
          [[length sub_runs]; [length log_value_array]] (Some 1) true with
  | Raise e => (Raise e, self)
  | Ok _ =>
      let log :=
        foldl (fun log entry => <[entry.1 := entry.2]> log) ∅
              (zip sub_runs log_value_array) in
      (Ok tt,
       with_sample_log_dict (<[log_name := log]> (HidraWorkspace._sample_log_dict self))
                            self)
  end end.

(** [sample_log_names] *)
Definition sample_log_names (self : HidraWorkspace.t) : list string :=
  (map_to_list (HidraWorkspace._sample_log_dict self)).*1.

(** [set_wave_length]; the outcome and the wave-length fields as the call
    leaves them *)
Definition set_wave_length (wave_length : wave_length_arg) (calibrated : bool)
    (self : HidraWorkspace.t) (wl : wave_lengths)
    : result unit * wave_lengths :=
  (* Get the sub runs *)
  match HidraWorkspace.get_sub_runs self with
  | Raise e => (Raise e, wl)
  | Ok sub_runs =>
  match (match wave_length with
         | WlFloat w =>
             Ok (foldl (fun wl_dict sub_run => <[sub_run := w]> wl_dict) ∅ sub_runs)
         | WlDict d =>
             let dict_keys := sorted (map_to_list d).*1 in
             if decide (dict_keys ≠ sub_runs)
             then Raise (RuntimeError
                           "Input wave length dictionary has different set of sub runs")
             else Ok d
         | WlOther =>
             Raise (RuntimeError "Wave length {} in format {} is not supported.")
         end) with
  | Raise e => (Raise e, wl)
  | Ok wl_dict =>
      (Ok tt,
       if calibrated
       then {| _wave_length_dict := _wave_length_dict wl;
               _wave_length_calibrated_dict := Some wl_dict |}
       else {| _wave_length_dict := Some wl_dict;
               _wave_length_calibrated_dict := _wave_length_calibrated_dict wl |})
  end end.

End Methods.

End Workspace.

(* ===================================================================== *)
(** * The other methods of class HB2BReductionManager *)
(* ===================================================================== *)

(** [os.path.basename] on POSIX paths and [str.split('.')[0]] *)
Module Path.

(** the characters ['/'] and ['.'] *)
Definition slash : Ascii.ascii := Ascii.ascii_of_nat 47.
Definition dot : Ascii.ascii := Ascii.ascii_of_nat 46.

(** [c in s] *)
Fixpoint contains (c : Ascii.ascii) (s : string) : bool :=
  match s with
  | EmptyString => false
  | String a s => Ascii.eqb a c || contains c s
  end.

(** [p[p.rfind('/') + 1:]] *)
Fixpoint basename (p : string) : string :=
  match p with
  | EmptyString => EmptyString
  | String a p' =>
      if contains slash p' then basename p'
      else if Ascii.eqb a slash then p' else p
  end.

(** [s.split(c)[0]]: what comes before the first [c] *)
Fixpoint before (c : Ascii.ascii) (s : string) : string :=
  match s with
  | EmptyString => EmptyString
  | String a s => if Ascii.eqb a c then EmptyString else String a (before c s)
  end.

End Path.

Module ReductionManager.

(** [_generate_ws_name] *)
Definition _generate_ws_name (file_name : string) (is_nexus : bool) : string :=
  let ws_name := Path.before Path.dot (Path.basename file_name) in
  if is_nexus then ws_name +:+ "__nexus" else ws_name.

End ReductionManager.

(* ===================================================================== *)
(** * What the specification says *)
(* ===================================================================== *)

Module Spec.

(** the raw grid entry at [r, c]:
    ((C*0.5 - 0.5)*px - c*px, -(R*0.5 - 0.5)*py + r*py, 0) *)
Definition raw_pixel (setup : InstrumentSetup) (r c : nat) : pixel :=
  V3 ((F.of_nat (detector_columns setup) * Fin 0.5 - Fin 0.5)
        * pixel_size_x setup - F.of_nat c * pixel_size_x setup)%fl
     (- (F.of_nat (detector_rows setup) * Fin 0.5 - Fin 0.5)
        * pixel_size_y setup + F.of_nat r * pixel_size_y setup)%fl
     (Fin 0).

Definition raw_grid (setup : InstrumentSetup) : grid :=
  map (fun r => map (raw_pixel setup r) (seq 0 (detector_columns setup)))
      (seq 0 (detector_rows setup)).

(** degrees to radians *)
Definition radians (deg : float64) : float64 := (deg * F.pi / Fin 180)%fl.

(** The single-axis rotation matrices, "standard right-handed rotation
    about each axis", row by row:
    Rx(a) rotates the Y/Z plane and leaves X fixed,
      [[1, 0, 0], [0, cos a, -sin a], [0, sin a, cos a]];
    Ry(a) rotates the X/Z plane and leaves Y fixed,
      [[cos a, 0, sin a], [0, 1, 0], [-sin a, 0, cos a]];
    Rz(a) rotates the X/Y plane and leaves Z fixed,
      [[cos a, -sin a, 0], [sin a, cos a, 0], [0, 0, 1]]. *)
Definition Rx (a : float64) : mat3 :=
  V3 (V3 (Fin 1) (Fin 0)   (Fin 0))
     (V3 (Fin 0) (F.cos a) (- F.sin a)%fl)
     (V3 (Fin 0) (F.sin a) (F.cos a)).

Definition Ry (a : float64) : mat3 :=
  V3 (V3 (F.cos a)         (Fin 0) (F.sin a))
     (V3 (Fin 0)           (Fin 1) (Fin 0))
     (V3 (- F.sin a)%fl    (Fin 0) (F.cos a)).

Definition Rz (a : float64) : mat3 :=
  V3 (V3 (F.cos a) (- F.sin a)%fl (Fin 0))
     (V3 (F.sin a) (F.cos a)      (Fin 0))
     (V3 (Fin 0)   (Fin 0)        (Fin 1)).

(** the product of two matrices: (A . B)[i,j] = sum over k of A[i,k] * B[k,j] *)
Definition matmul (A B : mat3) : mat3 :=
  let entry (i j : axis) : float64 :=
    (getc AX (getc i A) * getc j (getc AX B)
     + getc AY (getc i A) * getc j (getc AY B)
     + getc AZ (getc i A) * getc j (getc AZ B))%fl in
  V3 (V3 (entry AX AX) (entry AX AY) (entry AX AZ))
     (V3 (entry AY AX) (entry AY AY) (entry AY AZ))
     (V3 (entry AZ AX) (entry AZ AY) (entry AZ AZ)).

(** rotating one pixel: new[i] = sum over j of R[i,j] * old[j] *)
Definition rotate (R : mat3) (old : pixel) : pixel :=
  let new (i : axis) : float64 :=
    (getc AX (getc i R) * getc AX old
     + getc AY (getc i R) * getc AY old
     + getc AZ (getc i R) * getc AZ old)%fl in
  V3 (new AX) (new AY) (new AZ).

(** R_calib = Rx(rotation_x) . Ry(rotation_y) . Rz(rotation_z), multiplied
    in that order, each angle converted from degrees to radians *)
Definition R_calib (cal : ResidualStressInstrumentCalibration) : mat3 :=
  matmul (matmul (Rx (radians (rotation_x cal))) (Ry (radians (rotation_y cal))))
         (Rz (radians (rotation_z cal))).

(** the five steps of the pose construction, on one pixel of the copy *)
Definition pose_pixel (setup : InstrumentSetup)
    (cal : ResidualStressInstrumentCalibration) (two_theta : float64)
    (raw : pixel) : pixel :=
  let shifted :=
    V3 (c0 raw + center_shift_x cal)%fl (c1 raw + center_shift_y cal)%fl (c2 raw) in
  let rotated := rotate (R_calib cal) shifted in
  let pushed :=
    V3 (c0 rotated) (c1 rotated)
       (c2 rotated + (arm_length setup + center_shift_z cal))%fl in
  rotate (Ry (radians two_theta)) pushed.

(** arccos(vz / sqrt(vx^2 + vy^2 + vz^2)) * 180 / pi *)
Definition two_theta_deg (v : pixel) : float64 :=
  (F.arccos (c2 v / F.sqrt (c0 v * c0 v + c1 v * c1 v + c2 v * c2 v))
   * Fin 180 / F.pi)%fl.

(** the algorithm on one pixel: the norm, the vector over its norm, the
    dot product with k = (0, 0, 1), the arc cosine in degrees *)
Definition two_theta_dot (v : pixel) : float64 :=
  let norm := F.sqrt (F.square (c0 v) + F.square (c1 v) + F.square (c2 v))%fl in
  let cos_theta :=
    (c0 v / norm * Fin 0 + c1 v / norm * Fin 0 + c2 v / norm * Fin 1)%fl in
  (F.arccos cos_theta * Fin 180 / F.pi)%fl.

(** the counts of the pixels whose angle lies in [lo, hi] *)
Definition counts_in_range (lo hi : float64) (angles_ : list float64)
    (counts : list Z) : list Z :=
  (List.filter (fun xw => F.geb xw.1 lo && F.leb xw.1 hi) (zip angles_ counts)).*2.

(** the sum of integer counts *)
Definition total (counts : list Z) : Z := foldr Z.add 0%Z counts.

(** in the closed range [lo, hi] *)
Definition in_range (lo hi x : float64) : bool := F.geb x lo && F.leb x hi.

(** bin centres: half a bin width added to every edge, the last dropped *)
Definition half_bin_width (edges : list float64) : float64 :=
  ((edges !!! 1 - edges !!! 0) / Fin 2)%fl.

Definition finite_pixel (v : pixel) : Prop :=
  exists x y z, v = V3 (Fin x) (Fin y) (Fin z).

(** a sequence of [build_instrument] calls on one instrument, each with
    its two-theta and its calibration *)
Definition build_calls
    (calls : list (float64 * ResidualStressInstrumentCalibration))
    (st : ResidualStressInstrument.t * store)
    : ResidualStressInstrument.t * store :=
  foldl (fun st call =>
           (ResidualStressInstrument.build_instrument call.1 call.2 st.1 st.2).2)
        st calls.

End Spec.

(* ===================================================================== *)
(** * Concrete instruments and inputs *)
(* ===================================================================== *)

Module Examples.

(** a 2 x 2 panel of unit pixels at arm length 10 *)
Definition setup22 : InstrumentSetup :=
  {| detector_rows := 2; detector_columns := 2;
     pixel_size_x := Fin 1; pixel_size_y := Fin 1; arm_length := Fin 10 |}.

Definition no_calibration : ResidualStressInstrumentCalibration :=
  {| center_shift_x := Fin 0; center_shift_y := Fin 0; center_shift_z := Fin 0;
     rotation_x := Fin 0; rotation_y := Fin 0; rotation_z := Fin 0 |}.

Definition junk0 : nat -> nat -> pixel := fun _ _ => V3 NaN NaN NaN.

Definition instrument22 : ResidualStressInstrument.t * store :=
  ResidualStressInstrument.__init__ setup22 junk0 ∅.

(** a 1 x 2 panel whose pose has one pixel on the beam axis and one at
    right angles to it: the angles are 0 and 90 degrees *)
Definition setup12 : InstrumentSetup :=
  {| detector_rows := 1; detector_columns := 2;
     pixel_size_x := Fin 1; pixel_size_y := Fin 1; arm_length := Fin 1 |}.

Definition pose12 : grid :=
  [[V3 (Fin 0) (Fin 0) (Fin 1); V3 (Fin 1) (Fin 0) (Fin 0)]].

Definition store12 : store :=
  <[2%positive := pose12]> (<[1%positive := Spec.raw_grid setup12]> ∅).

Definition engine12 : PyHB2BReduction.t :=
  {| PyHB2BReduction._instrument :=
       {| ResidualStressInstrument._init_setup := setup12;
          ResidualStressInstrument._raw_pixel_matrix := 1%positive;
          ResidualStressInstrument._pixel_matrix := Some 2%positive |} |}.

(** a panel of one pixel at arm length 1, posed at two-theta 0: the pixel
    is on the beam axis, so that its angle, 0 degrees, is the least and the
    greatest angle at once *)
Definition setup11 : InstrumentSetup :=
  {| detector_rows := 1; detector_columns := 1;
     pixel_size_x := Fin 1; pixel_size_y := Fin 1; arm_length := Fin 1 |}.

Definition pose11 : grid := [[V3 (Fin 0) (Fin 0) (Fin 1)]].

Definition store11 : store :=
  <[2%positive := pose11]> (<[1%positive := Spec.raw_grid setup11]> ∅).

Definition engine11 : PyHB2BReduction.t :=
  {| PyHB2BReduction._instrument :=
       {| ResidualStressInstrument._init_setup := setup11;
          ResidualStressInstrument._raw_pixel_matrix := 1%positive;
          ResidualStressInstrument._pixel_matrix := Some 2%positive |} |}.

End Examples.

(* ===================================================================== *)
(** * Lemmas on floating-point values and lists *)
(* ===================================================================== *)

Lemma fadd_0_l (x : float64) : (Fin 0 + x)%fl = x.
Proof. destruct x; simpl; try done. f_equal. lra. Qed.

Lemma fadd_0_r (x : float64) : (x + Fin 0)%fl = x.
Proof. destruct x; simpl; try done. f_equal. lra. Qed.

Lemma fadd_comm (x y : float64) : (x + y)%fl = (y + x)%fl.
Proof. destruct x, y; simpl; try done. f_equal. lra. Qed.

Lemma fadd_assoc (x y z : float64) : (x + (y + z))%fl = (x + y + z)%fl.
Proof. destruct x, y, z; simpl; try done. f_equal. lra. Qed.

Lemma fmul_half (x : float64) : (x * Fin 0.5)%fl = (x / Fin 2)%fl.
Proof.
  destruct x; simpl; try done.
  - destruct (decide (2 = 0)%R); [lra|]. f_equal. lra.
  - unfold F.signed_inf. repeat case_decide; try done; lra.
  - unfold F.signed_inf. repeat case_decide; try done; lra.
Qed.

Lemma foldl_alter_seq {A} (f : nat -> A -> A) (l1 l2 : list A) :
  foldl (fun m i => alter (f i) i m) (l1 ++ l2) (seq (length l1) (length l2))
  = l1 ++ imap (fun i => f (length l1 + i)) l2.
Proof.
  revert l1. induction l2 as [|x l2 IH]; intros l1; simpl; [done|].
  rewrite alter_app_r_alt; [|lia]. rewrite Nat.sub_diag. simpl.
  replace (l1 ++ f (length l1) x :: l2) with ((l1 ++ [f (length l1) x]) ++ l2)
    by (by rewrite <- app_assoc).
  replace (S (length l1)) with (length (l1 ++ [f (length l1) x]))
    by (rewrite length_app; simpl; lia).
  rewrite IH. rewrite <- app_assoc. simpl. f_equal.
  rewrite Nat.add_0_r. f_equal.
  apply imap_ext. intros i y _. simpl. f_equal.
  rewrite length_app. simpl. lia.
Qed.

Lemma foldl_alter_seq0 {A} (f : nat -> A -> A) (l : list A) :
  foldl (fun m i => alter (f i) i m) l (seq 0 (length l)) = imap f l.
Proof. apply (foldl_alter_seq f [] l). Qed.

Lemma foldl_map_rows {A B} (g : B -> A -> A) (m : list A) (cs : list B) :
  foldl (fun m c => map (g c) m) m cs = map (fun row => foldl (fun row c => g c row) row cs) m.
Proof.
  revert m. induction cs as [|c cs IH]; intros m; simpl.
  - by rewrite map_id.
  - rewrite IH. by rewrite map_map.
Qed.

Lemma imap_seq_map {A B} (f : nat -> A -> B) (g : nat -> A) (n k : nat) :
  imap (fun i => f (k + i)) (map g (seq k n)) = map (fun i => f i (g i)) (seq k n).
Proof.
  revert k f. induction n as [|n IH]; intros k f; simpl; [done|].
  rewrite Nat.add_0_r. f_equal.
  rewrite <- (IH (S k)). apply imap_ext. intros i x _. simpl. f_equal. lia.
Qed.

(** The raw grid the constructor builds is the grid of the formulas,
    whatever the allocator left in the array. *)
Lemma set_uncalibrated_pixels_eq (setup : InstrumentSetup) (junk : nat -> nat -> pixel) :
  ResidualStressInstrument._set_uncalibrated_pixels setup junk = Spec.raw_grid setup.
Proof.
  unfold ResidualStressInstrument._set_uncalibrated_pixels, Spec.raw_grid.
  cbv zeta. unfold Nd.ndarray, Nd.set_row_channel, Nd.set_col_channel, Nd.set_channel.
  set (R := detector_rows setup). set (C := detector_columns setup).
  set (y := fun r : nat =>
    (- (F.of_nat R * Fin 0.5 - Fin 0.5) * pixel_size_y setup
     + F.of_nat r * pixel_size_y setup)%fl).
  set (x := fun c : nat =>
    ((F.of_nat C * Fin 0.5 - Fin 0.5) * pixel_size_x setup
     - F.of_nat c * pixel_size_x setup)%fl).
  change (foldl _ (foldl _ ?a ?b) ?c) with
    (foldl (fun m col_index => map (alter (setc AX (x col_index)) col_index) m)
       (foldl (fun m row_index => alter (Nd1.set_channel AY (y row_index)) row_index m) a b) c).
  set (nd := map (fun r => map (junk r) (seq 0 C)) (seq 0 R)).
  assert (Hnd : length nd = R) by (unfold nd; by rewrite length_map, length_seq).
  rewrite <- Hnd at 1.
  rewrite (foldl_alter_seq0 (fun i => Nd1.set_channel AY (y i)) nd).
  unfold nd. rewrite (imap_seq_map (fun i => Nd1.set_channel AY (y i)) _ R 0).
  rewrite (foldl_map_rows (fun c => alter (setc AX (x c)) c)).
  rewrite !map_map. apply map_ext. intros r.
  unfold Nd1.set_channel. rewrite !map_map.
  set (row := map _ (seq 0 C)).
  assert (Hrow : length row = C) by (unfold row; by rewrite length_map, length_seq).
  pose proof (foldl_alter_seq0 (fun c => setc AX (x c)) row) as E.
  rewrite Hrow in E.
  etrans; [apply (f_equal (map (setc AZ (Fin 0)))); exact E|].
  unfold row. rewrite (imap_seq_map (fun c => setc AX (x c)) _ C 0).
  rewrite map_map. apply map_ext. intros c.
  reflexivity.
Qed.

Lemma raw_grid_at2 (setup : InstrumentSetup) (r c : nat) :
  r < detector_rows setup -> c < detector_columns setup ->
  Nd.at2 r c (Spec.raw_grid setup) = Some (Spec.raw_pixel setup r c).
Proof.
  intros Hr Hc. unfold Nd.at2, Spec.raw_grid.
  rewrite list_lookup_fmap, lookup_seq_lt by done. simpl.
  rewrite list_lookup_fmap, lookup_seq_lt by done. done.
Qed.

Lemma raw_grid_at2_inv (setup : InstrumentSetup) (r c : nat) (p : pixel) :
  Nd.at2 r c (Spec.raw_grid setup) = Some p ->
  r < detector_rows setup /\ c < detector_columns setup /\ p = Spec.raw_pixel setup r c.
Proof.
  unfold Nd.at2, Spec.raw_grid. intros H.
  destruct (decide (r < detector_rows setup)) as [Hr|Hr].
  - rewrite list_lookup_fmap, lookup_seq_lt in H by done. simpl in H.
    destruct (decide (c < detector_columns setup)) as [Hc|Hc].
    + rewrite list_lookup_fmap, lookup_seq_lt in H by done. simpl in H.
      by injection H as <-.
    + rewrite list_lookup_fmap, lookup_seq_ge in H by lia. done.
  - rewrite list_lookup_fmap, lookup_seq_ge in H by lia. done.
Qed.

Lemma raw_grid_shape (setup : InstrumentSetup) :
  Nd.has_shape (detector_rows setup) (detector_columns setup) (Spec.raw_grid setup).
Proof.
  unfold Nd.has_shape, Spec.raw_grid. split.
  - by rewrite length_map, length_seq.
  - apply Forall_fmap, Forall_forall. intros r _. simpl.
    by rewrite length_map, length_seq.
Qed.

(** C2. For every InstrumentSetup with R rows, C columns and pixel sizes
    px, py, the raw grid has shape (R, C, 3) and its entry at [r, c] is
    ((C*0.5-0.5)*px - c*px, -(R*0.5-0.5)*py + r*py, 0), whatever the
    allocator left in the array: channel Z is exactly 0 everywhere, and for
    (finite, positive) pixel sizes X strictly decreases as the column index
    increases and Y strictly increases with the row index. *)
Theorem raw_grid_entries (setup : InstrumentSetup) (junk : nat -> nat -> pixel) :
  let m := ResidualStressInstrument._set_uncalibrated_pixels setup junk in
  let R := detector_rows setup in
  let C := detector_columns setup in
  let px := pixel_size_x setup in
  let py := pixel_size_y setup in
  Nd.has_shape R C m /\
  (forall r c, r < R -> c < C ->
     Nd.at2 r c m =
       Some (V3 ((F.of_nat C * Fin 0.5 - Fin 0.5) * px - F.of_nat c * px)%fl
                (- (F.of_nat R * Fin 0.5 - Fin 0.5) * py + F.of_nat r * py)%fl
                (Fin 0))) /\
  (forall r c p, Nd.at2 r c m = Some p -> c2 p = Fin 0) /\
  (forall x, px = Fin x -> (0 < x)%R ->
     forall r c c' p p', c < c' ->
       Nd.at2 r c m = Some p -> Nd.at2 r c' m = Some p' ->
       F.ltb (c0 p') (c0 p) = true) /\
  (forall y, py = Fin y -> (0 < y)%R ->
     forall r r' c p p', r < r' ->
       Nd.at2 r c m = Some p -> Nd.at2 r' c m = Some p' ->
       F.ltb (c1 p) (c1 p') = true).
Proof.
  cbv zeta. rewrite set_uncalibrated_pixels_eq.
  split; [apply raw_grid_shape|].
  split; [intros r c Hr Hc; by rewrite raw_grid_at2|].
  split.
  { intros r c p H. apply raw_grid_at2_inv in H as (_ & _ & ->). done. }
  split.
  - intros x Hx Hpos r c c' p p' Hlt H H'.
    apply raw_grid_at2_inv in H as (_ & _ & ->).
    apply raw_grid_at2_inv in H' as (_ & _ & ->).
    unfold Spec.raw_pixel. simpl. rewrite Hx. simpl.
    apply bool_decide_eq_true. apply lt_INR in Hlt. nra.
  - intros y Hy Hpos r r' c p p' Hlt H H'.
    apply raw_grid_at2_inv in H as (_ & _ & ->).
    apply raw_grid_at2_inv in H' as (_ & _ & ->).
    unfold Spec.raw_pixel. simpl. rewrite Hy. simpl.
    apply bool_decide_eq_true. apply lt_INR in Hlt. nra.
Qed.

(** ** The store *)

Lemma fresh_lookup (h : store) : h !! fresh (dom h) = None.
Proof. apply not_elem_of_dom, is_fresh. Qed.

Lemma fresh_ne (h : store) (l : loc) (g : grid) :
  h !! l = Some g -> l <> fresh (dom h).
Proof. intros H ->. by rewrite fresh_lookup in H. Qed.

Lemma read_insert_eq (l : loc) (g : grid) (h : store) :
  Store.read l (<[l := g]> h) = g.
Proof. unfold Store.read. by rewrite lookup_total_insert_eq. Qed.

Lemma read_insert_ne (l l' : loc) (g g' : grid) (h : store) :
  h !! l = Some g -> l <> l' -> Store.read l (<[l' := g']> h) = g.
Proof.
  intros H Hne. unfold Store.read.
  rewrite lookup_total_insert_ne by done. by apply lookup_total_correct.
Qed.

Lemma update_insert (l : loc) (f : grid -> grid) (g : grid) (h : store) :
  Store.update l f (<[l := g]> h) = <[l := f g]> h.
Proof. unfold Store.update. by rewrite alter_insert_eq. Qed.

(** ** Channel-wise array arithmetic is pixel-wise arithmetic *)

Lemma zip_with_map_map {A B C D} (g : B -> C -> D) (f : A -> B) (k : A -> C)
    (l : list A) :
  zip_with g (map f l) (map k l) = map (fun x => g (f x) (k x)) l.
Proof. induction l as [|x l IH]; simpl; [done|]. by rewrite IH. Qed.

Lemma iadd_channel_pixelwise (i j : axis) (s : float64) (f : pixel -> pixel)
    (m : grid) :
  Nd.iadd_channel i (Nd.scale s (Nd.channel j m)) (map (map f) m)
  = map (map (fun p => setc i (getc i (f p) + s * getc j p)%fl (f p))) m.
Proof.
  unfold Nd.iadd_channel, Nd.scale, Nd.channel. rewrite map_map.
  rewrite (zip_with_map_map (fun row v => Nd1.iadd_channel i v row) (map f)
             (fun row => Nd1.scale s (Nd1.channel j row)) m).
  apply map_ext. intros row.
  unfold Nd1.iadd_channel, Nd1.scale, Nd1.channel. rewrite map_map.
  apply (zip_with_map_map
           (fun p x => setc i (getc i p + x)%fl p) f (fun p => (s * getc j p)%fl)).
Qed.

Lemma iadd_channel_scalar_pixelwise (i : axis) (s : float64) (f : pixel -> pixel)
    (m : grid) :
  Nd.iadd_channel_scalar i s (map (map f) m)
  = map (map (fun p => setc i (getc i (f p) + s)%fl (f p))) m.
Proof.
  unfold Nd.iadd_channel_scalar, Nd1.iadd_channel_scalar.
  rewrite map_map. apply map_ext. intros row. by rewrite map_map.
Qed.

Lemma map_map_id (m : grid) : map (map (fun p : pixel => p)) m = m.
Proof. rewrite <- (map_id m) at 2. apply map_ext. intros. apply map_id. Qed.

(** [_rotate_detector] allocates one new array, holding every pixel of
    the input rotated, and leaves the rest of the store alone. *)
Lemma rotate_detector_spec (det : loc) (R : mat3) (h : store) (m : grid) :
  h !! det = Some m ->
  ResidualStressInstrument._rotate_detector det R h
  = (fresh (dom h), <[fresh (dom h) := map (map (Spec.rotate R)) m]> h).
Proof.
  intros Hdet. unfold ResidualStressInstrument._rotate_detector, Store.alloc.
  rewrite (lookup_total_correct _ _ _ Hdet : Store.read det h = m).
  pose proof (fresh_ne h det m Hdet) as Hne.
  set (l := fresh (dom h)) in *.
  f_equal. unfold range3. cbn [foldl].
  unfold Nd.zeros_like.
  repeat (rewrite (read_insert_ne det l m _ h Hdet Hne);
          rewrite update_insert;
          rewrite ?iadd_channel_pixelwise).
  f_equal. apply map_ext. intros row. apply map_ext. intros p.
  destruct R as [[r00 r01 r02] [r10 r11 r12] [r20 r21 r22]], p as [x y z].
  unfold Spec.rotate. cbn [getc setc c0 c1 c2].
  by rewrite !fadd_0_l.
Qed.

Lemma at2_map {A B} (f : A -> B) (m : list (list A)) (r c : nat) (p : A) :
  Nd.at2 r c m = Some p -> Nd.at2 r c (map (map f) m) = Some (f p).
Proof.
  unfold Nd.at2. intros H.
  apply bind_Some in H as (row & Hrow & Hc).
  apply bind_Some. exists (map f row). split.
  - by rewrite list_lookup_fmap, Hrow.
  - by rewrite list_lookup_fmap, Hc.
Qed.

Lemma at2_map_None {A B} (f : A -> B) (m : list (list A)) (r c : nat) :
  Nd.at2 r c m = None -> Nd.at2 r c (map (map f) m) = None.
Proof.
  unfold Nd.at2. intros H. rewrite list_lookup_fmap.
  destruct (m !! r) as [row|]; [|done].
  cbn [fmap option_fmap option_map mbind option_bind] in *.
  by rewrite list_lookup_fmap, H.
Qed.

(** The first half of [build_instrument]: the copy, shifted, in an array of
    its own. *)
Lemma shifted_copy_eq (cal : ResidualStressInstrumentCalibration) (m : grid) :
  Nd.iadd_channel_scalar AY (center_shift_y cal)
    (Nd.iadd_channel_scalar AX (center_shift_x cal) m)
  = map (map (fun p => V3 (c0 p + center_shift_x cal)%fl
                          (c1 p + center_shift_y cal)%fl (c2 p))) m.
Proof.
  unfold Nd.iadd_channel_scalar, Nd1.iadd_channel_scalar.
  rewrite map_map. apply map_ext. intros row.
  rewrite map_map. apply map_ext. by intros [x y z].
Qed.

(** [build_instrument] allocates new arrays only.  On a grid with a pixel
    at [0, 0] it returns, and the last array holds the pose of every pixel
    of the raw grid and is the one [_pixel_matrix] refers to afterwards. *)
Lemma build_instrument_spec (two_theta : float64)
    (cal : ResidualStressInstrumentCalibration)
    (self : ResidualStressInstrument.t) (h : store) (m : grid) :
  h !! ResidualStressInstrument._raw_pixel_matrix self = Some m ->
  is_Some (Nd.at2 0 0 m) ->
  exists (l : loc) (h' : store),
    ResidualStressInstrument.build_instrument two_theta cal self h
      = (Ok l, (ResidualStressInstrument.with_pixel_matrix l self, h')) /\
    h' !! l
      = Some (map (map (Spec.pose_pixel
                          (ResidualStressInstrument._init_setup self) cal two_theta)) m) /\
    h !! l = None /\
    h ⊆ h'.
Proof.
  intros Hraw [p00 H00]. unfold ResidualStressInstrument.build_instrument, Store.alloc.
  rewrite (lookup_total_correct _ _ _ Hraw
            : Store.read (ResidualStressInstrument._raw_pixel_matrix self) h = m).
  set (l1 := fresh (dom h)).
  rewrite !update_insert, read_insert_eq, shifted_copy_eq.
  rewrite (at2_map _ m 0 0 p00 H00).
  set (m1 := map (map _) m).
  set (h1 := <[l1 := m1]> h).
  rewrite (rotate_detector_spec l1 _ h1 m1) by apply lookup_insert_eq.
  set (l2 := fresh (dom h1)).
  rewrite update_insert.
  set (m2 := Nd.iadd_channel_scalar AZ _ _).
  set (h2 := <[l2 := m2]> h1).
  rewrite (rotate_detector_spec l2 _ h2 m2) by apply lookup_insert_eq.
  set (l3 := fresh (dom h2)).
  exists l3, (<[l3 := map (map (Spec.rotate
                  (ResidualStressInstrument._cal_rotation_matrix_y
                     (two_theta * F.pi / Fin 180)%fl))) m2]> h2).
  assert (H1 : h ⊆ h1) by apply insert_subseteq, fresh_lookup.
  assert (H2 : h1 ⊆ h2) by apply insert_subseteq, fresh_lookup.
  assert (H3 : h2 !! l3 = None) by apply fresh_lookup.
  split; [by destruct self|].
  split.
  - rewrite lookup_insert_eq. f_equal.
    unfold m2, m1, Nd.iadd_channel_scalar, Nd1.iadd_channel_scalar.
    rewrite !map_map. apply map_ext. intros row.
    rewrite !map_map. apply map_ext. intros [x y z].
    reflexivity.
  - split.
    + destruct (h !! l3) eqn:E; [|done].
      apply (lookup_weaken _ h2) in E; [congruence|by etrans].
    + etrans; [exact H1|]. etrans; [exact H2|]. by apply insert_subseteq.
Qed.

(** On a grid without a pixel at [0, 0] it raises, after the shifted copy
    was made. *)
Lemma build_instrument_empty (two_theta : float64)
    (cal : ResidualStressInstrumentCalibration)
    (self : ResidualStressInstrument.t) (h : store) (m : grid) :
  h !! ResidualStressInstrument._raw_pixel_matrix self = Some m ->
  Nd.at2 0 0 m = None ->
  exists (l : loc) (h' : store),
    ResidualStressInstrument.build_instrument two_theta cal self h
      = (Raise (IndexError "index 0 is out of bounds"),
         (ResidualStressInstrument.with_pixel_matrix l self, h')) /\
    h !! l = None /\
    h ⊆ h'.
Proof.
  intros Hraw H00. unfold ResidualStressInstrument.build_instrument, Store.alloc.
  rewrite (lookup_total_correct _ _ _ Hraw
            : Store.read (ResidualStressInstrument._raw_pixel_matrix self) h = m).
  rewrite !update_insert, read_insert_eq, shifted_copy_eq.
  rewrite (at2_map_None _ m 0 0 H00).
  eexists _, _. split; [reflexivity|].
  split; [apply fresh_lookup|apply insert_subseteq, fresh_lookup].
Qed.

(** In both cases the store only grows and [_pixel_matrix] refers to a
    new array. *)
Lemma build_instrument_frame (two_theta : float64)
    (cal : ResidualStressInstrumentCalibration)
    (self : ResidualStressInstrument.t) (h : store) (m : grid) :
  h !! ResidualStressInstrument._raw_pixel_matrix self = Some m ->
  exists (l : loc) (h' : store),
    (ResidualStressInstrument.build_instrument two_theta cal self h).2
      = (ResidualStressInstrument.with_pixel_matrix l self, h') /\
    h !! l = None /\
    h ⊆ h'.
Proof.
  intros Hraw. destruct (Nd.at2 0 0 m) as [p00|] eqn:H00.
  - destruct (build_instrument_spec two_theta cal self h m Hraw)
      as (l & h' & E & _ & Hl & Hsub); [by eauto|].
    exists l, h'. by rewrite E.
  - destruct (build_instrument_empty two_theta cal self h m Hraw H00)
      as (l & h' & E & Hl & Hsub).
    exists l, h'. by rewrite E.
Qed.

Lemma init_spec (setup : InstrumentSetup) (junk : nat -> nat -> pixel) (h : store) :
  let st := ResidualStressInstrument.__init__ setup junk h in
  st.2 !! ResidualStressInstrument._raw_pixel_matrix st.1 = Some (Spec.raw_grid setup) /\
  ResidualStressInstrument._pixel_matrix st.1 = None /\
  ResidualStressInstrument._init_setup st.1 = setup.
Proof.
  unfold ResidualStressInstrument.__init__, Store.alloc. simpl.
  rewrite lookup_insert_eq, set_uncalibrated_pixels_eq. done.
Qed.

(** C1. For every raw pixel grid (with a pixel at [0, 0], which the
    progress message reads), calibration and two-theta value t,
    [build_instrument] returns, and the pose it leaves in [_pixel_matrix]
    holds for every pixel of the raw grid the result of exactly this
    sequence: the copy of the raw pixel; center_shift_x added to channel X
    and center_shift_y to channel Y; rotated by
    R_calib = Rx(rotation_x*pi/180) . Ry(rotation_y*pi/180) . Rz(rotation_z*pi/180)
    with new[i] = sum_j R_calib[i,j]*old[j]; arm_length + center_shift_z added
    to channel Z; rotated by Ry(t*pi/180).  [Spec.pose_pixel] is that
    sequence on one pixel, [Spec.rotate] the sum over j, [Spec.matmul] the
    matrix product and [Spec.Rx], [Spec.Ry], [Spec.Rz] the three
    right-handed single-axis rotations, each written out entry by entry. *)
Theorem build_instrument_pose (t : float64)
    (cal : ResidualStressInstrumentCalibration)
    (self : ResidualStressInstrument.t) (h : store) (raw : grid) :
  h !! ResidualStressInstrument._raw_pixel_matrix self = Some raw ->
  is_Some (Nd.at2 0 0 raw) ->
  let out := ResidualStressInstrument.build_instrument t cal self h in
  let self' := out.2.1 in
  let h' := out.2.2 in
  let pose := Spec.pose_pixel (ResidualStressInstrument._init_setup self) cal t in
  (exists pm, out.1 = Ok pm /\
              ResidualStressInstrument._pixel_matrix self' = Some pm) /\
  ResidualStressInstrument.get_pixel_matrix self' h' = Ok (map (map pose) raw) /\
  (forall r c p, Nd.at2 r c raw = Some p ->
     exists q, ResidualStressInstrument.get_pixel_matrix self' h' = Ok q /\
               Nd.at2 r c q = Some (pose p)).
Proof.
  intros Hraw H00 out self' h' pose.
  destruct (build_instrument_spec t cal self h raw Hraw H00)
    as (l & h1 & E & Hl & _ & _).
  subst out self' h' pose. rewrite E. cbn [fst snd].
  unfold ResidualStressInstrument.get_pixel_matrix.
  cbn [ResidualStressInstrument._pixel_matrix ResidualStressInstrument.with_pixel_matrix].
  rewrite (lookup_total_correct _ _ _ Hl : Store.read l h1 = _).
  split; [by eauto|]. split; [done|].
  intros r c p Hp. eexists. split; [done|]. by apply at2_map.
Qed.

Lemma raw_grid22_origin : is_Some (Nd.at2 0 0 (Spec.raw_grid Examples.setup22)).
Proof. rewrite raw_grid_at2; [by eauto|cbn; lia|cbn; lia]. Qed.

(** the pose of the pixel [0, 0] of the 2 x 2 panel of unit pixels at arm
    length 10, without calibration, at two-theta 30: the raw position
    (0.5, -0.5, 0) pushed to (0.5, -0.5, 10) and turned about Y *)
Lemma pose22_origin :
  Spec.pose_pixel Examples.setup22 Examples.no_calibration (Fin 30)
    (Spec.raw_pixel Examples.setup22 0 0)
  = V3 (Fin (cos (30 * PI / 180) * 0.5 + sin (30 * PI / 180) * 10))
       (Fin (-0.5))
       (Fin (- sin (30 * PI / 180) * 0.5 + cos (30 * PI / 180) * 10)).
Proof.
  unfold Spec.pose_pixel, Spec.raw_pixel, Spec.R_calib, Spec.radians,
    Spec.Rx, Spec.Ry, Spec.Rz, Spec.matmul, Spec.rotate.
  cbn [Examples.setup22 Examples.no_calibration detector_rows detector_columns
       pixel_size_x pixel_size_y arm_length center_shift_x center_shift_y
       center_shift_z rotation_x rotation_y rotation_z
       getc c0 c1 c2 F.mul F.add F.sub F.neg F.div F.cos F.sin F.pi F.of_nat].
  destruct (decide (180 = 0)%R) as [E|_]; [lra|].
  cbn [getc c0 c1 c2 F.mul F.add F.sub F.neg F.div F.cos F.sin F.pi F.of_nat].
  replace (0 * PI / 180)%R with 0%R by lra.
  rewrite cos_0, sin_0.
  f_equal; f_equal; simpl INR; lra.
Qed.

(** the witness of C1: the 2 x 2 instrument, no calibration, two-theta 30;
    the call returns and the pixel [0, 0] of the pose is at
    (0.5 cos 30 + 10 sin 30, -0.5, -0.5 sin 30 + 10 cos 30) *)
Lemma build_instrument_pose_witness :
  let st := Examples.instrument22 in
  let out := ResidualStressInstrument.build_instrument (Fin 30)
               Examples.no_calibration st.1 st.2 in
  (exists pm, out.1 = Ok pm /\
              ResidualStressInstrument._pixel_matrix out.2.1 = Some pm) /\
  exists q,
    ResidualStressInstrument.get_pixel_matrix out.2.1 out.2.2 = Ok q /\
    Nd.at2 0 0 q
      = Some (V3 (Fin (cos (30 * PI / 180) * 0.5 + sin (30 * PI / 180) * 10))
                 (Fin (-0.5))
                 (Fin (- sin (30 * PI / 180) * 0.5 + cos (30 * PI / 180) * 10))).
Proof.
  pose proof (init_spec Examples.setup22 Examples.junk0 ∅) as (Hraw & _ & Hsetup).
  destruct (build_instrument_pose (Fin 30) Examples.no_calibration
              Examples.instrument22.1 Examples.instrument22.2
              (Spec.raw_grid Examples.setup22) Hraw raw_grid22_origin)
    as (H1 & _ & H3).
  split; [exact H1|].
  destruct (H3 0 0 (Spec.raw_pixel Examples.setup22 0 0)) as (q & Hq & Hq0).
  - apply raw_grid_at2; cbn; lia.
  - exists q. split; [exact Hq|].
    etrans; [exact Hq0|]. f_equal.
    etrans; [|exact pose22_origin].
    unfold Examples.instrument22. by rewrite Hsetup.
Defined.

Lemma build_calls_frame
    (calls : list (float64 * ResidualStressInstrumentCalibration))
    (st : ResidualStressInstrument.t * store) (m : grid) :
  st.2 !! ResidualStressInstrument._raw_pixel_matrix st.1 = Some m ->
  ResidualStressInstrument._pixel_matrix st.1
    <> Some (ResidualStressInstrument._raw_pixel_matrix st.1) ->
  let st' := Spec.build_calls calls st in
  ResidualStressInstrument._raw_pixel_matrix st'.1
    = ResidualStressInstrument._raw_pixel_matrix st.1 /\
  st'.2 !! ResidualStressInstrument._raw_pixel_matrix st'.1 = Some m /\
  ResidualStressInstrument._pixel_matrix st'.1
    <> Some (ResidualStressInstrument._raw_pixel_matrix st'.1).
Proof.
  revert st. induction calls as [|[t cal] calls IH]; intros [self h] Hraw Hpm.
  { cbn [Spec.build_calls foldl fst snd] in *. by split. }
  cbn [fst snd] in Hraw, Hpm.
  destruct (build_instrument_frame t cal self h m Hraw) as (l & h' & E & Hl & Hsub).
  unfold Spec.build_calls. cbn [foldl fst snd]. rewrite E.
  specialize (IH (ResidualStressInstrument.with_pixel_matrix l self, h')).
  unfold Spec.build_calls in IH. cbn [fst snd] in IH.
  cbn [ResidualStressInstrument._raw_pixel_matrix
       ResidualStressInstrument._pixel_matrix
       ResidualStressInstrument.with_pixel_matrix] in IH.
  apply IH.
  - by apply (lookup_weaken h).
  - intros [= ->]. congruence.
Qed.

(** C9. The raw PixelGrid built at construction time is never mutated
    afterwards: every [build_instrument] call works on a copy held in an
    array of its own, so after any sequence of [build_instrument] calls,
    with any two-theta and calibration values, returning or raising,
    [_raw_pixel_matrix] refers to the same array and that array is the one
    built at construction. *)
Theorem raw_pixel_matrix_never_mutated (setup : InstrumentSetup)
    (junk : nat -> nat -> pixel) (h0 : store)
    (calls : list (float64 * ResidualStressInstrumentCalibration)) :
  let st0 := ResidualStressInstrument.__init__ setup junk h0 in
  let st := Spec.build_calls calls st0 in
  ResidualStressInstrument._raw_pixel_matrix st.1
    = ResidualStressInstrument._raw_pixel_matrix st0.1 /\
  st.2 !! ResidualStressInstrument._raw_pixel_matrix st.1
    = st0.2 !! ResidualStressInstrument._raw_pixel_matrix st0.1 /\
  st.2 !! ResidualStressInstrument._raw_pixel_matrix st.1
    = Some (ResidualStressInstrument._set_uncalibrated_pixels setup junk) /\
  ResidualStressInstrument._pixel_matrix st.1
    <> Some (ResidualStressInstrument._raw_pixel_matrix st.1).
Proof.
  cbv zeta.
  destruct (init_spec setup junk h0) as (Hraw & Hpm & _).
  destruct (build_calls_frame calls (ResidualStressInstrument.__init__ setup junk h0)
              (Spec.raw_grid setup) Hraw) as (E1 & E2 & E3).
  { rewrite Hpm. done. }
  rewrite set_uncalibrated_pixels_eq.
  split; [done|]. split; [by rewrite E2, Hraw|]. split; done.
Qed.

(** the witness of C2: the 2 x 2 panel of unit pixels *)
Lemma raw_grid_entries_witness :
  let m := ResidualStressInstrument._set_uncalibrated_pixels
             Examples.setup22 Examples.junk0 in
  Nd.at2 0 1 m
    = Some (V3 ((F.of_nat 2 * Fin 0.5 - Fin 0.5) * Fin 1 - F.of_nat 1 * Fin 1)%fl
               (- (F.of_nat 2 * Fin 0.5 - Fin 0.5) * Fin 1 + F.of_nat 0 * Fin 1)%fl
               (Fin 0)) /\
  (forall r c c' p p', c < c' ->
     Nd.at2 r c m = Some p -> Nd.at2 r c' m = Some p' ->
     F.ltb (c0 p') (c0 p) = true) /\
  (forall r r' c p p', r < r' ->
     Nd.at2 r c m = Some p -> Nd.at2 r' c m = Some p' ->
     F.ltb (c1 p) (c1 p') = true).
Proof.
  destruct (raw_grid_entries Examples.setup22 Examples.junk0)
    as (_ & H2 & _ & H4 & H5).
  split; [|split].
  - apply (H2 0 1); cbn; lia.
  - apply (H4 1%R); [reflexivity|lra].
  - apply (H5 1%R); [reflexivity|lra].
Defined.

(** ** Flattening *)

Lemma has_shape_map {A B} (f : A -> B) (R C : nat) (m : list (list A)) :
  Nd.has_shape R C m -> Nd.has_shape R C (map (map f) m).
Proof.
  intros [HR HC]. split.
  - by rewrite length_map.
  - apply Forall_fmap. eapply Forall_impl; [exact HC|].
    intros row Hrow. simpl. by rewrite length_map.
Qed.

Lemma has_shape_columns {A} (R C : nat) (m : list (list A)) :
  Nd.has_shape R C m -> 0 < R -> Nd.columns m = C.
Proof.
  intros [HR HC] Hpos. destruct m as [|row m]; simpl in *; [lia|].
  by inversion HC.
Qed.

Lemma transpose_flat_length (R C : nat) (m : grid) :
  length m = R -> length (Nd.reshape_flat (Nd.transpose C m)) = R * C.
Proof.
  intros HR. unfold Nd.reshape_flat, Nd.transpose.
  rewrite length_join.
  rewrite (sum_list_fmap_same R).
  - rewrite length_map, length_seq. lia.
  - apply Forall_fmap, Forall_forall. intros c _. simpl. by rewrite length_map.
Qed.

Lemma transpose_flat_lookup (R C : nat) (m : grid) (r c : nat) (p : pixel) :
  length m = R -> c < C -> Nd.at2 r c m = Some p ->
  Nd.reshape_flat (Nd.transpose C m) !! (r + R * c) = Some p.
Proof.
  intros HR Hc Hp. unfold Nd.at2 in Hp.
  apply bind_Some in Hp as (row & Hrow & Hpc).
  assert (Hr : r < R) by (rewrite <- HR; by eapply lookup_lt_Some).
  replace (r + R * c) with (c * R + r) by lia.
  unfold Nd.reshape_flat, Nd.transpose.
  apply (join_lookup_Some_same_length' R); [|done|].
  - apply Forall_fmap, Forall_forall. intros c' _. simpl. by rewrite length_map.
  - exists (map (fun row => row !!! c) m). split.
    + by rewrite list_lookup_fmap, lookup_seq_lt.
    + rewrite list_lookup_fmap, Hrow. simpl. f_equal.
      by apply list_lookup_total_correct.
Qed.

(** C4. When the pixel positions are requested in flattened form after the
    instrument is built, the returned array has shape (rows * columns, 3)
    and its element at linear index row + rows * column is the pose-grid
    element at [row, column]: the flatten order is column-major over the
    grid. *)
Theorem pixel_array_column_major (self : ResidualStressInstrument.t)
    (h : store) (pm : loc) (m : grid) (rows columns : nat) :
  ResidualStressInstrument._pixel_matrix self = Some pm ->
  h !! pm = Some m ->
  Nd.has_shape rows columns m ->
  ResidualStressInstrument.get_pixel_matrix self h = Ok m /\
  exists arr,
    ResidualStressInstrument.get_pixel_array self h = Ok arr /\
    length arr = rows * columns /\
    forall row column, row < rows -> column < columns ->
      is_Some (arr !! (row + rows * column)) /\
      arr !! (row + rows * column) = Nd.at2 row column m.
Proof.
  intros Hpm Hm Hshape.
  unfold ResidualStressInstrument.get_pixel_matrix,
    ResidualStressInstrument.get_pixel_array.
  rewrite Hpm. rewrite (lookup_total_correct _ _ _ Hm : Store.read pm h = m).
  split; [done|]. eexists. split; [done|].
  destruct (decide (0 < rows)) as [Hpos|Hzero].
  - rewrite (has_shape_columns rows columns m Hshape Hpos).
    destruct Hshape as [HR HC].
    split; [by apply transpose_flat_length|].
    intros r c Hr Hc.
    assert (exists p, Nd.at2 r c m = Some p) as [p Hp].
    { unfold Nd.at2. destruct (lookup_lt_is_Some_2 m r) as [row Hrow]; [lia|].
      rewrite Hrow. simpl.
      apply lookup_lt_is_Some_2.
      rewrite Forall_forall in HC. rewrite (HC row); [done|].
      by eapply list_elem_of_lookup_2. }
    rewrite Hp, (transpose_flat_lookup rows columns m r c p HR Hc Hp). eauto.
  - destruct Hshape as [HR HC]. assert (rows = 0) as -> by lia.
    apply nil_length_inv in HR as ->. simpl. split; [done|]. intros; lia.
Qed.

(** the witness of C4: the 2 x 2 instrument after one build *)
Lemma pixel_array_column_major_witness :
  let st := Examples.instrument22 in
  let out := ResidualStressInstrument.build_instrument (Fin 30)
               Examples.no_calibration st.1 st.2 in
  exists arr,
    ResidualStressInstrument.get_pixel_array out.2.1 out.2.2 = Ok arr /\
    length arr = 2 * 2.
Proof.
  intros st out.
  destruct (init_spec Examples.setup22 Examples.junk0 ∅) as (Hraw & _ & _).
  destruct (build_instrument_spec (Fin 30) Examples.no_calibration st.1 st.2
              (Spec.raw_grid Examples.setup22) Hraw raw_grid22_origin)
    as (l & h' & E & Hl & _ & _).
  subst out. rewrite E. cbn [fst snd].
  destruct (pixel_array_column_major
              (ResidualStressInstrument.with_pixel_matrix l st.1) h' l _ 2 2
              eq_refl Hl) as (_ & arr & Harr & Hlen & _).
  { apply has_shape_map. exact (raw_grid_shape Examples.setup22). }
  exists arr. split; assumption.
Defined.

(** ** Scattering angle *)

(** the code computes, pixel by pixel, the angle of the algorithm *)
Lemma two_theta_of_pixelwise (a : list pixel) :
  PyHB2BReduction.two_theta_of a = map Spec.two_theta_dot a.
Proof.
  unfold PyHB2BReduction.two_theta_of, PyHB2BReduction.convert_to_2theta.
  cbn [fst snd]. unfold range3. cbn [foldl].
  unfold Nd1.add, Nd1.square, Nd1.channel, Nd1.times, Nd1.over, Nd1.idiv_channel.
  induction a as [|[x y z] a IH]; [done|].
  cbn [map zip_with]. f_equal. exact IH.
Qed.

Lemma convert_to_2theta_flat (a : list pixel) :
  (PyHB2BReduction.convert_to_2theta (Pos2 a)).1 = Ang1 (map Spec.two_theta_dot a).
Proof.
  pose proof (two_theta_of_pixelwise a) as H.
  unfold PyHB2BReduction.two_theta_of in H.
  unfold PyHB2BReduction.convert_to_2theta in *. cbn [fst] in *. by rewrite H.
Qed.

Lemma convert_to_2theta_grid (m : grid) :
  (PyHB2BReduction.convert_to_2theta (Pos3 m)).1
  = Ang2 (map (map Spec.two_theta_dot) m).
Proof.
  unfold PyHB2BReduction.convert_to_2theta. cbn [fst]. f_equal.
  unfold range3. cbn [foldl].
  unfold Nd.add, Nd.square, Nd.channel, Nd.times, Nd.over, Nd.idiv_channel.
  induction m as [|row m IH]; [done|].
  cbn [map zip_with]. f_equal; [|exact IH].
  unfold Nd1.add, Nd1.square, Nd1.channel, Nd1.times, Nd1.over, Nd1.idiv_channel.
  clear IH. induction row as [|[x y z] row IH]; [done|].
  cbn [map zip_with]. f_equal. exact IH.
Qed.

Lemma sum_squares_zero (x y z : R) :
  (x * x + y * y + z * z = 0)%R -> x = 0%R /\ y = 0%R /\ z = 0%R.
Proof.
  intros H.
  pose proof (Rle_0_sqr x) as Hx. pose proof (Rle_0_sqr y) as Hy.
  pose proof (Rle_0_sqr z) as Hz. unfold Rsqr in *.
  assert (Ex : (x * x = 0)%R) by lra.
  assert (Ey : (y * y = 0)%R) by lra.
  assert (Ez : (z * z = 0)%R) by lra.
  apply Rmult_integral in Ex, Ey, Ez. intuition.
Qed.

(** on a finite vector the dot product with k = (0, 0, 1) is vz / norm *)
Lemma two_theta_dot_finite (x y z : R) :
  Spec.two_theta_dot (V3 (Fin x) (Fin y) (Fin z))
  = Spec.two_theta_deg (V3 (Fin x) (Fin y) (Fin z)).
Proof.
  unfold Spec.two_theta_dot, Spec.two_theta_deg, F.square. cbn [c0 c1 c2].
  cbn [F.mul F.add F.sqrt].
  assert (Hs : (0 <= x * x + y * y + z * z)%R) by nra.
  destruct (decide (x * x + y * y + z * z < 0)%R) as [Hneg|_]; [lra|].
  set (q := sqrt (x * x + y * y + z * z)).
  cbn [F.div].
  destruct (decide (q = 0%R)) as [Hq|Hq].
  - apply sqrt_eq_0 in Hq; [|done].
    apply sum_squares_zero in Hq as (-> & -> & ->).
    unfold F.signed_inf.
    destruct (decide (0 < 0)%R); [lra|]. reflexivity.
  - cbn [F.mul F.add]. do 4 f_equal. lra.
Qed.

Lemma two_theta_dot_zero :
  Spec.two_theta_dot (V3 (Fin 0) (Fin 0) (Fin 0)) = NaN.
Proof.
  rewrite two_theta_dot_finite.
  unfold Spec.two_theta_deg. cbn [c0 c1 c2 F.mul F.add F.sqrt].
  destruct (decide (0 * 0 + 0 * 0 + 0 * 0 < 0)%R); [lra|].
  replace (0 * 0 + 0 * 0 + 0 * 0)%R with 0%R by lra. rewrite sqrt_0.
  cbn [F.div]. destruct (decide (0 = 0)%R); [|done].
  unfold F.signed_inf. destruct (decide (0 < 0)%R); [lra|]. reflexivity.
Qed.

Lemma map_finite_eq (a : list pixel) :
  Forall Spec.finite_pixel a ->
  map Spec.two_theta_dot a = map Spec.two_theta_deg a.
Proof.
  intros H. apply Forall_fmap_ext_1. eapply Forall_impl; [exact H|].
  intros p (x & y & z & ->). apply two_theta_dot_finite.
Qed.

(** C5. For every position array of shape (rows, cols, 3) or (pixels, 3)
    the angle conversion returns an array of the same shape without the
    last axis; every entry is the arc cosine, in degrees, of the dot
    product of the pixel position over its norm with the incident-beam
    direction (0, 0, 1), which for every finite position is
    arccos(vz / sqrt(vx^2 + vy^2 + vz^2)) * 180 / pi; a zero-length position
    vector yields not-a-number, not an error. *)
Theorem convert_to_2theta_formula :
  (forall m : grid,
     (PyHB2BReduction.convert_to_2theta (Pos3 m)).1
       = Ang2 (map (map Spec.two_theta_dot) m) /\
     (Forall (Forall Spec.finite_pixel) m ->
      (PyHB2BReduction.convert_to_2theta (Pos3 m)).1
        = Ang2 (map (map Spec.two_theta_deg) m))) /\
  (forall a : list pixel,
     (PyHB2BReduction.convert_to_2theta (Pos2 a)).1
       = Ang1 (map Spec.two_theta_dot a) /\
     (Forall Spec.finite_pixel a ->
      (PyHB2BReduction.convert_to_2theta (Pos2 a)).1
        = Ang1 (map Spec.two_theta_deg a))) /\
  (forall (a : list pixel) (i : nat),
     a !! i = Some (V3 (Fin 0) (Fin 0) (Fin 0)) ->
     exists v, (PyHB2BReduction.convert_to_2theta (Pos2 a)).1 = Ang1 v /\
               length v = length a /\ v !! i = Some NaN) /\
  (forall (m : grid) (r c : nat),
     Nd.at2 r c m = Some (V3 (Fin 0) (Fin 0) (Fin 0)) ->
     exists p, (PyHB2BReduction.convert_to_2theta (Pos3 m)).1 = Ang2 p /\
               Nd.at2 r c p = Some NaN).
Proof.
  split; [|split; [|split]].
  - intros m. split; [apply convert_to_2theta_grid|].
    intros H. rewrite convert_to_2theta_grid. f_equal.
    apply Forall_fmap_ext_1. eapply Forall_impl; [exact H|].
    intros row Hrow. by apply map_finite_eq.
  - intros a. split; [apply convert_to_2theta_flat|].
    intros H. rewrite convert_to_2theta_flat. f_equal. by apply map_finite_eq.
  - intros a i Hi. eexists. split; [apply convert_to_2theta_flat|].
    split; [by rewrite length_map|].
    by rewrite list_lookup_fmap, Hi, <- two_theta_dot_zero.
  - intros m r c H. eexists. split; [apply convert_to_2theta_grid|].
    rewrite <- two_theta_dot_zero. by apply at2_map.
Qed.

(** the witness of C5: a pixel on the beam axis and a pixel at the origin *)
Lemma convert_to_2theta_formula_witness :
  (PyHB2BReduction.convert_to_2theta
     (Pos2 [V3 (Fin 0) (Fin 0) (Fin 1); V3 (Fin 0) (Fin 0) (Fin 0)])).1
  = Ang1 (map Spec.two_theta_deg
            [V3 (Fin 0) (Fin 0) (Fin 1); V3 (Fin 0) (Fin 0) (Fin 0)]) /\
  exists v,
    (PyHB2BReduction.convert_to_2theta
       (Pos2 [V3 (Fin 0) (Fin 0) (Fin 1); V3 (Fin 0) (Fin 0) (Fin 0)])).1 = Ang1 v /\
    length v = 2 /\ v !! 1 = Some NaN.
Proof.
  destruct convert_to_2theta_formula as (_ & Hflat & Hzero & _).
  split.
  - apply Hflat. repeat constructor; unfold Spec.finite_pixel; eauto.
  - apply (Hzero [V3 (Fin 0) (Fin 0) (Fin 1); V3 (Fin 0) (Fin 0) (Fin 0)] 1).
    reflexivity.
Defined.

(** ** The result store *)

(** C10. For every sub-run, mask id, bin array and intensity array,
    [set_reduced_diffraction_data] raises an error whenever the two-theta
    (bin) array and the intensity array have different shapes, and leaves
    the workspace as it was: a histogram in edge form (num_bins + 1 edges
    with num_bins intensities) is never written to the result store; this
    holds whatever the two argument checkers do. *)
Theorem set_reduced_diffraction_data_shape_check
    (check_int_variable : string -> Z -> option Z * option Z -> result unit)
    (check_string_variable : string -> string -> result unit)
    (junk : nat -> nat -> float64)
    (sub_run : Z) (mask_id : option string)
    (two_theta_array intensity_array : list float64) (ws : HidraWorkspace.t) :
  length two_theta_array <> length intensity_array ->
  let out :=
    HidraWorkspace.set_reduced_diffraction_data check_int_variable
      check_string_variable junk sub_run mask_id two_theta_array
      intensity_array ws in
  (exists e, out.1 = Raise e) /\
  out.2 = ws /\
  (forall sr mid, HidraWorkspace.stored sr mid out.2 = HidraWorkspace.stored sr mid ws).
Proof.
  intros Hne out. subst out.
  unfold HidraWorkspace.set_reduced_diffraction_data.
  destruct (HidraWorkspace._sub_run_to_spectrum ws) as [s2s|]; [|by eauto].
  destruct (check_int_variable _ _ _) as [[]|e]; [|by eauto].
  destruct (match mask_id with
            | Some m => check_string_variable "Mask ID" m
            | None => Ok tt
            end) as [[]|e]; [|by eauto].
  destruct (decide ([length two_theta_array] ≠ [length intensity_array]))
    as [_|Heq]; [by eauto|].
  exfalso. apply Heq. congruence.
Qed.

(** the witness of C10: three bin edges with two intensities *)
Lemma set_reduced_diffraction_data_shape_check_witness :
  let ws :=
    HidraWorkspace._create_subrun_spectrum_map [1%Z] (HidraWorkspace.__init__ "hidradata") in
  let out :=
    HidraWorkspace.set_reduced_diffraction_data (fun _ _ _ => Ok tt)
      (fun _ _ => Ok tt) (fun _ _ => NaN) 1%Z None
      [Fin 10; Fin 35; Fin 60] [Fin 1; Fin 2] ws in
  (exists e, out.1 = Raise e) /\ out.2 = ws.
Proof.
  intros ws out.
  destruct (set_reduced_diffraction_data_shape_check (fun _ _ _ => Ok tt)
              (fun _ _ => Ok tt) (fun _ _ => NaN) 1%Z None
              [Fin 10; Fin 35; Fin 60] [Fin 1; Fin 2] ws) as (H1 & H2 & _).
  - cbn. lia.
  - split; assumption.
Defined.

(** ** The orchestrator *)

Lemma call_missing {A} (cls : string) (attrs : list string) (name : string)
    (body : result A) :
  name ∉ attrs -> call cls attrs name body = Raise (AttributeError cls name).
Proof. intros H. unfold call. by case_decide. Qed.

Lemma workspace_has_no_get_subruns : "get_subruns" ∉ HidraWorkspace.attrs.
Proof. apply (bool_decide_eq_false_1 _). by vm_compute. Qed.

Lemma workspace_has_no_get_raw_data : "get_raw_data" ∉ HidraWorkspace.attrs.
Proof. apply (bool_decide_eq_false_1 _). by vm_compute. Qed.

Lemma workspace_has_get_sub_runs :
  ("get_sub_runs" ∈ HidraWorkspace.attrs) /\
  ("get_detector_counts" ∈ HidraWorkspace.attrs).
Proof. split; apply (bool_decide_eq_true_1 _); by vm_compute. Qed.

Lemma engine_has_no_set_experimental_data :
  ("set_experimental_data" ∉ HB2BReductionManager.PyHB2BReduction_attrs) /\
  ("set_mask" ∉ HB2BReductionManager.PyHB2BReduction_attrs).
Proof. split; apply (bool_decide_eq_false_1 _); by vm_compute. Qed.

(** a step that leaves the state alone, followed by steps that cannot
    succeed: the whole raises and leaves the state alone, or the first step
    raised already *)
Lemma bind_raises_unchanged {S A B} (m : stM S A) (k : A -> stM S B) (s : S) :
  (m s).2 = s ->
  (forall a, (m s).1 = Ok a -> raises_unchanged (k a) s) ->
  raises_unchanged (st_bind m k) s.
Proof.
  unfold raises_unchanged, st_bind. intros Hs Hk.
  destruct (m s) as [[a|e] s']; cbn [fst snd] in *; subst s'.
  - by apply Hk.
  - eauto.
Qed.

Section Orchestrator.

Variable check_int_variable : string -> Z -> option Z * option Z -> result unit.
Variable check_string_variable : string -> string -> result unit.
Variable TWO_THETA : string.
Variable junk : nat -> nat -> float64.
Variable pixel_junk : nat -> nat -> pixel.
Variable MantidHB2BReduction : Type.
Variable mantid_new : option string -> MantidHB2BReduction.
Variable mantid_set_experimental_data :
  float64 -> int_array -> MantidHB2BReduction -> result MantidHB2BReduction.
Variable mantid_build_instrument :
  option AnglerCameraDetectorShift -> MantidHB2BReduction ->
  result MantidHB2BReduction.
Variable mantid_set_mask :
  list float64 -> MantidHB2BReduction -> result MantidHB2BReduction.
Variable mantid_reduce_to_2theta_histogram :
  MantidHB2BReduction -> result (list float64 * list float64).

Let manager := HB2BReductionManager.t MantidHB2BReduction.

Let reduce_sub_run_diffraction :=
  HB2BReductionManager.reduce_sub_run_diffraction check_int_variable
    check_string_variable TWO_THETA junk pixel_junk MantidHB2BReduction
    mantid_new mantid_set_experimental_data mantid_build_instrument
    mantid_set_mask mantid_reduce_to_2theta_histogram.

Let reduce_diffraction_data :=
  HB2BReductionManager.reduce_diffraction_data check_int_variable
    check_string_variable TWO_THETA junk pixel_junk MantidHB2BReduction
    mantid_new mantid_set_experimental_data mantid_build_instrument
    mantid_set_mask mantid_reduce_to_2theta_histogram.

Lemma ws_call_unchanged {A} (workspace : option string) (name : string)
    (body : HidraWorkspace.t -> result A) (self : manager) :
  (HB2BReductionManager.ws_call MantidHB2BReduction workspace name body self).2 = self.
Proof. unfold HB2BReductionManager.ws_call. by destruct workspace. Qed.

(** Reducing one sub-run stops at its first statement: the workspace has
    no [get_raw_data]. *)
Lemma reduce_sub_run_diffraction_raises (workspace : option string)
    (sub_run : Z) (geometry_calibration : option AnglerCameraDetectorShift)
    (use_mantid_engine : bool)
    (mask_vec_id : option string * option (list float64)) (self : manager) :
  reduce_sub_run_diffraction workspace sub_run geometry_calibration
    use_mantid_engine mask_vec_id self
  = (Raise (AttributeError
              (match workspace with
               | Some _ => "HidraWorkspace"
               | None => "NoneType"
               end) "get_raw_data"),
     self).
Proof.
  unfold reduce_sub_run_diffraction, HB2BReductionManager.reduce_sub_run_diffraction.
  unfold st_bind at 1. unfold HB2BReductionManager.ws_call at 1.
  destruct workspace as [ref|]; [|done].
  by rewrite (call_missing _ _ _ _ workspace_has_no_get_raw_data).
Qed.

(** C3 (as the code is). Reducing a session never reaches a sub-run: for
    every session, calibration choice, bin size, engine choice and mask the
    call raises, and the manager, its workspaces and their result stores
    are as they were.  Nothing is fetched, negated, built, reduced or
    written. *)
Theorem reduce_diffraction_data_raises (session_name : option string)
    (apply_calibrated_geometry : geometry_arg) (bin_size_2theta : float64)
    (use_pyrs_engine : bool) (mask : mask_arg) (self : manager) :
  let out :=
    reduce_diffraction_data session_name apply_calibrated_geometry
      bin_size_2theta use_pyrs_engine mask self in
  (exists e, out.1 = Raise e) /\ out.2 = self.
Proof.
  intros out. subst out.
  change (raises_unchanged
            (reduce_diffraction_data session_name apply_calibrated_geometry
               bin_size_2theta use_pyrs_engine mask) self).
  unfold reduce_diffraction_data, HB2BReductionManager.reduce_diffraction_data.
  apply bind_raises_unchanged.
  { destruct session_name as [name|]; [|done].
    by destruct (HB2BReductionManager._session_dict _ self !! name). }
  intros workspace _. apply bind_raises_unchanged.
  { by destruct mask. }
  intros mask_vec_id _. apply bind_raises_unchanged.
  { destruct apply_calibrated_geometry as [shift|[|]]; [done| |done].
    apply ws_call_unchanged. }
  intros det_pos_shift _. apply bind_raises_unchanged.
  { apply ws_call_unchanged. }
  intros sub_runs Hsub. exfalso. revert Hsub.
  unfold HB2BReductionManager.ws_call.
  destruct workspace as [ref|]; cbn [fst]; [|done].
  by rewrite (call_missing _ _ _ _ workspace_has_no_get_subruns).
Qed.

End Orchestrator.

Section OrchestratorAtSession.

Variable check_int_variable : string -> Z -> option Z * option Z -> result unit.
Variable check_string_variable : string -> string -> result unit.
Variable TWO_THETA : string.
Variable junk : nat -> nat -> float64.
Variable pixel_junk : nat -> nat -> pixel.
Variable MantidHB2BReduction : Type.
Variable mantid_new : option string -> MantidHB2BReduction.
Variable mantid_set_experimental_data :
  float64 -> int_array -> MantidHB2BReduction -> result MantidHB2BReduction.
Variable mantid_build_instrument :
  option AnglerCameraDetectorShift -> MantidHB2BReduction ->
  result MantidHB2BReduction.
Variable mantid_set_mask :
  list float64 -> MantidHB2BReduction -> result MantidHB2BReduction.
Variable mantid_reduce_to_2theta_histogram :
  MantidHB2BReduction -> result (list float64 * list float64).

(** On a session that exists, with no mask and no calibration, with either
    engine: the call raises AttributeError at [workspace.get_subruns()]. *)
Lemma reduce_diffraction_data_at_session (name ref : string)
    (bin_size_2theta : float64) (use_pyrs_engine : bool)
    (self : HB2BReductionManager.t MantidHB2BReduction) :
  HB2BReductionManager._session_dict _ self !! name = Some ref ->
  HB2BReductionManager.reduce_diffraction_data check_int_variable
    check_string_variable TWO_THETA junk pixel_junk MantidHB2BReduction
    mantid_new mantid_set_experimental_data mantid_build_instrument
    mantid_set_mask mantid_reduce_to_2theta_histogram
    (Some name) (ShiftFlag false) bin_size_2theta use_pyrs_engine MaskNone self
  = (Raise (AttributeError "HidraWorkspace" "get_subruns"), self).
Proof.
  intros Hname. unfold HB2BReductionManager.reduce_diffraction_data.
  unfold st_bind at 1. rewrite Hname.
  unfold st_bind at 1. unfold st_bind at 1. unfold st_lift at 1.
  unfold st_bind at 1. unfold HB2BReductionManager.ws_call at 1.
  by rewrite (call_missing _ _ _ _ workspace_has_no_get_subruns).
Qed.

End OrchestratorAtSession.

(** ** Histograms *)

Lemma sum_replicate_zero (n : nat) : Np.sum (replicate n (Fin 0)) = Fin 0.
Proof.
  induction n as [|n IH]; [done|].
  cbn [replicate Np.sum foldr].
  change (foldr F.add (Fin 0) (replicate n (Fin 0))) with (Np.sum (replicate n (Fin 0))).
  by rewrite IH, fadd_0_l.
Qed.

Lemma sum_alter_add (w : float64) (out : list float64) (i : nat) :
  i < length out ->
  Np.sum (alter (fun x => x + w)%fl i out) = (Np.sum out + w)%fl.
Proof.
  revert i. induction out as [|x out IH]; intros i Hi; simpl in Hi; [lia|].
  destruct i as [|i].
  - cbn [alter list_alter Np.sum foldr].
    rewrite <- !fadd_assoc. f_equal. apply fadd_comm.
  - cbn [alter list_alter Np.sum foldr].
    change (foldr F.add (Fin 0) (alter (fun x => x + w)%fl i out))
      with (Np.sum (alter (fun x => x + w)%fl i out)).
    rewrite IH by lia. unfold Np.sum. by rewrite fadd_assoc.
Qed.

Lemma sum_app (l k : list float64) : Np.sum (l ++ k) = (Np.sum l + Np.sum k)%fl.
Proof.
  induction l as [|x l IH]; cbn [app Np.sum foldr].
  - by rewrite fadd_0_l.
  - unfold Np.sum in *. by rewrite IH, fadd_assoc.
Qed.

Lemma bincount_fold_spec (iws : list (nat * float64)) (out : list float64) :
  Forall (fun iw => iw.1 < length out) iws ->
  let res := foldl (fun out iw => alter (fun x => x + iw.2)%fl iw.1 out) out iws in
  length res = length out /\
  Np.sum res = (Np.sum out + Np.sum iws.*2)%fl.
Proof.
  revert out. induction iws as [|[i w] iws IH]; intros out Hall; cbn zeta.
  - cbn [foldl fmap list_fmap]. split; [done|]. cbn [Np.sum foldr].
    by rewrite fadd_0_r.
  - inversion Hall as [|? ? Hi Hrest]; subst. cbn [fst snd] in Hi.
    cbn [foldl fst snd].
    destruct (IH (alter (fun x => x + w)%fl i out)) as [Hlen Hsum].
    { by rewrite length_alter. }
    cbn zeta in Hlen, Hsum. rewrite Hlen, Hsum, length_alter.
    split; [done|].
    rewrite sum_alter_add by done.
    cbn [fmap list_fmap snd Np.sum foldr].
    by rewrite fadd_assoc.
Qed.

Lemma max_indices_bound (indices : list nat) :
  Forall (fun i => i < foldr Nat.max 0 (map S indices)) indices.
Proof.
  induction indices as [|i indices IH]; [done|]. simpl. constructor; [lia|].
  eapply Forall_impl; [exact IH|]. intros j Hj. simpl in Hj. lia.
Qed.

Lemma Forall_zip_fst {A B} (P : A -> Prop) (l : list A) (k : list B) :
  Forall P l -> Forall (fun ab => P ab.1) (zip l k).
Proof.
  intros H. revert k. induction H as [|x l Hx H IH]; intros [|y k]; simpl;
    try constructor; done.
Qed.

(** The sum of the bins is the sum of the weights, wherever they fall. *)
Lemma bincount_sum (indices : list nat) (weights : list float64) (n : nat) :
  length indices = length weights ->
  Np.sum (Np.bincount indices weights n) = Np.sum weights.
Proof.
  intros Hlen. unfold Np.bincount.
  set (size := Nat.max n (foldr Nat.max 0 (map S indices))).
  destruct (bincount_fold_spec (zip indices weights) (replicate size (Fin 0)))
    as [_ Hsum].
  - rewrite length_replicate.
    assert (H : Forall (fun i => i < size) indices).
    { eapply Forall_impl; [apply max_indices_bound|]. intros j Hj. simpl in Hj.
      unfold size. lia. }
    exact (Forall_zip_fst (fun i => i < size) indices weights H).
  - cbn zeta in Hsum. rewrite Hsum, sum_replicate_zero, fadd_0_l.
    by rewrite snd_zip by lia.
Qed.

Lemma bincount_length (indices : list nat) (weights : list float64) (n : nat) :
  Forall (fun i => i < n) indices ->
  length (Np.bincount indices weights n) = n.
Proof.
  intros Hall. unfold Np.bincount.
  assert (Hmax : foldr Nat.max 0 (map S indices) <= n).
  { induction Hall as [|i indices Hi H IH]; simpl; lia. }
  replace (Nat.max n (foldr Nat.max 0 (map S indices))) with n by lia.
  destruct (bincount_fold_spec (zip indices weights) (replicate n (Fin 0)))
    as [Hlen _].
  - rewrite length_replicate.
    exact (Forall_zip_fst (fun i => i < n) indices weights Hall).
  - cbn zeta in Hlen. by rewrite Hlen, length_replicate.
Qed.

Lemma linspace_length (start stop : float64) (n : nat) :
  length (Np.linspace start stop n) = n + 1.
Proof.
  unfold Np.linspace. rewrite length_app, length_map, length_seq. simpl. lia.
Qed.

(** ** The range of a histogram *)

Lemma leb_min2 (z : R) (x y : float64) :
  F.leb (Fin z) (Np.min2 x y) = true -> F.leb (Fin z) x = true.
Proof.
  unfold Np.min2.
  destruct x as [a| | |], y as [b| | |]; cbn [F.isnan orb F.leb];
    try discriminate; try done.
  - destruct (bool_decide (a <= b)%R) eqn:E; [done|].
    apply bool_decide_eq_false in E. intros H.
    apply bool_decide_eq_true in H. apply bool_decide_eq_true. lra.
Qed.

Lemma leb_max2 (z : R) (x y : float64) :
  F.leb (Np.max2 x y) (Fin z) = true -> F.leb x (Fin z) = true.
Proof.
  unfold Np.max2.
  destruct x as [a| | |], y as [b| | |]; cbn [F.isnan orb F.leb];
    try discriminate; try done.
  - destruct (bool_decide (a <= b)%R) eqn:E; [|done].
    apply bool_decide_eq_true in E. intros H.
    apply bool_decide_eq_true in H. apply bool_decide_eq_true. lra.
Qed.

Lemma foldl_min2_le (l : list float64) (x : float64) (m : R) :
  foldl Np.min2 x l = Fin m -> F.leb (Fin m) x = true.
Proof.
  revert x. induction l as [|y l IH]; intros x H; cbn [foldl] in H.
  - subst x. cbn. apply bool_decide_eq_true. lra.
  - apply IH in H. by apply leb_min2 in H.
Qed.

Lemma foldl_max2_ge (l : list float64) (x : float64) (m : R) :
  foldl Np.max2 x l = Fin m -> F.leb x (Fin m) = true.
Proof.
  revert x. induction l as [|y l IH]; intros x H; cbn [foldl] in H.
  - subst x. cbn. apply bool_decide_eq_true. lra.
  - apply IH in H. by apply leb_max2 in H.
Qed.

Lemma amin_le_amax (a : list float64) (lo hi : R) :
  Np.amin a = Fin lo -> Np.amax a = Fin hi -> (lo <= hi)%R.
Proof.
  destruct a as [|x l]; [done|]. cbn [Np.amin Np.amax]. intros Hmin Hmax.
  apply foldl_min2_le in Hmin. apply foldl_max2_ge in Hmax.
  destruct x as [v| | |]; cbn in Hmin, Hmax; try discriminate.
  apply bool_decide_eq_true in Hmin, Hmax. lra.
Qed.

Lemma isfinite_Fin (x : float64) : F.isfinite x = true -> exists v, x = Fin v.
Proof. destruct x; try discriminate. eauto. Qed.

Lemma widen_range (lo hi : R) :
  (lo <= hi)%R ->
  exists lo' hi' : R,
    (if F.eqb (Fin lo) (Fin hi)
     then Ok ((Fin lo - Fin 0.5)%fl, (Fin hi + Fin 0.5)%fl)
     else Ok (Fin lo, Fin hi)) = Ok (Fin lo', Fin hi') /\ (lo' < hi')%R.
Proof.
  intros Hle. cbn [F.eqb]. case_bool_decide as E.
  - eexists _, _. split; [reflexivity|]. lra.
  - eexists _, _. split; [reflexivity|]. lra.
Qed.

(** Whatever range a histogram ends up with is finite and not empty. *)
Lemma get_outer_edges_inv (a : list float64) (range : option (float64 * float64))
    (edges : float64 * float64) :
  Np._get_outer_edges a range = Ok edges ->
  exists lo hi : R, edges = (Fin lo, Fin hi) /\ (lo < hi)%R.
Proof.
  unfold Np._get_outer_edges. intros H.
  assert (Hcase : exists lo hi : R,
            (lo <= hi)%R /\
            (if F.eqb (Fin lo) (Fin hi)
             then Ok ((Fin lo - Fin 0.5)%fl, (Fin hi + Fin 0.5)%fl)
             else Ok (Fin lo, Fin hi)) = Ok edges).
  { destruct range as [[first_edge last_edge]|].
    - destruct (F.gtb first_edge last_edge) eqn:Egt; [discriminate|].
      destruct (F.isfinite first_edge) eqn:E1; [|discriminate].
      destruct (F.isfinite last_edge) eqn:E2; [|discriminate].
      apply isfinite_Fin in E1 as [lo ->]. apply isfinite_Fin in E2 as [hi ->].
      exists lo, hi. split; [|exact H].
      cbn in Egt. apply bool_decide_eq_false in Egt. lra.
    - destruct a as [|x l].
      + exists 0%R, 1%R. split; [lra|exact H].
      + destruct (F.isfinite (Np.amin (x :: l))) eqn:E1; [|discriminate].
        destruct (F.isfinite (Np.amax (x :: l))) eqn:E2; [|discriminate].
        destruct (isfinite_Fin _ E1) as [lo Hlo].
        destruct (isfinite_Fin _ E2) as [hi Hhi].
        exists lo, hi. split; [by eapply amin_le_amax|].
        rewrite Hlo, Hhi in H. exact H. }
  destruct Hcase as (lo & hi & Hle & E).
  destruct (widen_range lo hi Hle) as (lo' & hi' & E' & Hlt).
  rewrite E in E'. injection E' as ->. eauto.
Qed.

(** A valid explicit range is the range of the histogram. *)
Lemma get_outer_edges_explicit (a : list float64) (lo hi : R) :
  (lo < hi)%R ->
  Np._get_outer_edges a (Some (Fin lo, Fin hi)) = Ok (Fin lo, Fin hi).
Proof.
  intros Hlt. unfold Np._get_outer_edges. cbn [F.gtb F.ltb].
  rewrite bool_decide_eq_false_2 by lra.
  cbn [F.isfinite andb negb mbind result_bind fst snd F.eqb].
  rewrite bool_decide_eq_false_2 by lra. done.
Qed.

Lemma bin_adjust_bound (n i0 : nat) (b1 b2 : nat -> bool) :
  0 < n -> i0 <= n ->
  let i1 := if i0 =? n then i0 - 1 else i0 in
  let i2 := if b1 i1 then i1 - 1 else i1 in
  let i3 := if b2 i2 && negb (i2 =? n - 1) then i2 + 1 else i2 in
  i3 < n.
Proof.
  intros Hn Hi i1 i2 i3.
  assert (H1 : i1 < n).
  { unfold i1. destruct (i0 =? n) eqn:E; [lia|]. apply Nat.eqb_neq in E. lia. }
  assert (H2 : i2 < n) by (unfold i2; destruct (b1 i1); lia).
  unfold i3. destruct (b2 i2); cbn [andb]; [|done].
  destruct (i2 =? n - 1) eqn:E; cbn [negb]; [done|].
  apply Nat.eqb_neq in E. lia.
Qed.

(** Every kept sample lands in one of the [n] bins. *)
Lemma bin_index_bound (bin_edges : list float64) (n : nat) (lo hi v : R) :
  0 < n -> (lo < hi)%R -> (lo <= v <= hi)%R ->
  Np.bin_index bin_edges n (Fin lo) (F.of_nat n / (Fin hi - Fin lo))%fl (Fin v) < n.
Proof.
  intros Hn Hlt Hv. unfold Np.bin_index.
  cbn [F.sub F.neg F.add F.of_nat F.div].
  destruct (decide (hi + - lo = 0)%R) as [E|_]; [lra|].
  cbn [F.mul F.to_index default].
  set (r := ((v + - lo) * (INR n / (hi + - lo)))%R).
  assert (Hr : (0 <= r <= INR n)%R).
  { unfold r. assert (0 < INR n)%R by (apply lt_0_INR; lia).
    assert (Hd : (0 < hi + - lo)%R) by lra.
    split.
    - apply Rmult_le_pos; [lra|]. apply Rlt_le, Rdiv_lt_0_compat; lra.
    - replace (INR n) with ((hi + - lo) * (INR n / (hi + - lo)))%R at 2
        by (field; lra).
      apply Rmult_le_compat_r; [|lra].
      apply Rlt_le, Rdiv_lt_0_compat; lra. }
  assert (Hidx : Z.to_nat (Zfloor r) <= n).
  { pose proof (Zfloor_bound r) as [Hfl _].
    assert (IZR (Zfloor r) <= IZR (Z.of_nat n))%R by (rewrite <- INR_IZR_INZ; lra).
    apply le_IZR in H. lia. }
  exact (bin_adjust_bound n (Z.to_nat (Zfloor r))
           (fun i => F.ltb (Fin v) (bin_edges !!! i))
           (fun i => F.geb (Fin v) (bin_edges !!! (i + 1))) Hn Hidx).
Qed.

Lemma in_range_finite (x : float64) (lo hi : R) :
  F.geb x (Fin lo) && F.leb x (Fin hi) = true ->
  exists v, x = Fin v /\ (lo <= v <= hi)%R.
Proof.
  intros H. apply andb_true_iff in H as [H1 H2].
  destruct x as [v| | |]; cbn in H1, H2; try discriminate.
  apply bool_decide_eq_true in H1, H2. eauto.
Qed.

(** What a histogram that returns has returned: a finite, non-empty range;
    its [bins + 1] equally spaced edges; [bins] sums whose total is the
    total weight of the samples inside the range. *)
Lemma histogram_inv (a : list float64) (bins : Z)
    (range : option (float64 * float64)) (w hist edges : list float64) :
  Np.histogram a bins range w = Ok (hist, edges) ->
  exists lo hi : R,
    (lo < hi)%R /\
    Np._get_outer_edges a range = Ok (Fin lo, Fin hi) /\
    (1 <= bins)%Z /\
    length w = length a /\
    edges = Np.linspace (Fin lo) (Fin hi) (Z.to_nat bins) /\
    length hist = Z.to_nat bins /\
    Np.sum hist
      = Np.sum (List.filter (fun xw => F.geb xw.1 (Fin lo) && F.leb xw.1 (Fin hi))
                            (zip a w)).*2.
Proof.
  unfold Np.histogram. intros H.
  destruct (length w =? length a) eqn:Elen; cbn [negb] in H; [|discriminate].
  apply Nat.eqb_eq in Elen.
  destruct (bins <? 1)%Z eqn:Ebins; [discriminate|].
  apply Z.ltb_ge in Ebins.
  destruct (Np._get_outer_edges a range) as [edges0|e] eqn:Eedges; [|discriminate].
  destruct (get_outer_edges_inv a range edges0 Eedges) as (lo & hi & -> & Hlt).
  cbn [mbind result_bind fst snd] in H. injection H as <- <-.
  exists lo, hi. repeat (split; [done|]).
  set (kept := List.filter _ (zip a w)).
  split.
  - apply bincount_length. apply Forall_fmap, Forall_forall.
    intros [x wx] Hin. apply list_elem_of_In, filter_In in Hin as [_ Hin].
    cbn [fst] in Hin.
    destruct (in_range_finite x lo hi Hin) as (v & -> & Hv).
    cbn [compose fst]. apply bin_index_bound; [lia|done|done].
  - apply bincount_sum. by rewrite !length_map.
Qed.

(** A histogram returns whenever the weights match the samples, there is
    at least one bin and the range is valid. *)
Lemma histogram_ok (a : list float64) (bins : Z)
    (range : option (float64 * float64)) (w : list float64)
    (edges : float64 * float64) :
  length w = length a -> (1 <= bins)%Z ->
  Np._get_outer_edges a range = Ok edges ->
  exists hist, Np.histogram a bins range w
               = Ok (hist, Np.linspace edges.1 edges.2 (Z.to_nat bins)).
Proof.
  intros Hlen Hbins Eedges. unfold Np.histogram.
  rewrite (proj2 (Nat.eqb_eq _ _) Hlen). cbn [negb].
  rewrite (proj2 (Z.ltb_ge _ _) Hbins). rewrite Eedges.
  cbn [mbind result_bind]. eauto.
Qed.

(** ** The reducer *)

Lemma two_theta_of_length (arr : list pixel) :
  length (PyHB2BReduction.two_theta_of arr) = length arr.
Proof. by rewrite two_theta_of_pixelwise, length_map. Qed.

Lemma histogram_range_ext (a : list float64) (bins : Z)
    (r1 r2 : option (float64 * float64)) (w : list float64) :
  Np._get_outer_edges a r1 = Np._get_outer_edges a r2 ->
  Np.histogram a bins r1 w = Np.histogram a bins r2 w.
Proof. intros H. unfold Np.histogram. by rewrite H. Qed.

Lemma get_outer_edges_default (a : list float64) (lo hi : R) :
  Np.amin a = Fin lo -> Np.amax a = Fin hi -> (lo < hi)%R ->
  Np._get_outer_edges a None = Np._get_outer_edges a (Some (Fin lo, Fin hi)).
Proof.
  intros Hmin Hmax Hlt. rewrite get_outer_edges_explicit by done.
  unfold Np._get_outer_edges. destruct a as [|x l]; [discriminate|].
  rewrite Hmin, Hmax.
  cbn [F.isfinite andb negb mbind result_bind fst snd F.eqb].
  by rewrite bool_decide_eq_false_2 by lra.
Qed.

(** Point data is the edge form with half the first bin width added to
    every edge and the last edge dropped; the intensities are the same. *)
Lemma reduce_point_data (self : PyHB2BReduction.t) (h : store)
    (counts_array : int_array) (mask : option (list float64)) (num_bins : Z)
    (x_range : option (float64 * float64)) :
  PyHB2BReduction.reduce_to_2theta_histogram self h counts_array mask num_bins
    x_range true
  = (fun eh : list float64 * list float64 =>
       (removelast
          (map (fun e => e + (eh.1 !!! 1 - eh.1 !!! 0) * Fin 0.5)%fl eh.1),
        eh.2))
      <$> PyHB2BReduction.reduce_to_2theta_histogram self h counts_array mask
            num_bins x_range false.
Proof.
  unfold PyHB2BReduction.reduce_to_2theta_histogram.
  destruct (ResidualStressInstrument.get_pixel_array _ h) as [arr|e]; [|done].
  cbn [mbind result_bind].
  case_decide; [done|].
  destruct x_range as [[lo hi]|].
  - destruct (F.geb lo hi); [done|]. cbn [mbind result_bind].
    destruct mask as [m|].
    + destruct (PyHB2BReduction.check_numpy_arrays counts_array m); [|done].
      cbn [mbind result_bind].
      by destruct (Np.histogram _ _ _ _) as [[hist edges]|e].
    + cbn [mbind result_bind].
      by destruct (Np.histogram _ _ _ _) as [[hist edges]|e].
  - cbn [mbind result_bind].
    destruct mask as [m|].
    + destruct (PyHB2BReduction.check_numpy_arrays counts_array m); [|done].
      cbn [mbind result_bind].
      by destruct (Np.histogram _ _ _ _) as [[hist edges]|e].
    + cbn [mbind result_bind].
      by destruct (Np.histogram _ _ _ _) as [[hist edges]|e].
Qed.

(** What an edge-form reduction that returns has returned. *)
Lemma reduce_edges_inv (self : PyHB2BReduction.t) (h : store)
    (counts_array : int_array) (mask : option (list float64)) (num_bins : Z)
    (x_range : option (float64 * float64)) (edges hist : list float64) :
  PyHB2BReduction.reduce_to_2theta_histogram self h counts_array mask num_bins
    x_range false = Ok (edges, hist) ->
  exists (arr : list pixel) (w : list float64),
    ResidualStressInstrument.get_pixel_array (PyHB2BReduction._instrument self) h
      = Ok arr /\
    ia_shape counts_array = [length arr] /\
    Np.histogram (PyHB2BReduction.two_theta_of arr) num_bins x_range w
      = Ok (hist, edges).
Proof.
  unfold PyHB2BReduction.reduce_to_2theta_histogram. intros H.
  destruct (ResidualStressInstrument.get_pixel_array _ h) as [arr|e]; [|done].
  cbn [mbind result_bind] in H.
  case_decide as Hshape; [done|].
  rewrite two_theta_of_length in Hshape. symmetry in Hshape.
  assert (Hcore : forall w r,
            (hb ← Np.histogram (PyHB2BReduction.two_theta_of arr) num_bins r w;
             Ok (hb.2, hb.1)) = Ok (edges, hist) ->
            Np.histogram (PyHB2BReduction.two_theta_of arr) num_bins r w
              = Ok (hist, edges)).
  { intros w r Hw. destruct (Np.histogram _ _ _ _) as [[hist' edges']|e]; [|done].
    cbn in Hw. by injection Hw as -> ->. }
  destruct x_range as [[lo hi]|].
  - destruct (F.geb lo hi); [done|]. cbn [mbind result_bind] in H.
    destruct mask as [m|].
    + destruct (PyHB2BReduction.check_numpy_arrays counts_array m); [|done].
      cbn [mbind result_bind] in H. apply Hcore in H. eauto.
    + cbn [mbind result_bind] in H. apply Hcore in H. eauto.
  - cbn [mbind result_bind] in H.
    destruct mask as [m|].
    + destruct (PyHB2BReduction.check_numpy_arrays counts_array m); [|done].
      cbn [mbind result_bind] in H. apply Hcore in H. eauto.
    + cbn [mbind result_bind] in H. apply Hcore in H. eauto.
Qed.

Lemma removelast_take {A} (l : list A) : removelast l = take (length l - 1) l.
Proof. rewrite removelast_firstn_len. f_equal. lia. Qed.

(** With the instrument built, a counts vector of the right length, a mask
    (if any) of that length, at least one bin and a valid explicit range,
    the edge-form reduction returns. *)
Lemma reduce_edges_returns (self : PyHB2BReduction.t) (h : store)
    (arr : list pixel) (counts : list Z) (mask : option (list float64))
    (num_bins : Z) (lo hi : R) :
  ResidualStressInstrument.get_pixel_array (PyHB2BReduction._instrument self) h
    = Ok arr ->
  length counts = length arr ->
  match mask with Some m => length m = length arr | None => True end ->
  (1 <= num_bins)%Z ->
  (lo < hi)%R ->
  exists edges hist,
    PyHB2BReduction.reduce_to_2theta_histogram self h
      (counts_vector counts) mask num_bins (Some (Fin lo, Fin hi)) false
    = Ok (edges, hist).
Proof.
  intros Harr Hlen Hmask Hbins Hlt.
  unfold PyHB2BReduction.reduce_to_2theta_histogram. rewrite Harr.
  cbn [mbind result_bind]. unfold counts_vector. cbn [ia_shape ia_data].
  case_decide as E.
  { exfalso. apply E. by rewrite two_theta_of_length, Hlen. }
  cbn [F.geb F.leb]. rewrite bool_decide_eq_false_2 by lra.
  cbn [mbind result_bind].
  assert (Hcore : forall w, length w = length arr ->
            exists edges hist,
              (hb ← Np.histogram (PyHB2BReduction.two_theta_of arr) num_bins
                     (Some (Fin lo, Fin hi)) w;
               Ok (hb.2, hb.1)) = Ok (edges, hist)).
  { intros w Hw.
    destruct (histogram_ok (PyHB2BReduction.two_theta_of arr) num_bins
                (Some (Fin lo, Fin hi)) w (Fin lo, Fin hi)) as [hist Hhist].
    - by rewrite two_theta_of_length.
    - done.
    - by apply get_outer_edges_explicit.
    - rewrite Hhist. cbn [mbind result_bind fst snd]. eauto. }
  destruct mask as [m|].
  - unfold PyHB2BReduction.check_numpy_arrays. cbn [ia_shape].
    rewrite decide_True by (by rewrite Hmask, Hlen).
    cbn [mbind result_bind]. apply Hcore.
    rewrite length_zip_with, length_map. lia.
  - cbn [mbind result_bind]. apply Hcore. by rewrite length_map.
Qed.

(** The centres of [n >= 1] bins: with [n + 1] edges the first two edges
    exist, and adding half their distance to every edge and dropping the
    last edge leaves [n] centres, one per edge but the last. *)
Lemma centers_of_edges (edges : list float64) (n : nat) :
  length edges = n + 1 -> 1 <= n ->
  let centers :=
    removelast
      (map (fun e => e + (edges !!! 1 - edges !!! 0) * Fin 0.5)%fl edges) in
  length centers = n /\
  exists e0 e1,
    edges !! 0 = Some e0 /\ edges !! 1 = Some e1 /\
    forall i, i < n ->
      exists e, edges !! i = Some e /\
                centers !! i = Some (e + (e1 - e0) / Fin 2)%fl.
Proof.
  intros Hlen Hn centers. subst centers.
  destruct (lookup_lt_is_Some_2 edges 0) as [e0 H0]; [lia|].
  destruct (lookup_lt_is_Some_2 edges 1) as [e1 H1]; [lia|].
  rewrite (list_lookup_total_correct _ _ _ H0),
          (list_lookup_total_correct _ _ _ H1).
  rewrite removelast_take, length_take, !length_fmap, Hlen.
  split; [lia|].
  exists e0, e1. split; [done|]. split; [done|].
  intros i Hi.
  destruct (lookup_lt_is_Some_2 edges i) as [e He]; [lia|].
  exists e. split; [done|].
  rewrite lookup_take_lt by lia.
  rewrite list_lookup_fmap, He. cbn [fmap option_fmap option_map].
  by rewrite fmul_half.
Qed.

(** What a point-data reduction that returns has returned. *)
Lemma reduce_point_data_inv (self : PyHB2BReduction.t) (h : store)
    (counts_array : int_array) (mask : option (list float64)) (num_bins : Z)
    (x_range : option (float64 * float64)) (centers hist : list float64) :
  PyHB2BReduction.reduce_to_2theta_histogram self h counts_array mask num_bins
    x_range true = Ok (centers, hist) ->
  exists edges,
    PyHB2BReduction.reduce_to_2theta_histogram self h counts_array mask
      num_bins x_range false = Ok (edges, hist) /\
    centers
    = removelast
        (map (fun e => e + (edges !!! 1 - edges !!! 0) * Fin 0.5)%fl edges).
Proof.
  rewrite reduce_point_data.
  destruct (PyHB2BReduction.reduce_to_2theta_histogram self h counts_array mask
              num_bins x_range false) as [[edges hist']|e]; [|done].
  cbn [fmap result_fmap fst snd]. intros [= <- <-]. eauto.
Qed.

(** What an edge-form reduction that returns has returned: at least one
    bin, as many intensities as bins and one edge more. *)
Lemma reduce_edges_lengths (self : PyHB2BReduction.t) (h : store)
    (counts_array : int_array) (mask : option (list float64)) (num_bins : Z)
    (x_range : option (float64 * float64)) (edges hist : list float64) :
  PyHB2BReduction.reduce_to_2theta_histogram self h counts_array mask num_bins
    x_range false = Ok (edges, hist) ->
  (1 <= num_bins)%Z /\
  length hist = Z.to_nat num_bins /\
  length edges = Z.to_nat num_bins + 1.
Proof.
  intros Hred.
  destruct (reduce_edges_inv _ _ _ _ _ _ _ _ Hred) as (arr & w & _ & _ & Hhist).
  destruct (histogram_inv _ _ _ _ _ _ Hhist)
    as (lo & hi & _ & _ & Hbins & _ & -> & Hlen & _).
  by rewrite linspace_length.
Qed.

(** C7. With the instrument built, a counts vector of the length of the
    angle array, a mask (if any) of that length, num_bins >= 1 and a range
    lo < hi, the reducer returns in both forms, with num_bins intensities,
    num_bins + 1 edges in the edge form and num_bins centres in the
    point-data form; the first two edges exist, and with the half bin
    width delta = (edges[1] - edges[0]) / 2 the centres are the edges with
    delta added and the last edge dropped: center[i] = edge[i] + delta for
    every index i below num_bins.  The same holds whenever point-data output
    is returned, for every counts array, mask, number of bins and range. *)
Theorem point_data_centers (self : PyHB2BReduction.t) (h : store)
    (arr : list pixel) (counts : list Z) (mask : option (list float64))
    (num_bins : Z) (lo hi : R) :
  ResidualStressInstrument.get_pixel_array (PyHB2BReduction._instrument self) h
    = Ok arr ->
  length counts = length arr ->
  match mask with Some m => length m = length arr | None => True end ->
  (1 <= num_bins)%Z ->
  (lo < hi)%R ->
  let reduce := PyHB2BReduction.reduce_to_2theta_histogram self h in
  (exists edges centers hist e0 e1,
     reduce (counts_vector counts) mask num_bins (Some (Fin lo, Fin hi)) false
       = Ok (edges, hist) /\
     reduce (counts_vector counts) mask num_bins (Some (Fin lo, Fin hi)) true
       = Ok (centers, hist) /\
     length hist = Z.to_nat num_bins /\
     length edges = Z.to_nat num_bins + 1 /\
     length centers = Z.to_nat num_bins /\
     edges !! 0 = Some e0 /\ edges !! 1 = Some e1 /\
     forall i, i < Z.to_nat num_bins ->
       exists e, edges !! i = Some e /\
                 centers !! i = Some (e + (e1 - e0) / Fin 2)%fl) /\
  (forall counts_array mask' bins x_range centers hist,
     reduce counts_array mask' bins x_range true = Ok (centers, hist) ->
     exists edges e0 e1,
       reduce counts_array mask' bins x_range false = Ok (edges, hist) /\
       (1 <= bins)%Z /\
       length hist = Z.to_nat bins /\
       length edges = Z.to_nat bins + 1 /\
       length centers = Z.to_nat bins /\
       edges !! 0 = Some e0 /\ edges !! 1 = Some e1 /\
       forall i, i < Z.to_nat bins ->
         exists e, edges !! i = Some e /\
                   centers !! i = Some (e + (e1 - e0) / Fin 2)%fl).
Proof.
  intros Harr Hlen Hmask Hbins Hlt reduce. subst reduce.
  assert (Hany : forall counts_array mask' bins x_range edges hist,
            PyHB2BReduction.reduce_to_2theta_histogram self h counts_array
              mask' bins x_range false = Ok (edges, hist) ->
            exists centers e0 e1,
              PyHB2BReduction.reduce_to_2theta_histogram self h counts_array
                mask' bins x_range true = Ok (centers, hist) /\
              (1 <= bins)%Z /\
              length hist = Z.to_nat bins /\
              length edges = Z.to_nat bins + 1 /\
              length centers = Z.to_nat bins /\
              edges !! 0 = Some e0 /\ edges !! 1 = Some e1 /\
              forall i, i < Z.to_nat bins ->
                exists e, edges !! i = Some e /\
                          centers !! i = Some (e + (e1 - e0) / Fin 2)%fl).
  { intros counts_array mask' bins x_range edges hist Hred.
    destruct (reduce_edges_lengths _ _ _ _ _ _ _ _ Hred) as (Hb & Hh & He).
    destruct (centers_of_edges edges (Z.to_nat bins) He)
      as (Hc & e0 & e1 & H0 & H1 & Hi); [lia|].
    eexists _, e0, e1. rewrite reduce_point_data, Hred.
    cbn [fmap result_fmap fst snd]. split; [reflexivity|].
    repeat (split; [done|]). exact Hi. }
  split.
  - destruct (reduce_edges_returns self h arr counts mask num_bins lo hi
                Harr Hlen Hmask Hbins Hlt) as (edges & hist & Hred).
    destruct (Hany _ _ _ _ _ _ Hred)
      as (centers & e0 & e1 & Hc & _ & Hh & He & Hl & H0 & H1 & Hi).
    exists edges, centers, hist, e0, e1. done.
  - intros counts_array mask' bins x_range centers hist Hpt.
    destruct (reduce_point_data_inv _ _ _ _ _ _ _ _ Hpt) as (edges & Hred & ->).
    destruct (Hany _ _ _ _ _ _ Hred)
      as (centers' & e0 & e1 & Hc & Hb & Hh & He & Hl & H0 & H1 & Hi).
    rewrite reduce_point_data, Hred in Hc.
    cbn [fmap result_fmap fst snd] in Hc. injection Hc as <-.
    exists edges, e0, e1. done.
Qed.

(** With no range the reducer does what it does with an explicit valid
    range, when the histogram ends up with that range. *)
Lemma reduce_default_range (self : PyHB2BReduction.t) (h : store)
    (arr : list pixel) (counts_array : int_array)
    (mask : option (list float64)) (num_bins : Z) (is_point_data : bool)
    (lo hi : R) :
  ResidualStressInstrument.get_pixel_array (PyHB2BReduction._instrument self) h
    = Ok arr ->
  (lo < hi)%R ->
  Np._get_outer_edges (PyHB2BReduction.two_theta_of arr) None
    = Np._get_outer_edges (PyHB2BReduction.two_theta_of arr)
        (Some (Fin lo, Fin hi)) ->
  PyHB2BReduction.reduce_to_2theta_histogram self h counts_array mask
    num_bins None is_point_data
  = PyHB2BReduction.reduce_to_2theta_histogram self h counts_array mask
      num_bins (Some (Fin lo, Fin hi)) is_point_data.
Proof.
  intros Harr Hlt Hd.
  unfold PyHB2BReduction.reduce_to_2theta_histogram. rewrite Harr.
  cbn [mbind result_bind]. case_decide as E; [done|].
  cbn [F.geb F.leb]. rewrite bool_decide_eq_false_2 by lra.
  cbn [mbind result_bind].
  destruct mask as [m|].
  - destruct (PyHB2BReduction.check_numpy_arrays counts_array m); [|done].
    cbn [mbind result_bind].
    by rewrite (histogram_range_ext _ _ None (Some (Fin lo, Fin hi)) _ Hd).
  - cbn [mbind result_bind].
    by rewrite (histogram_range_ext _ _ None (Some (Fin lo, Fin hi)) _ Hd).
Qed.

(** the range of the data when all samples are one finite value: half a
    unit on each side of it *)
Lemma get_outer_edges_single_value (a : list float64) (v : R) :
  Np.amin a = Fin v -> Np.amax a = Fin v ->
  Np._get_outer_edges a None
  = Np._get_outer_edges a (Some ((Fin v - Fin 0.5)%fl, (Fin v + Fin 0.5)%fl)).
Proof.
  intros Hmin Hmax. cbn [F.sub F.add F.neg].
  rewrite get_outer_edges_explicit by lra.
  unfold Np._get_outer_edges. destruct a as [|x l]; [discriminate|].
  rewrite Hmin, Hmax.
  cbn [F.isfinite andb negb mbind result_bind fst snd F.eqb].
  rewrite bool_decide_eq_true_2 by done.
  cbn [F.sub F.add F.neg fst snd]. reflexivity.
Qed.

(** the range of no data at all *)
Lemma get_outer_edges_no_data :
  Np._get_outer_edges [] None = Np._get_outer_edges [] (Some (Fin 0, Fin 1)).
Proof.
  rewrite get_outer_edges_explicit by lra.
  unfold Np._get_outer_edges.
  cbn [mbind result_bind fst snd F.eqb].
  by rewrite bool_decide_eq_false_2 by lra.
Qed.

(** a histogram of data that is not all finite, with no range, raises *)
Lemma histogram_not_finite (a : list float64) (bins : Z) (w : list float64) :
  a <> [] ->
  F.isfinite (Np.amin a) && F.isfinite (Np.amax a) = false ->
  exists e, Np.histogram a bins None w = Raise e.
Proof.
  intros Ha Hfin. unfold Np.histogram.
  destruct (negb (length w =? length a)); [by eauto|].
  destruct (bins <? 1)%Z; [by eauto|].
  unfold Np._get_outer_edges. destruct a as [|x l]; [done|].
  rewrite Hfin. cbn [negb mbind result_bind]. by eauto.
Qed.

(** C8, amended. With the instrument built: the reduction fails with the
    shape-mismatch error ([RuntimeError], "Counts (array) has a
    different ...") whenever the counts array has not the shape of the angle
    array; it fails with a [RuntimeError] whenever an explicit range
    (lo, hi) with lo >= hi is supplied, the range error ("X range {} is not
    allowed") when the shapes agree; and with no range supplied the range
    is the default of [np.histogram]: [min(angles), max(angles)] when the
    angles are finite and not all equal; [v - 0.5, v + 0.5] when all angles
    are the one finite value v; [0, 1] when there is no angle; and when the
    least or the greatest angle is not finite (an angle is not-a-number)
    the reduction raises. *)
Theorem reduce_preconditions (self : PyHB2BReduction.t) (h : store)
    (arr : list pixel) :
  ResidualStressInstrument.get_pixel_array (PyHB2BReduction._instrument self) h
    = Ok arr ->
  let two_theta_array := PyHB2BReduction.two_theta_of arr in
  (forall counts_array mask num_bins x_range is_point_data,
     ia_shape counts_array <> [length two_theta_array] ->
     PyHB2BReduction.reduce_to_2theta_histogram self h counts_array mask
       num_bins x_range is_point_data
     = Raise (RuntimeError "Counts (array) has a different ... blabla")) /\
  (forall counts_array mask num_bins lo hi is_point_data,
     F.geb lo hi = true ->
     (exists msg,
        PyHB2BReduction.reduce_to_2theta_histogram self h counts_array mask
          num_bins (Some (lo, hi)) is_point_data
        = Raise (RuntimeError msg)) /\
     (ia_shape counts_array = [length two_theta_array] ->
      PyHB2BReduction.reduce_to_2theta_histogram self h counts_array mask
        num_bins (Some (lo, hi)) is_point_data
      = Raise (RuntimeError "X range {} is not allowed"))) /\
  (forall counts_array mask num_bins is_point_data (lo hi : R),
     Np.amin two_theta_array = Fin lo ->
     Np.amax two_theta_array = Fin hi ->
     (lo < hi)%R ->
     PyHB2BReduction.reduce_to_2theta_histogram self h counts_array mask
       num_bins None is_point_data
     = PyHB2BReduction.reduce_to_2theta_histogram self h counts_array mask
         num_bins (Some (Np.amin two_theta_array, Np.amax two_theta_array))
         is_point_data) /\
  (forall counts_array mask num_bins is_point_data (v : R),
     Np.amin two_theta_array = Fin v ->
     Np.amax two_theta_array = Fin v ->
     PyHB2BReduction.reduce_to_2theta_histogram self h counts_array mask
       num_bins None is_point_data
     = PyHB2BReduction.reduce_to_2theta_histogram self h counts_array mask
         num_bins
         (Some (Np.amin two_theta_array - Fin 0.5,
                Np.amax two_theta_array + Fin 0.5)%fl)
         is_point_data) /\
  (forall counts_array mask num_bins is_point_data,
     arr <> [] ->
     F.isfinite (Np.amin two_theta_array)
       && F.isfinite (Np.amax two_theta_array) = false ->
     exists e,
       PyHB2BReduction.reduce_to_2theta_histogram self h counts_array mask
         num_bins None is_point_data = Raise e) /\
  (forall counts_array mask num_bins is_point_data,
     arr = [] ->
     PyHB2BReduction.reduce_to_2theta_histogram self h counts_array mask
       num_bins None is_point_data
     = PyHB2BReduction.reduce_to_2theta_histogram self h counts_array mask
         num_bins (Some (Fin 0, Fin 1)) is_point_data).
Proof.
  intros Harr two_theta_array. subst two_theta_array.
  split; [|split; [|split; [|split; [|split]]]].
  - intros counts_array mask num_bins x_range is_point_data Hshape.
    unfold PyHB2BReduction.reduce_to_2theta_histogram. rewrite Harr.
    cbn [mbind result_bind]. case_decide as E; [done|].
    exfalso. apply Hshape. by symmetry.
  - intros counts_array mask num_bins lo hi is_point_data Hge.
    unfold PyHB2BReduction.reduce_to_2theta_histogram. rewrite Harr.
    cbn [mbind result_bind]. rewrite Hge. cbn [mbind result_bind].
    case_decide as E.
    + split; [by eauto|]. intros E'. by rewrite E' in E.
    + split; [by eauto|]. done.
  - intros counts_array mask num_bins is_point_data lo hi Hmin Hmax Hlt.
    rewrite Hmin, Hmax.
    apply (reduce_default_range self h arr); [done|done|].
    by apply get_outer_edges_default.
  - intros counts_array mask num_bins is_point_data v Hmin Hmax.
    rewrite Hmin, Hmax.
    pose proof (get_outer_edges_single_value _ v Hmin Hmax) as Hd.
    cbn [F.sub F.add F.neg] in Hd |- *.
    apply (reduce_default_range self h arr); [done|lra|exact Hd].
  - intros counts_array mask num_bins is_point_data Hne Hfin.
    assert (Ha : PyHB2BReduction.two_theta_of arr <> []).
    { intros E. apply Hne. apply length_zero_iff_nil.
      by rewrite <- two_theta_of_length, E. }
    unfold PyHB2BReduction.reduce_to_2theta_histogram. rewrite Harr.
    cbn [mbind result_bind]. case_decide as E; [by eauto|].
    assert (Hcore : forall w,
              exists e,
                (hb ← Np.histogram (PyHB2BReduction.two_theta_of arr) num_bins
                       None w;
                 Ok (if is_point_data
                     then removelast
                            (map (fun e => e + (hb.2 !!! 1 - hb.2 !!! 0) * Fin 0.5)%fl
                                 hb.2)
                     else hb.2, hb.1)) = Raise e).
    { intros w.
      destruct (histogram_not_finite _ num_bins w Ha Hfin) as [e ->].
      by eauto. }
    destruct mask as [m|].
    + destruct (PyHB2BReduction.check_numpy_arrays counts_array m);
        [|by eauto].
      cbn [mbind result_bind]. apply Hcore.
    + cbn [mbind result_bind]. apply Hcore.
  - intros counts_array mask num_bins is_point_data ->.
    apply (reduce_default_range self h []); [done|lra|].
    exact get_outer_edges_no_data.
Qed.

Lemma sum_of_Z (v : list Z) : Np.sum (map F.of_Z v) = F.of_Z (Spec.total v).
Proof.
  induction v as [|z v IH]; [done|].
  cbn [map Np.sum foldr Spec.total].
  change (foldr F.add (Fin 0) (map F.of_Z v)) with (Np.sum (map F.of_Z v)).
  rewrite IH. unfold F.of_Z. cbn [F.add]. f_equal.
  change (foldr Z.add 0%Z v) with (Spec.total v). by rewrite plus_IZR.
Qed.

Lemma filter_zip_map_snd {A B C} (p : A -> bool) (g : B -> C) (a : list A)
    (v : list B) :
  (List.filter (fun xw => p xw.1) (zip a (map g v))).*2
  = map g (List.filter (fun xw => p xw.1) (zip a v)).*2.
Proof.
  revert v. induction a as [|x a IH]; intros [|y v]; try done.
  cbn [map zip zip_with List.filter fst].
  destruct (p x); cbn [fmap list_fmap snd map]; [f_equal|]; apply IH.
Qed.

Lemma filter_all {A} (p : A -> bool) (l : list A) :
  Forall (fun x => p x = true) l -> List.filter p l = l.
Proof.
  induction 1 as [|x l Hx H IH]; [done|]. cbn [List.filter].
  by rewrite Hx, IH.
Qed.

(** With the instrument built, a counts vector of the right length, at
    least one bin and a valid explicit range, the edge-form reduction
    returns what the histogram of the angles returns. *)
Lemma reduce_edges_ok (self : PyHB2BReduction.t) (h : store)
    (arr : list pixel) (counts : list Z) (num_bins : Z) (lo hi : R) :
  ResidualStressInstrument.get_pixel_array (PyHB2BReduction._instrument self) h
    = Ok arr ->
  length counts = length arr ->
  (1 <= num_bins)%Z ->
  (lo < hi)%R ->
  exists edges hist,
    PyHB2BReduction.reduce_to_2theta_histogram self h
      (counts_vector counts) None num_bins (Some (Fin lo, Fin hi)) false
    = Ok (edges, hist) /\
    Np.histogram (PyHB2BReduction.two_theta_of arr) num_bins
      (Some (Fin lo, Fin hi)) (map F.of_Z counts) = Ok (hist, edges).
Proof.
  intros Harr Hlen Hbins Hlt.
  unfold PyHB2BReduction.reduce_to_2theta_histogram. rewrite Harr.
  cbn [mbind result_bind]. unfold counts_vector. cbn [ia_shape ia_data].
  case_decide as E.
  { exfalso. apply E. by rewrite two_theta_of_length, Hlen. }
  cbn [F.geb F.leb]. rewrite bool_decide_eq_false_2 by lra.
  cbn [mbind result_bind].
  destruct (histogram_ok (PyHB2BReduction.two_theta_of arr) num_bins
              (Some (Fin lo, Fin hi)) (map F.of_Z counts) (Fin lo, Fin hi))
    as [hist Hhist].
  - by rewrite length_map, two_theta_of_length.
  - done.
  - by apply get_outer_edges_explicit.
  - rewrite Hhist. cbn [mbind result_bind fst snd]. eauto.
Qed.

(** C6. For the angle array of the pose and every counts vector of its
    shape, reducing with no mask, at least one bin and a range (lo, hi)
    returns, and the sum of the intensities is the sum of the counts of the
    pixels whose angle lies in the range: the counts of out-of-range pixels
    are dropped, not clipped into the boundary bins; when the range covers
    all angle values the sum is the sum of all input counts. *)
Theorem reduce_sum_of_counts (self : PyHB2BReduction.t) (h : store)
    (arr : list pixel) (counts : list Z) (num_bins : Z) (lo hi : R)
    (is_point_data : bool) :
  ResidualStressInstrument.get_pixel_array (PyHB2BReduction._instrument self) h
    = Ok arr ->
  length counts = length arr ->
  (1 <= num_bins)%Z ->
  (lo < hi)%R ->
  let two_theta_array := PyHB2BReduction.two_theta_of arr in
  exists bin_edges hist,
    PyHB2BReduction.reduce_to_2theta_histogram self h (counts_vector counts)
      None num_bins (Some (Fin lo, Fin hi)) is_point_data
    = Ok (bin_edges, hist) /\
    length hist = Z.to_nat num_bins /\
    Np.sum hist
      = F.of_Z (Spec.total
                  (Spec.counts_in_range (Fin lo) (Fin hi) two_theta_array counts)) /\
    (Forall (fun x => Spec.in_range (Fin lo) (Fin hi) x = true) two_theta_array ->
     Np.sum hist = F.of_Z (Spec.total counts)).
Proof.
  intros Harr Hlen Hbins Hlt two_theta_array.
  destruct (reduce_edges_ok self h arr counts num_bins lo hi Harr Hlen Hbins Hlt)
    as (edges & hist & Hred & Hhist).
  fold two_theta_array in Hhist.
  destruct (histogram_inv _ _ _ _ _ _ Hhist)
    as (lo' & hi' & _ & Eedges & _ & _ & _ & Hlenh & Hsum).
  rewrite get_outer_edges_explicit in Eedges by done.
  injection Eedges as <- <-.
  assert (Hsum' : Np.sum hist
            = F.of_Z (Spec.total
                (Spec.counts_in_range (Fin lo) (Fin hi) two_theta_array counts))).
  { rewrite Hsum.
    rewrite (filter_zip_map_snd
               (fun x => F.geb x (Fin lo) && F.leb x (Fin hi)) F.of_Z).
    by rewrite sum_of_Z. }
  assert (Hall : Forall (fun x => Spec.in_range (Fin lo) (Fin hi) x = true)
                   two_theta_array ->
                 Np.sum hist = F.of_Z (Spec.total counts)).
  { intros Hin. rewrite Hsum'. do 2 f_equal. unfold Spec.counts_in_range.
    rewrite filter_all.
    - rewrite snd_zip; [done|]. unfold two_theta_array.
      rewrite two_theta_of_length. lia.
    - exact (Forall_zip_fst (fun x => Spec.in_range (Fin lo) (Fin hi) x = true)
               two_theta_array counts Hin). }
  destruct is_point_data.
  - rewrite reduce_point_data, Hred. cbn [fmap result_fmap fst snd].
    eexists _, hist. done.
  - exists edges, hist. done.
Qed.

(** ** The 1 x 2 example *)

Lemma pixel_array12 :
  ResidualStressInstrument.get_pixel_array
    (PyHB2BReduction._instrument Examples.engine12) Examples.store12
  = Ok [V3 (Fin 0) (Fin 0) (Fin 1); V3 (Fin 1) (Fin 0) (Fin 0)].
Proof.
  unfold ResidualStressInstrument.get_pixel_array, Examples.engine12,
    Examples.store12.
  cbn [PyHB2BReduction._instrument ResidualStressInstrument._pixel_matrix].
  rewrite read_insert_eq. reflexivity.
Qed.

Lemma two_theta_deg_on_axis :
  Spec.two_theta_deg (V3 (Fin 0) (Fin 0) (Fin 1)) = Fin 0.
Proof.
  unfold Spec.two_theta_deg. cbn [c0 c1 c2 F.mul F.add F.sqrt].
  destruct (decide (0 * 0 + 0 * 0 + 1 * 1 < 0)%R); [lra|].
  replace (0 * 0 + 0 * 0 + 1 * 1)%R with 1%R by lra. rewrite sqrt_1.
  cbn [F.div]. destruct (decide (1 = 0)%R); [lra|].
  replace (1 / 1)%R with 1%R by lra.
  cbn [F.arccos]. destruct (decide (-1 <= 1 <= 1)%R); [|lra].
  rewrite acos_1. cbn [F.mul]. unfold F.pi. cbn [F.div].
  destruct (decide (PI = 0)%R) as [E|_]; [by destruct PI_neq0|].
  f_equal. unfold Rdiv. ring.
Qed.

Lemma two_theta_deg_right_angle :
  Spec.two_theta_deg (V3 (Fin 1) (Fin 0) (Fin 0)) = Fin 90.
Proof.
  unfold Spec.two_theta_deg. cbn [c0 c1 c2 F.mul F.add F.sqrt].
  destruct (decide (1 * 1 + 0 * 0 + 0 * 0 < 0)%R); [lra|].
  replace (1 * 1 + 0 * 0 + 0 * 0)%R with 1%R by lra. rewrite sqrt_1.
  cbn [F.div]. destruct (decide (1 = 0)%R); [lra|].
  replace (0 / 1)%R with 0%R by lra.
  cbn [F.arccos]. destruct (decide (-1 <= 0 <= 1)%R); [|lra].
  rewrite acos_0. cbn [F.mul]. unfold F.pi. cbn [F.div].
  destruct (decide (PI = 0)%R) as [E|_]; [by destruct PI_neq0|].
  f_equal. field. apply PI_neq0.
Qed.

Lemma angles12 :
  PyHB2BReduction.two_theta_of
    [V3 (Fin 0) (Fin 0) (Fin 1); V3 (Fin 1) (Fin 0) (Fin 0)]
  = [Fin 0; Fin 90].
Proof.
  rewrite two_theta_of_pixelwise. cbn [map].
  by rewrite !two_theta_dot_finite, two_theta_deg_on_axis, two_theta_deg_right_angle.
Qed.

Lemma amin_amax12 :
  Np.amin [Fin 0; Fin 90] = Fin 0 /\ Np.amax [Fin 0; Fin 90] = Fin 90.
Proof.
  unfold Np.amin, Np.amax. cbn [foldl]. unfold Np.min2, Np.max2.
  cbn [F.isnan orb F.leb]. rewrite bool_decide_eq_true_2 by lra. done.
Qed.

(** the witness of C6: counts 1 and 2 at angles 0 and 90, four bins over
    the range (-10, 100), which covers both angles *)
Lemma reduce_sum_of_counts_witness :
  exists bin_edges hist,
    PyHB2BReduction.reduce_to_2theta_histogram Examples.engine12
      Examples.store12 (counts_vector [1%Z; 2%Z]) None 4
      (Some (Fin (-10), Fin 100)) false
    = Ok (bin_edges, hist) /\
    length hist = 4 /\
    Np.sum hist = F.of_Z (Spec.total [1%Z; 2%Z]).
Proof.
  destruct (reduce_sum_of_counts Examples.engine12 Examples.store12 _
              [1%Z; 2%Z] 4 (-10) 100 false pixel_array12)
    as (bin_edges & hist & Hred & Hlen & _ & Hall).
  - reflexivity.
  - lia.
  - lra.
  - exists bin_edges, hist. split; [exact Hred|]. split; [exact Hlen|].
    apply Hall. rewrite angles12.
    repeat constructor; unfold Spec.in_range; cbn [F.geb F.leb];
      by rewrite !bool_decide_eq_true_2 by lra.
Defined.

(** the witness of C7: four bins over (-10, 100), in both forms *)
Lemma point_data_centers_witness :
  exists edges centers hist e0 e1,
    PyHB2BReduction.reduce_to_2theta_histogram Examples.engine12
      Examples.store12 (counts_vector [1%Z; 2%Z]) None 4
      (Some (Fin (-10), Fin 100)) false
    = Ok (edges, hist) /\
    PyHB2BReduction.reduce_to_2theta_histogram Examples.engine12
      Examples.store12 (counts_vector [1%Z; 2%Z]) None 4
      (Some (Fin (-10), Fin 100)) true
    = Ok (centers, hist) /\
    length hist = 4 /\ length edges = 5 /\ length centers = 4 /\
    edges !! 0 = Some e0 /\ edges !! 1 = Some e1 /\
    forall i, i < 4 ->
      exists e, edges !! i = Some e /\
                centers !! i = Some (e + (e1 - e0) / Fin 2)%fl.
Proof.
  destruct (point_data_centers Examples.engine12 Examples.store12 _
              [1%Z; 2%Z] None 4 (-10) 100 pixel_array12)
    as [(edges & centers & hist & e0 & e1 & H) _].
  - reflexivity.
  - exact I.
  - lia.
  - lra.
  - exists edges, centers, hist, e0, e1. exact H.
Defined.

(** the witness of C8: a counts vector of five entries for two pixels; the
    range (60, 10); no range at all *)
Lemma reduce_preconditions_witness :
  PyHB2BReduction.reduce_to_2theta_histogram Examples.engine12
    Examples.store12 (counts_vector [1%Z; 2%Z; 3%Z; 4%Z; 5%Z]) None 4 None true
  = Raise (RuntimeError "Counts (array) has a different ... blabla") /\
  PyHB2BReduction.reduce_to_2theta_histogram Examples.engine12
    Examples.store12 (counts_vector [1%Z; 2%Z]) None 4
    (Some (Fin 60, Fin 10)) true
  = Raise (RuntimeError "X range {} is not allowed") /\
  PyHB2BReduction.reduce_to_2theta_histogram Examples.engine12
    Examples.store12 (counts_vector [1%Z; 2%Z]) None 4 None true
  = PyHB2BReduction.reduce_to_2theta_histogram Examples.engine12
      Examples.store12 (counts_vector [1%Z; 2%Z]) None 4
      (Some (Fin 0, Fin 90)) true.
Proof.
  destruct (reduce_preconditions Examples.engine12 Examples.store12 _
              pixel_array12) as (H1 & H2 & H3 & _).
  rewrite angles12 in H1, H2, H3.
  destruct amin_amax12 as [Hmin Hmax].
  split; [|split].
  - apply H1. cbn. discriminate.
  - apply H2; [|reflexivity].
    cbn [F.geb F.leb]. by rewrite bool_decide_eq_true_2 by lra.
  - rewrite (H3 (counts_vector [1%Z; 2%Z]) None 4%Z true 0%R 90%R Hmin Hmax)
      by lra.
    by rewrite Hmin, Hmax.
Defined.

(** ** The one-pixel example *)

Lemma pixel_array11 :
  ResidualStressInstrument.get_pixel_array
    (PyHB2BReduction._instrument Examples.engine11) Examples.store11
  = Ok [V3 (Fin 0) (Fin 0) (Fin 1)].
Proof.
  unfold ResidualStressInstrument.get_pixel_array, Examples.engine11,
    Examples.store11.
  cbn [PyHB2BReduction._instrument ResidualStressInstrument._pixel_matrix].
  rewrite read_insert_eq. reflexivity.
Qed.

Lemma angles11 :
  PyHB2BReduction.two_theta_of [V3 (Fin 0) (Fin 0) (Fin 1)] = [Fin 0].
Proof.
  rewrite two_theta_of_pixelwise. cbn [map].
  by rewrite !two_theta_dot_finite, two_theta_deg_on_axis.
Qed.

(** One pixel on the beam axis, five counts, two bins: the least and the
    greatest angle are both 0; with no range the reduction returns, and its
    last edge is 0.5; with the range (min(angles), max(angles)) it raises
    the range error. *)
Lemma default_range_counterexample :
  let angles := PyHB2BReduction.two_theta_of [V3 (Fin 0) (Fin 0) (Fin 1)] in
  let reduce :=
    PyHB2BReduction.reduce_to_2theta_histogram Examples.engine11
      Examples.store11 (counts_vector [5%Z]) None 2 in
  ResidualStressInstrument.get_pixel_array
    (PyHB2BReduction._instrument Examples.engine11) Examples.store11
    = Ok [V3 (Fin 0) (Fin 0) (Fin 1)] /\
  Np.amin angles = Fin 0 /\ Np.amax angles = Fin 0 /\
  (exists edges hist,
     reduce None false = Ok (edges, hist) /\
     last edges = Some (Fin 0 + Fin 0.5)%fl) /\
  reduce (Some (Np.amin angles, Np.amax angles)) false
    = Raise (RuntimeError "X range {} is not allowed") /\
  reduce None false <> reduce (Some (Np.amin angles, Np.amax angles)) false.
Proof.
  intros angles reduce. subst angles reduce. rewrite angles11.
  assert (Hraise :
    PyHB2BReduction.reduce_to_2theta_histogram Examples.engine11
      Examples.store11 (counts_vector [5%Z]) None 2
      (Some (Np.amin [Fin 0], Np.amax [Fin 0])) false
    = Raise (RuntimeError "X range {} is not allowed")).
  { unfold PyHB2BReduction.reduce_to_2theta_histogram.
    rewrite pixel_array11. cbn [mbind result_bind]. rewrite angles11.
    case_decide as E; [by exfalso; apply E|].
    cbn [Np.amin Np.amax foldl F.geb F.leb].
    by rewrite bool_decide_eq_true_2 by lra. }
  assert (Hok : exists edges hist,
    PyHB2BReduction.reduce_to_2theta_histogram Examples.engine11
      Examples.store11 (counts_vector [5%Z]) None 2 None false
    = Ok (edges, hist) /\ last edges = Some (Fin 0 + Fin 0.5)%fl).
  { unfold PyHB2BReduction.reduce_to_2theta_histogram.
    rewrite pixel_array11. cbn [mbind result_bind]. rewrite angles11.
    case_decide as E; [by exfalso; apply E|].
    cbn [mbind result_bind].
    destruct (histogram_ok [Fin 0] 2 None (map F.of_Z [5%Z])
                ((Fin 0 - Fin 0.5)%fl, (Fin 0 + Fin 0.5)%fl))
      as [hist Hhist]; [done|lia| |].
    - unfold Np._get_outer_edges.
      cbn [Np.amin Np.amax foldl F.isfinite andb negb mbind result_bind fst snd
           F.eqb].
      by rewrite bool_decide_eq_true_2 by done.
    - cbn [counts_vector ia_data]. rewrite Hhist.
      cbn [mbind result_bind fst snd]. eexists _, _. split; [reflexivity|].
      unfold Np.linspace. by rewrite last_snoc. }
  split; [exact pixel_array11|].
  split; [reflexivity|]. split; [reflexivity|].
  split; [exact Hok|]. split; [exact Hraise|].
  destruct Hok as (edges & hist & -> & _). by rewrite Hraise.
Qed.

(** ** The owning bin *)

Lemma linspace_lookup (lo hi : R) (n k : nat) :
  0 < n -> k < n ->
  Np.linspace (Fin lo) (Fin hi) n !!! k
  = Fin (INR k * ((hi + - lo) / INR n) + lo).
Proof.
  intros Hn Hk. unfold Np.linspace.
  apply list_lookup_total_correct.
  rewrite lookup_app_l by (rewrite length_map, length_seq; lia).
  rewrite list_lookup_fmap, lookup_seq_lt by lia.
  cbn [fmap option_fmap option_map Nat.add].
  cbn [F.sub F.neg F.add F.of_nat F.div].
  destruct (decide (INR n = 0)%R) as [E|_].
  { exfalso. revert E. apply not_0_INR. lia. }
  reflexivity.
Qed.

(** In exact arithmetic the two corrections never fire: a sample inside
    the range falls in the bin of its truncated scaled offset, the upper
    end of the range in the last bin. *)
Lemma bin_index_owning (n : nat) (lo hi v : R) :
  0 < n -> (lo < hi)%R -> (lo <= v <= hi)%R ->
  Np.bin_index (Np.linspace (Fin lo) (Fin hi) n) n (Fin lo)
    (F.of_nat n / (Fin hi - Fin lo))%fl (Fin v)
  = Nat.min (Z.to_nat (Zfloor ((v + - lo) * (INR n / (hi + - lo))))) (n - 1).
Proof.
  intros Hn Hlt Hv. unfold Np.bin_index.
  cbn [F.sub F.neg F.add F.of_nat F.div].
  destruct (decide (hi + - lo = 0)%R) as [E|_]; [lra|].
  cbn [F.mul F.to_index default].
  set (r := ((v + - lo) * (INR n / (hi + - lo)))%R).
  set (s := ((hi + - lo) / INR n)%R).
  assert (HN : (0 < INR n)%R) by (apply lt_0_INR; lia).
  assert (Hs : (0 < s)%R) by (apply Rdiv_lt_0_compat; lra).
  assert (Hrs : (r * s = v - lo)%R) by (unfold r, s; field; lra).
  assert (Hr0 : (0 <= r)%R).
  { unfold r. apply Rmult_le_pos; [lra|]. apply Rlt_le, Rdiv_lt_0_compat; lra. }
  assert (HrN : (r <= INR n)%R).
  { assert (INR n * s = hi - lo)%R by (unfold s; field; lra). nra. }
  pose proof (Zfloor_bound r) as [Hfl1 Hfl2].
  assert (Hz0 : (0 <= Zfloor r)%Z) by (apply Zfloor_lub; simpl; lra).
  set (i0 := Z.to_nat (Zfloor r)).
  assert (Hi0 : INR i0 = IZR (Zfloor r)).
  { unfold i0. rewrite INR_IZR_INZ, Z2Nat.id by done. done. }
  assert (Hi0n : i0 <= n).
  { apply INR_le. lra. }
  assert (E1 : (if i0 =? n then i0 - 1 else i0) = Nat.min i0 (n - 1)).
  { destruct (i0 =? n) eqn:E; [apply Nat.eqb_eq in E|apply Nat.eqb_neq in E]; lia. }
  change (Datatypes.id i0) with i0.
  rewrite E1. set (i1 := Nat.min i0 (n - 1)).
  assert (Hi1 : i1 < n) by (unfold i1; lia).
  assert (Hi1r : (INR i1 <= r)%R).
  { assert (INR i1 <= INR i0)%R by (apply le_INR; unfold i1; lia). lra. }
  rewrite (linspace_lookup lo hi n i1 Hn Hi1). fold s.
  cbn [F.ltb]. rewrite bool_decide_eq_false_2 by nra.
  destruct (decide (i1 = n - 1)) as [Elast|Hnot].
  - rewrite (proj2 (Nat.eqb_eq _ _) Elast). by rewrite andb_false_r.
  - rewrite (proj2 (Nat.eqb_neq _ _) Hnot). cbn [negb]. rewrite andb_true_r.
    assert (Hi10 : i1 = i0) by (unfold i1; lia).
    rewrite (linspace_lookup lo hi n (i1 + 1) Hn) by lia. fold s.
    cbn [F.geb F.leb]. rewrite bool_decide_eq_false_2; [done|].
    rewrite plus_INR, Hi10. simpl INR. nra.
Qed.

(** Four samples 10, 20, 30, 40 with weights 1, 2, 3, 4 over the range
    (10, 40) in four bins: the edges are 10, 17.5, 25, 32.5, 40 and every
    bin receives one sample, the last one the sample on the upper edge. *)
Lemma histogram_four_bins :
  exists hist edges,
    Np.histogram (map Fin [10; 20; 30; 40]%R) 4 (Some (Fin 10, Fin 40))
      (map Fin [1; 2; 3; 4]%R) = Ok (hist, edges) /\
    edges = map Fin [10; 17.5; 25; 32.5; 40]%R /\
    hist = map Fin [1; 2; 3; 4]%R.
Proof.
  unfold Np.histogram.
  cbn [map length Nat.eqb negb Z.ltb Z.compare Pos.compare Pos.compare_cont].
  rewrite get_outer_edges_explicit by lra.
  cbn [mbind result_bind fst snd zip zip_with List.filter F.geb F.leb].
  rewrite !bool_decide_eq_true_2 by lra.
  cbn [andb map fst snd].
  change (Z.to_nat 4) with 4%nat.
  rewrite !bin_index_owning by (lia || lra).
  assert (E4 : INR 4 = 4%R) by (simpl; lra).
  rewrite E4.
  replace ((10 + - (10)) * (4 / (40 + - (10))))%R with 0%R by field.
  replace ((20 + - (10)) * (4 / (40 + - (10))))%R with (4 / 3)%R by field.
  replace ((30 + - (10)) * (4 / (40 + - (10))))%R with (8 / 3)%R by field.
  replace ((40 + - (10)) * (4 / (40 + - (10))))%R with 4%R by field.
  rewrite (Zfloor_eq 0), (Zfloor_eq 1), (Zfloor_eq 2), (Zfloor_eq 4) by lra.
  change (Z.to_nat 0 `min` (4 - 1)) with 0.
  change (Z.to_nat 1 `min` (4 - 1)) with 1.
  change (Z.to_nat 2 `min` (4 - 1)) with 2.
  change (Z.to_nat 4 `min` (4 - 1)) with 3.
  eexists _, _. split; [reflexivity|]. split.
  - unfold Np.linspace. cbn [seq map app F.sub F.neg F.add F.of_nat F.div].
    rewrite E4. destruct (decide (4 = 0)%R) as [E|_]; [lra|].
    unfold F.of_nat. cbn [F.mul F.add].
    repeat (apply (f_equal2 cons); [f_equal; simpl INR; lra|]). done.
  - unfold Np.bincount.
    cbn [Z.to_nat Pos.to_nat Pos.iter_op Nat.add Nat.min Nat.sub Nat.max map
         foldr replicate zip zip_with foldl fst snd alter list_alter F.add].
    repeat (apply (f_equal2 cons); [f_equal; lra|]). done.
Qed.

(* ===================================================================== *)
(** * Further properties of the code *)
(* ===================================================================== *)

(** ** Before and after [build_instrument] *)

Lemma engine_init (setup : InstrumentSetup) (junk : nat -> nat -> pixel) (h : store) :
  PyHB2BReduction.__init__ setup junk h
  = ({| PyHB2BReduction._instrument :=
          (ResidualStressInstrument.__init__ setup junk h).1 |},
     (ResidualStressInstrument.__init__ setup junk h).2).
Proof.
  unfold PyHB2BReduction.__init__.
  by destruct (ResidualStressInstrument.__init__ setup junk h).
Qed.

(** X1. On an engine that was constructed but whose instrument was never
    built, asking for the pixel positions (as a matrix or as an array) and
    reducing to a histogram both raise RuntimeError 'Instrument has not
    been built yet', whatever the other arguments are. *)
Theorem queries_before_build_raise (setup : InstrumentSetup)
    (junk : nat -> nat -> pixel) (h : store) (counts_array : int_array)
    (mask : option (list float64)) (num_bins : Z)
    (x_range : option (float64 * float64)) (is_point_data is_matrix : bool) :
  let st := PyHB2BReduction.__init__ setup junk h in
  PyHB2BReduction.get_pixel_positions is_matrix st.1 st.2
    = Raise (RuntimeError "Instrument has not been built yet") /\
  PyHB2BReduction.reduce_to_2theta_histogram st.1 st.2 counts_array mask
    num_bins x_range is_point_data
    = Raise (RuntimeError "Instrument has not been built yet").
Proof.
  intros st. subst st. rewrite engine_init. cbn [fst snd].
  destruct (init_spec setup junk h) as (_ & Hpm & _).
  unfold PyHB2BReduction.get_pixel_positions,
    PyHB2BReduction.reduce_to_2theta_histogram,
    ResidualStressInstrument.get_pixel_matrix,
    ResidualStressInstrument.get_pixel_array.
  cbn [PyHB2BReduction._instrument]. rewrite Hpm.
  by destruct is_matrix.
Qed.

Lemma raw_grid_no_origin (setup : InstrumentSetup) :
  detector_rows setup = 0 \/ detector_columns setup = 0 ->
  Nd.at2 0 0 (Spec.raw_grid setup) = None /\
  forall f : pixel -> pixel,
    Nd.reshape_flat
      (Nd.transpose (Nd.columns (map (map f) (Spec.raw_grid setup)))
                    (map (map f) (Spec.raw_grid setup))) = [].
Proof.
  unfold Spec.raw_grid.
  destruct (detector_rows setup) as [|R]; [by intros _|].
  intros [HR|HC]; [done|]. rewrite HC. by cbn.
Qed.

(** X2. On a detector without pixels (no rows or no columns)
    [build_instrument] raises IndexError at its progress message, after
    [_pixel_matrix] was assigned: [get_pixel_array], which raised
    'Instrument has not been built yet' before the call, returns the empty
    array after it. *)
Theorem build_on_empty_detector (setup : InstrumentSetup)
    (junk : nat -> nat -> pixel) (h : store) (two_theta : float64)
    (cal : ResidualStressInstrumentCalibration) :
  detector_rows setup = 0 \/ detector_columns setup = 0 ->
  let st := ResidualStressInstrument.__init__ setup junk h in
  let out := ResidualStressInstrument.build_instrument two_theta cal st.1 st.2 in
  out.1 = Raise (IndexError "index 0 is out of bounds") /\
  ResidualStressInstrument.get_pixel_array st.1 st.2
    = Raise (RuntimeError "Instrument has not been built yet") /\
  ResidualStressInstrument.get_pixel_array out.2.1 out.2.2 = Ok [].
Proof.
  intros Hempty st out.
  destruct (init_spec setup junk h) as (Hraw & Hpm & _). fold st in Hraw, Hpm.
  destruct (raw_grid_no_origin setup Hempty) as [H00 Hflat].
  split; [|split].
  - destruct (build_instrument_empty two_theta cal st.1 st.2 _ Hraw H00)
      as (l & h' & E & _). subst out. by rewrite E.
  - unfold ResidualStressInstrument.get_pixel_array. by rewrite Hpm.
  - subst out. unfold ResidualStressInstrument.build_instrument, Store.alloc.
    rewrite (lookup_total_correct _ _ _ Hraw
              : Store.read (ResidualStressInstrument._raw_pixel_matrix st.1) st.2 = _).
    rewrite !update_insert, read_insert_eq, shifted_copy_eq.
    rewrite (at2_map_None _ _ 0 0 H00). cbn [fst snd].
    unfold ResidualStressInstrument.get_pixel_array.
    cbn [ResidualStressInstrument._pixel_matrix
         ResidualStressInstrument.with_pixel_matrix].
    rewrite read_insert_eq. by rewrite Hflat.
Qed.

Lemma build_calls_setup
    (calls : list (float64 * ResidualStressInstrumentCalibration))
    (st : ResidualStressInstrument.t * store) (m : grid) :
  st.2 !! ResidualStressInstrument._raw_pixel_matrix st.1 = Some m ->
  let st' := Spec.build_calls calls st in
  ResidualStressInstrument._init_setup st'.1
    = ResidualStressInstrument._init_setup st.1 /\
  st.2 ⊆ st'.2.
Proof.
  revert st. induction calls as [|[t cal] calls IH]; intros [self h] Hraw.
  { cbn [Spec.build_calls foldl fst snd] in *. by split. }
  cbn [fst snd] in Hraw.
  destruct (build_instrument_frame t cal self h m Hraw) as (l & h' & E & Hl & Hsub).
  unfold Spec.build_calls. cbn [foldl fst snd]. rewrite E.
  specialize (IH (ResidualStressInstrument.with_pixel_matrix l self, h')).
  unfold Spec.build_calls in IH. cbn [fst snd] in IH.
  cbn [ResidualStressInstrument._raw_pixel_matrix
       ResidualStressInstrument._init_setup
       ResidualStressInstrument.with_pixel_matrix] in IH.
  destruct IH as [IH1 IH2]; [by apply (lookup_weaken h)|].
  split; [done|]. by etrans.
Qed.

(** X3. [build_instrument] can be called again and again: after any
    sequence of earlier calls the pose it builds is the one it builds on a
    new instrument, and the array that held the previous pose is left as it
    was, [_pixel_matrix] referring to another array. *)
Theorem rebuild_depends_on_last_call (setup : InstrumentSetup)
    (junk : nat -> nat -> pixel) (h0 : store)
    (calls : list (float64 * ResidualStressInstrumentCalibration))
    (t : float64) (cal : ResidualStressInstrumentCalibration) :
  0 < detector_rows setup -> 0 < detector_columns setup ->
  let st0 := ResidualStressInstrument.__init__ setup junk h0 in
  let st := Spec.build_calls calls st0 in
  let out := ResidualStressInstrument.build_instrument t cal st.1 st.2 in
  let out0 := ResidualStressInstrument.build_instrument t cal st0.1 st0.2 in
  (exists pose,
     ResidualStressInstrument.get_pixel_matrix out.2.1 out.2.2 = Ok pose /\
     ResidualStressInstrument.get_pixel_matrix out0.2.1 out0.2.2 = Ok pose) /\
  (forall pm g,
     ResidualStressInstrument._pixel_matrix st.1 = Some pm ->
     st.2 !! pm = Some g ->
     out.2.2 !! pm = Some g /\
     ResidualStressInstrument._pixel_matrix out.2.1 <> Some pm).
Proof.
  intros HR HC st0 st out out0.
  destruct (init_spec setup junk h0) as (Hraw0 & Hpm0 & Hsetup0).
  fold st0 in Hraw0, Hpm0, Hsetup0.
  assert (H00 : is_Some (Nd.at2 0 0 (Spec.raw_grid setup))).
  { rewrite raw_grid_at2 by done. by eexists. }
  destruct (build_calls_frame calls st0 _ Hraw0) as (_ & Hraw & _).
  { by rewrite Hpm0. }
  destruct (build_calls_setup calls st0 _ Hraw0) as (Hsetup & _).
  fold st in Hraw, Hsetup.
  destruct (build_instrument_spec t cal st.1 st.2 _ Hraw H00)
    as (l & h' & E & Hl & Hfresh & Hsub).
  destruct (build_instrument_spec t cal st0.1 st0.2 _ Hraw0 H00)
    as (l0 & h0' & E0 & Hl0 & _ & _).
  subst out out0. rewrite E, E0. cbn [fst snd].
  split.
  - eexists. unfold ResidualStressInstrument.get_pixel_matrix.
    cbn [ResidualStressInstrument._pixel_matrix
         ResidualStressInstrument.with_pixel_matrix].
    rewrite (lookup_total_correct _ _ _ Hl : Store.read l h' = _).
    rewrite (lookup_total_correct _ _ _ Hl0 : Store.read l0 h0' = _).
    rewrite Hsetup. done.
  - intros pm g Hpm Hg. split; [by apply (lookup_weaken st.2)|].
    cbn [ResidualStressInstrument._pixel_matrix
         ResidualStressInstrument.with_pixel_matrix].
    intros [= ->]. congruence.
Qed.

(** ** Rotations *)

(** X5. [_rotate_detector] never writes into the array it is given: the
    array it returns is a new one (a reference the store did not hold), the
    array given and every other array of the store are as they were, and
    the new array has the shape of the given one and holds, for every pixel
    p of it, new[i] = sum over j of R[i,j] * p[j]. *)
Theorem rotate_detector_new_array (R : mat3) (det : loc) (h : store) (m : grid) :
  h !! det = Some m ->
  let out := ResidualStressInstrument._rotate_detector det R h in
  h !! out.1 = None /\
  (forall l g, h !! l = Some g -> out.2 !! l = Some g) /\
  exists m',
    out.2 !! out.1 = Some m' /\
    length m' = length m /\
    (forall r c p, Nd.at2 r c m = Some p ->
                   Nd.at2 r c m' = Some (Spec.rotate R p)) /\
    (forall r c, Nd.at2 r c m = None -> Nd.at2 r c m' = None).
Proof.
  intros Hdet out. subst out.
  rewrite (rotate_detector_spec det R h m Hdet). cbn [fst snd].
  split; [apply fresh_lookup|].
  split.
  - intros l g Hl. rewrite lookup_insert_ne; [done|].
    intros <-. by rewrite fresh_lookup in Hl.
  - eexists. split; [apply lookup_insert_eq|].
    split; [by rewrite length_map|].
    split; [intros; by apply at2_map|intros; by apply at2_map_None].
Qed.

(** ** Masks *)

Lemma mask_ones (counts : list Z) (mask : list float64) :
  length mask = length counts -> Forall (fun w => w = Fin 1) mask ->
  zip_with F.mul (map F.of_Z counts) mask = map F.of_Z counts.
Proof.
  revert mask. induction counts as [|c counts IH]; intros [|w mask] Hlen Hall;
    try done.
  inversion Hall as [|? ? -> Hrest]; subst. cbn [map zip_with].
  rewrite IH by (cbn in Hlen; lia || done). f_equal.
  unfold F.of_Z. cbn [F.mul]. f_equal. lra.
Qed.

Lemma mask_zeros (counts : list Z) (mask : list float64) :
  Forall (fun w => w = Fin 0) mask ->
  Forall (fun w => w = Fin 0) (zip_with F.mul (map F.of_Z counts) mask).
Proof.
  revert mask. induction counts as [|c counts IH]; intros [|w mask] Hall;
    try by constructor.
  inversion Hall as [|? ? -> Hrest]; subst. cbn [map zip_with].
  constructor; [|by apply IH]. unfold F.of_Z. cbn [F.mul]. f_equal. lra.
Qed.

Lemma sum_zeros (l : list float64) :
  Forall (fun w => w = Fin 0) l -> Np.sum l = Fin 0.
Proof.
  induction 1 as [|w l -> _ IH]; [done|].
  unfold Np.sum in *. cbn [foldr]. rewrite IH. apply fadd_0_l.
Qed.

Lemma filter_snd_zeros {A} (p : A * float64 -> bool) (a : list A)
    (w : list float64) :
  Forall (fun x => x = Fin 0) w ->
  Forall (fun x => x = Fin 0) (List.filter p (zip a w)).*2.
Proof.
  intros Hw. apply Forall_forall. intros x Hx.
  apply list_elem_of_fmap in Hx as ([y x'] & -> & Hin).
  apply list_elem_of_In, filter_In in Hin as [Hin _].
  apply list_elem_of_In, elem_of_zip_r in Hin.
  by eapply Forall_forall in Hw.
Qed.

(** X9. For a mask of the length of the counts vector: a mask of ones
    gives exactly what no mask gives (the same result or the same
    exception), and with a mask of zeros the intensities of every returned
    histogram sum to zero. *)
Theorem mask_of_ones_and_zeros (self : PyHB2BReduction.t) (h : store)
    (counts : list Z) (mask : list float64) (num_bins : Z)
    (x_range : option (float64 * float64)) (is_point_data : bool) :
  length mask = length counts ->
  let reduce m :=
    PyHB2BReduction.reduce_to_2theta_histogram self h (counts_vector counts) m
      num_bins x_range is_point_data in
  (Forall (fun w => w = Fin 1) mask -> reduce (Some mask) = reduce None) /\
  (Forall (fun w => w = Fin 0) mask ->
   forall bin_edges hist,
     reduce (Some mask) = Ok (bin_edges, hist) -> Np.sum hist = Fin 0).
Proof.
  intros Hlen reduce. subst reduce. cbv beta.
  unfold PyHB2BReduction.reduce_to_2theta_histogram.
  destruct (ResidualStressInstrument.get_pixel_array _ h) as [arr|e];
    [|by split].
  cbn [mbind result_bind].
  case_decide as Hshape; [by split|].
  cbn [counts_vector ia_data ia_shape] in *.
  destruct (match x_range with
            | Some (lo, hi) =>
                if F.geb lo hi
                then Raise (RuntimeError "X range {} is not allowed")
                else Ok tt
            | None => Ok tt
            end) as [[]|e]; [|by split].
  cbn [mbind result_bind].
  unfold PyHB2BReduction.check_numpy_arrays. cbn [ia_shape].
  rewrite decide_True by by rewrite Hlen.
  cbn [mbind result_bind].
  split.
  - intros Hones. by rewrite mask_ones.
  - intros Hzeros bin_edges hist.
    destruct (Np.histogram _ _ _ _) as [[hist' edges']|e] eqn:Hh; [|done].
    cbn [mbind result_bind fst snd]. intros [= _ <-].
    apply histogram_inv in Hh as (lo & hi & _ & _ & _ & _ & _ & _ & Hsum).
    rewrite Hsum. apply sum_zeros, filter_snd_zeros. by apply mask_zeros.
Qed.

(** ** Sub runs, logs and counts of the workspace *)

(** ** Sorting and dictionaries filled by a loop *)

Lemma sorted_Permutation (l : list Z) : Workspace.sorted l ≡ₚ l.
Proof. apply merge_sort_Permutation. Qed.

Lemma sorted_StronglySorted (l : list Z) : StronglySorted Z.le (Workspace.sorted l).
Proof. apply (StronglySorted_merge_sort Z.le). Qed.

Lemma sorted_unique (l k : list Z) :
  StronglySorted Z.le k -> k ≡ₚ l -> Workspace.sorted l = k.
Proof.
  intros Hk Hp. apply (StronglySorted_unique Z.le).
  - apply sorted_StronglySorted.
  - exact Hk.
  - by rewrite sorted_Permutation.
Qed.

Lemma sorted_idem (l : list Z) :
  Workspace.sorted (Workspace.sorted l) = Workspace.sorted l.
Proof. apply sorted_unique; [apply sorted_StronglySorted|done]. Qed.

Lemma sorted_elem_of (s : Z) (l : list Z) : s ∈ Workspace.sorted l <-> s ∈ l.
Proof. by rewrite sorted_Permutation. Qed.

Lemma sorted_NoDup (l : list Z) : NoDup l -> NoDup (Workspace.sorted l).
Proof. by rewrite sorted_Permutation. Qed.

Lemma sorted_length (l : list Z) : length (Workspace.sorted l) = length l.
Proof. by rewrite sorted_Permutation. Qed.

Lemma sorted_nil_inv (l : list Z) : Workspace.sorted l = [] -> l = [].
Proof.
  intros H. apply Permutation_nil_r. rewrite <- H. symmetry. apply sorted_Permutation.
Qed.

(** a dictionary filled by [d[k] = v] for the pairs of a list, in order *)
Lemma foldl_insert_notin `{Countable K} {V} (l : list (K * V)) (m : gmap K V) (k : K) :
  k ∉ l.*1 ->
  foldl (fun m e => <[e.1 := e.2]> m) m l !! k = m !! k.
Proof.
  revert m. induction l as [|[k' v'] l IH]; intros m Hk; [done|].
  cbn [foldl fst snd]. rewrite fmap_cons, not_elem_of_cons in Hk.
  destruct Hk as [Hne Hk]. rewrite IH by done. by rewrite lookup_insert_ne.
Qed.

Lemma foldl_insert_in `{Countable K} {V} (l : list (K * V)) (m : gmap K V)
    (k : K) (v : V) :
  NoDup l.*1 -> (k, v) ∈ l ->
  foldl (fun m e => <[e.1 := e.2]> m) m l !! k = Some v.
Proof.
  revert m. induction l as [|[k' v'] l IH]; intros m Hnd Hin.
  - by apply elem_of_nil in Hin.
  - cbn [foldl fst snd]. rewrite fmap_cons in Hnd. apply NoDup_cons in Hnd as [Hk' Hnd].
    apply elem_of_cons in Hin as [[= <- <-]|Hin].
    + rewrite foldl_insert_notin by done. by rewrite lookup_insert_eq.
    + by apply IH.
Qed.

Lemma foldl_insert_Some `{Countable K} {V} (l : list (K * V)) (m : gmap K V)
    (k : K) (v : V) :
  foldl (fun m e => <[e.1 := e.2]> m) m l !! k = Some v ->
  (k, v) ∈ l \/ m !! k = Some v.
Proof.
  revert m. induction l as [|[k' v'] l IH]; intros m Hl; [by right|].
  cbn [foldl fst snd] in Hl. apply IH in Hl as [Hl|Hl].
  - left. by right.
  - destruct (decide (k' = k)) as [->|Hne].
    + rewrite lookup_insert_eq in Hl. injection Hl as ->. left. by left.
    + rewrite lookup_insert_ne in Hl by done. by right.
Qed.

Lemma foldl_pair {A B E} (f : A -> E -> A) (g : B -> E -> B) (a : A) (b : B)
    (l : list E) :
  foldl (fun ab e => (f ab.1 e, g ab.2 e)) (a, b) l = (foldl f a l, foldl g b l).
Proof. revert a b. induction l as [|e l IH]; intros a b; [done|]. cbn. apply IH. Qed.

Lemma foldl_insert_swap `{Countable K} {V} (l : list (V * K)) (m : gmap K V) :
  foldl (fun m e => <[e.2 := e.1]> m) m l
  = foldl (fun m e => <[e.1 := e.2]> m) m (prod_swap <$> l).
Proof. revert m. induction l as [|[v k] l IH]; intros m; [done|]. cbn. apply IH. Qed.

Lemma swap_zip {A B} (l : list A) (k : list B) :
  prod_swap <$> zip l k = zip k l.
Proof.
  revert k. induction l as [|a l IH]; intros [|b k]; try done.
  cbn. by rewrite IH.
Qed.

Lemma fst_zip_seq {A} (l : list A) : (zip l (seq 0 (length l))).*1 = l.
Proof. apply fst_zip. by rewrite length_seq. Qed.

Lemma fst_zip_seq' {A} (l : list A) : (zip (seq 0 (length l)) l).*1 = seq 0 (length l).
Proof. apply fst_zip. by rewrite length_seq. Qed.

Lemma elem_of_zip_seq {A} (l : list A) (i : nat) (x : A) :
  (x, i) ∈ zip l (seq 0 (length l)) <-> l !! i = Some x.
Proof.
  rewrite list_elem_of_lookup. split.
  - intros [j Hj]. apply lookup_zip_Some in Hj as [Ha Hb].
    apply lookup_seq in Hb as [-> _]. done.
  - intros Hi. exists i. apply lookup_zip_Some.
    split; [done|]. apply lookup_seq. split; [done|].
    by eapply lookup_lt_Some.
Qed.

Lemma elem_of_zip_seq' {A} (l : list A) (i : nat) (x : A) :
  (i, x) ∈ zip (seq 0 (length l)) l <-> l !! i = Some x.
Proof.
  rewrite list_elem_of_lookup. split.
  - intros [j Hj]. apply lookup_zip_Some in Hj as [Hb Ha].
    apply lookup_seq in Hb as [-> _]. done.
  - intros Hi. exists i. apply lookup_zip_Some.
    split; [|done]. apply lookup_seq. split; [done|].
    by eapply lookup_lt_Some.
Qed.

(** the spectrum of a sub run and the sub run of a spectrum, as the loop
    leaves them *)
Lemma subrun_spectrum_maps_2 (l : list Z) (i : nat) :
  (Workspace.subrun_spectrum_maps l).2 !! i = Workspace.sorted l !! i.
Proof.
  unfold Workspace.subrun_spectrum_maps.
  rewrite (foldl_pair (fun a e => <[e.2 := e.1]> a) (fun b e => <[e.1 := e.2]> b)).
  cbn [snd]. set (L := Workspace.sorted l).
  destruct (L !! i) as [x|] eqn:E.
  - apply foldl_insert_in.
    + rewrite fst_zip_seq'. apply NoDup_seq.
    + by apply elem_of_zip_seq'.
  - rewrite foldl_insert_notin; [done|].
    rewrite fst_zip_seq', elem_of_seq. apply lookup_ge_None in E. lia.
Qed.

Lemma subrun_spectrum_maps_1_Some (l : list Z) (s : Z) (i : nat) :
  (Workspace.subrun_spectrum_maps l).1 !! s = Some i ->
  Workspace.sorted l !! i = Some s.
Proof.
  unfold Workspace.subrun_spectrum_maps.
  rewrite (foldl_pair (fun a e => <[e.2 := e.1]> a) (fun b e => <[e.1 := e.2]> b)).
  cbn [fst]. rewrite foldl_insert_swap, swap_zip.
  intros H. apply foldl_insert_Some in H as [H|H]; [|done].
  by apply elem_of_zip_seq.
Qed.

Lemma subrun_spectrum_maps_1_NoDup (l : list Z) (s : Z) (i : nat) :
  NoDup l ->
  Workspace.sorted l !! i = Some s ->
  (Workspace.subrun_spectrum_maps l).1 !! s = Some i.
Proof.
  intros Hnd Hi. unfold Workspace.subrun_spectrum_maps.
  rewrite (foldl_pair (fun a e => <[e.2 := e.1]> a) (fun b e => <[e.1 := e.2]> b)).
  cbn [fst]. rewrite foldl_insert_swap, swap_zip.
  apply foldl_insert_in.
  - rewrite fst_zip_seq. by apply sorted_NoDup.
  - by apply elem_of_zip_seq.
Qed.

Lemma foldl_insert_is_Some `{Countable K} {V} (l : list (K * V)) (m : gmap K V) (k : K) :
  k ∈ l.*1 \/ is_Some (m !! k) ->
  is_Some (foldl (fun m e => <[e.1 := e.2]> m) m l !! k).
Proof.
  revert m. induction l as [|[k' v'] l IH]; intros m Hk.
  - destruct Hk as [Hk|Hk]; [by apply elem_of_nil in Hk|done].
  - cbn [foldl fst snd]. apply IH.
    rewrite fmap_cons, elem_of_cons in Hk. cbn [fst] in Hk.
    destruct (decide (k' = k)) as [->|Hne].
    + right. rewrite lookup_insert_eq. by eexists.
    + rewrite lookup_insert_ne by done. destruct Hk as [[Hk|Hk]|Hk]; [congruence|by left|by right].
Qed.

Lemma subrun_spectrum_maps_1_is_Some (l : list Z) (s : Z) :
  is_Some ((Workspace.subrun_spectrum_maps l).1 !! s) <-> s ∈ l.
Proof.
  split.
  - intros [i Hi]. apply subrun_spectrum_maps_1_Some in Hi.
    apply sorted_elem_of. by eapply list_elem_of_lookup_2.
  - intros Hs. unfold Workspace.subrun_spectrum_maps.
    rewrite (foldl_pair (fun a e => <[e.2 := e.1]> a) (fun b e => <[e.1 := e.2]> b)).
    cbn [fst]. rewrite foldl_insert_swap, swap_zip.
    apply foldl_insert_is_Some. left. rewrite fst_zip_seq. by apply sorted_elem_of.
Qed.

Lemma subrun_spectrum_maps_dom (l : list Z) :
  dom (Workspace.subrun_spectrum_maps l).1 = list_to_set l.
Proof.
  apply set_eq. intros s.
  rewrite elem_of_dom, subrun_spectrum_maps_1_is_Some, elem_of_list_to_set. done.
Qed.

(** what [set_sub_runs] leaves in the two fields *)
Lemma set_sub_runs_maps (sub_runs : list Z) (ws : HidraWorkspace.t) :
  Workspace.set_sub_runs sub_runs ws
  = HidraWorkspace.with_sub_runs
      (Workspace.subrun_spectrum_maps (Workspace.sorted sub_runs)).1
      (Workspace.subrun_spectrum_maps (Workspace.sorted sub_runs)).2 ws.
Proof. reflexivity. Qed.

Lemma subrun_spectrum_maps_size (l : list Z) :
  NoDup l -> size (Workspace.subrun_spectrum_maps l).1 = length l.
Proof.
  intros Hnd. rewrite <- size_dom, subrun_spectrum_maps_dom.
  by apply size_list_to_set.
Qed.

(** the keys of a dictionary in increasing order *)
Lemma sorted_keys {V} (m : gmap Z V) (l : list Z) :
  dom m = list_to_set l ->
  Workspace.sorted (map_to_list m).*1 = Workspace.sorted (remove_dups l).
Proof.
  intros Hdom. apply sorted_unique; [apply sorted_StronglySorted|].
  rewrite sorted_Permutation. apply NoDup_Permutation.
  - apply NoDup_remove_dups.
  - apply NoDup_fst_map_to_list.
  - intros s. rewrite elem_of_remove_dups.
    rewrite <- (elem_of_list_to_set (C := gset Z)), <- Hdom, elem_of_dom.
    rewrite list_elem_of_fmap. split.
    + intros [i Hi]. exists (s, i). split; [done|]. by apply elem_of_map_to_list.
    + intros ([s' i] & -> & Hi). apply elem_of_map_to_list in Hi. by eexists.
Qed.

Lemma get_sub_runs_after_set (sub_runs : list Z) (ws : HidraWorkspace.t) :
  HidraWorkspace.get_sub_runs (Workspace.set_sub_runs sub_runs ws)
  = match sub_runs with
    | [] => Raise (RuntimeError "Sub run - spectrum map has not been built")
    | _ => Ok (Workspace.sorted (remove_dups sub_runs))
    end.
Proof.
  rewrite set_sub_runs_maps. unfold HidraWorkspace.get_sub_runs.
  cbn [HidraWorkspace.with_sub_runs HidraWorkspace._sub_run_to_spectrum].
  set (m := (Workspace.subrun_spectrum_maps (Workspace.sorted sub_runs)).1).
  assert (Hdom : dom m = list_to_set sub_runs).
  { unfold m. rewrite subrun_spectrum_maps_dom.
    apply set_eq. intros s. by rewrite !elem_of_list_to_set, sorted_elem_of. }
  assert (Hlen : length (map_to_list m).*1 = size (dom m)).
  { by rewrite length_fmap, length_map_to_list, size_dom. }
  change (merge_sort Z.le (map_to_list m).*1) with (Workspace.sorted (map_to_list m).*1).
  rewrite (sorted_keys m sub_runs Hdom).
  destruct sub_runs as [|s l].
  - rewrite decide_True; [done|]. rewrite Hlen, Hdom. done.
  - rewrite decide_False; [done|]. rewrite Hlen, Hdom. cbn [list_to_set].
    intros Hz. apply size_empty_inv in Hz.
    assert (Hs : s ∈ (∅ : gset Z)).
    { rewrite <- Hz. apply elem_of_union_l. by apply elem_of_singleton. }
    by apply elem_of_empty in Hs.
Qed.

(** X10. [get_sub_runs] raises AttributeError on a new workspace (the map
    is still None); after [set_sub_runs] with an empty list it raises
    RuntimeError 'Sub run - spectrum map has not been built'; after
    [set_sub_runs] with any other list it returns the sub runs given,
    sorted and without repetition. *)
Theorem get_sub_runs_set_sub_runs (name : string) (sub_runs : list Z)
    (ws : HidraWorkspace.t) :
  HidraWorkspace.get_sub_runs (HidraWorkspace.__init__ name)
    = Raise (AttributeError "NoneType" "keys") /\
  HidraWorkspace.get_sub_runs (Workspace.set_sub_runs sub_runs ws)
    = match sub_runs with
      | [] => Raise (RuntimeError "Sub run - spectrum map has not been built")
      | _ => Ok (Workspace.sorted (remove_dups sub_runs))
      end.
Proof. split; [done|apply get_sub_runs_after_set]. Qed.



(** ** The order of log values *)

#[local] Instance key_le_trans : Transitive key_le.
Proof. intros a b c. unfold key_le. lia. Qed.

#[local] Instance key_le_total : Total key_le.
Proof. intros a b. unfold key_le. lia. Qed.

Lemma StronglySorted_key_fst (l : list (Z * float64)) :
  StronglySorted key_le l -> StronglySorted Z.le l.*1.
Proof.
  induction 1 as [|a l Hl IH Ha]; [constructor|].
  rewrite fmap_cons. constructor; [done|].
  apply Forall_fmap. eapply Forall_impl; [exact Ha|]. by intros b Hb.
Qed.

Lemma result_mapM_lookup (log : gmap Z float64) (sel : list Z) :
  Forall (fun s => is_Some (log !! s)) sel ->
  result_mapM (fun s => match log !! s with
                        | Some v => Ok v
                        | None => Raise (KeyError "sub_run")
                        end) sel
  = Ok ((fun s => log !!! s) <$> sel).
Proof.
  induction 1 as [|s sel [v Hv] _ IH]; [done|].
  cbn [result_mapM]. rewrite Hv, IH. cbn [mbind result_bind fmap list_fmap].
  by rewrite (lookup_total_correct _ _ _ Hv).
Qed.

Lemma snd_as_lookup (log : gmap Z float64) (l : list (Z * float64)) :
  Forall (fun p => log !! p.1 = Some p.2) l ->
  l.*2 = (fun s => log !!! s) <$> l.*1.
Proof.
  induction 1 as [|[s v] l Hp _ IH]; [done|].
  rewrite !fmap_cons, IH. cbn [fst snd] in *.
  by rewrite (lookup_total_correct _ _ _ Hp).
Qed.

Lemma sorted_items (log : gmap Z float64) :
  (merge_sort key_le (map_to_list log)).*1 = Workspace.sorted (map_to_list log).*1 /\
  (merge_sort key_le (map_to_list log)).*2
    = (fun s => log !!! s) <$> Workspace.sorted (map_to_list log).*1.
Proof.
  assert (E : (merge_sort key_le (map_to_list log)).*1
              = Workspace.sorted (map_to_list log).*1).
  { symmetry. apply sorted_unique.
    - apply StronglySorted_key_fst, (StronglySorted_merge_sort key_le).
    - apply fmap_Permutation, merge_sort_Permutation. }
  split; [done|]. rewrite <- E. apply snd_as_lookup.
  apply Forall_forall. intros [s v] Hin.
  rewrite merge_sort_Permutation in Hin. by apply elem_of_map_to_list in Hin.
Qed.

Lemma sample_log_keys (sub_runs : list Z) (values : list float64) :
  length sub_runs = length values ->
  Workspace.sorted
    (map_to_list (foldl (fun log entry => <[entry.1 := entry.2]> log)
                        (∅ : gmap Z float64) (zip sub_runs values))).*1
  = Workspace.sorted (remove_dups sub_runs).
Proof.
  intros Hlen. set (log := foldl _ _ _).
  apply sorted_unique; [apply sorted_StronglySorted|].
  rewrite sorted_Permutation. apply NoDup_Permutation.
  - apply NoDup_remove_dups.
  - apply NoDup_fst_map_to_list.
  - intros s. rewrite elem_of_remove_dups, list_elem_of_fmap. split.
    + intros Hs.
      assert (His : is_Some (log !! s)).
      { apply foldl_insert_is_Some. left. rewrite fst_zip; [done|lia]. }
      destruct His as [v Hv]. exists (s, v). split; [done|].
      by apply elem_of_map_to_list.
    + intros ([s' v] & -> & Hin). apply elem_of_map_to_list in Hin.
      apply foldl_insert_Some in Hin as [Hin|Hin]; [|done].
      by apply elem_of_zip_l in Hin.
Qed.

Lemma sorted_remove_dups_NoDup (l : list Z) :
  NoDup l -> Workspace.sorted (remove_dups l) = Workspace.sorted l.
Proof.
  intros Hnd. apply sorted_unique; [apply sorted_StronglySorted|].
  rewrite sorted_Permutation. apply NoDup_Permutation; [done|apply NoDup_remove_dups|].
  intros s. by rewrite elem_of_remove_dups.
Qed.

Section WorkspaceProperties.

Variable check_int_variable :
  string -> Z -> option Z * option Z -> result unit.
Variable check_string_variable : string -> string -> result unit.
Variable check_string_variable_in :
  string -> string -> list string -> result unit.
Variable check_numpy_arrays :
  string -> list (list nat) -> option nat -> bool -> result unit.
Variable TWO_THETA : string.
Variable L2 : string.
Variable SUB_RUNS : string.
Variable junk : nat -> nat -> float64.

(** X11. After [set_sub_runs] on a list without repetition, every sub run
    s of the list that the argument check accepts has a spectrum index i
    below the number of sub runs, which is its position in the sorted list;
    [get_sub_runs_from_spectrum] maps i back to s, and no other sub run has
    that index. *)
Theorem spectrum_index_round_trip (sub_runs : list Z) (ws : HidraWorkspace.t)
    (s : Z) :
  NoDup sub_runs -> s ∈ sub_runs ->
  check_int_variable "Sub run number" s (Some 0%Z, None) = Ok tt ->
  let ws' := Workspace.set_sub_runs sub_runs ws in
  exists i,
    Workspace.get_spectrum_index check_int_variable s ws' = Ok i /\
    i < length sub_runs /\
    Workspace.sorted sub_runs !! i = Some s /\
    Workspace.get_sub_runs_from_spectrum [Z.of_nat i] ws' = Ok [s] /\
    (forall s', Workspace.get_spectrum_index check_int_variable s' ws' = Ok i ->
                s' = s).
Proof.
  intros Hnd Hs Hcheck ws'.
  apply sorted_elem_of, list_elem_of_lookup in Hs as [i Hi].
  assert (Hsi : (Workspace.subrun_spectrum_maps (Workspace.sorted sub_runs)).1 !! s
                = Some i).
  { apply subrun_spectrum_maps_1_NoDup; [by apply sorted_NoDup|].
    by rewrite sorted_idem. }
  exists i. split; [|split; [|split; [|split]]].
  - unfold Workspace.get_spectrum_index. rewrite Hcheck. cbn [mbind result_bind].
    subst ws'. rewrite set_sub_runs_maps.
    cbn [HidraWorkspace.with_sub_runs HidraWorkspace._sub_run_to_spectrum].
    by rewrite Hsi.
  - rewrite <- sorted_length. by eapply lookup_lt_Some.
  - exact Hi.
  - unfold Workspace.get_sub_runs_from_spectrum. cbn [result_mapM].
    subst ws'. rewrite set_sub_runs_maps.
    cbn [HidraWorkspace.with_sub_runs HidraWorkspace._spectrum_to_sub_run].
    destruct (Z.ltb_spec (Z.of_nat i) 0) as [Hneg|_]; [lia|].
    rewrite Nat2Z.id, subrun_spectrum_maps_2, sorted_idem, Hi. done.
  - intros s'. unfold Workspace.get_spectrum_index.
    destruct (check_int_variable _ s' _) as [[]|e]; [|done].
    cbn [mbind result_bind].
    subst ws'. rewrite set_sub_runs_maps.
    cbn [HidraWorkspace.with_sub_runs HidraWorkspace._sub_run_to_spectrum].
    destruct (_ !! s') as [i'|] eqn:E; [|done].
    intros [= ->]. apply subrun_spectrum_maps_1_Some in E.
    rewrite sorted_idem in E. congruence.
Qed.

(** X12. After a [set_raw_counts] that returned, [get_detector_counts]
    of that sub run returns the counts that were set, [has_raw_data] is
    True for it whenever its own argument check passes, and for every
    other sub run both answer as before. *)
Theorem raw_counts_round_trip (n : Z) (counts : int_array)
    (ws ws' : HidraWorkspace.t) :
  Workspace.set_raw_counts check_int_variable check_numpy_arrays n counts ws
    = (Ok tt, ws') ->
  HidraWorkspace.get_detector_counts check_int_variable n ws' = Ok counts /\
  Workspace.has_raw_data check_int_variable n ws'
    = (_ ← check_int_variable "Sub run" n (Some 1%Z, None); Ok true) /\
  (forall m, m <> n ->
     HidraWorkspace.get_detector_counts check_int_variable m ws'
       = HidraWorkspace.get_detector_counts check_int_variable m ws /\
     Workspace.has_raw_data check_int_variable m ws'
       = Workspace.has_raw_data check_int_variable m ws).
Proof.
  unfold Workspace.set_raw_counts.
  destruct (check_int_variable "Sub run number" n _) as [[]|e] eqn:Hc; [|done].
  destruct (check_numpy_arrays _ _ _ _) as [[]|e]; [|done].
  intros [= <-].
  unfold HidraWorkspace.get_detector_counts, Workspace.has_raw_data.
  cbn [Workspace.with_raw_counts HidraWorkspace._raw_counts].
  split; [|split].
  - rewrite Hc. cbn [mbind result_bind]. by rewrite lookup_insert_eq.
  - rewrite lookup_insert_eq. rewrite bool_decide_eq_true_2 by by eexists. done.
  - intros m Hm. by rewrite !lookup_insert_ne.
Qed.


(** what a successful [set_sample_log] leaves *)
Lemma set_sample_log_inv (name : string) (sub_runs : list Z)
    (values : list float64) (ws ws' : HidraWorkspace.t) :
  Workspace.set_sample_log check_string_variable check_numpy_arrays name
    sub_runs values ws = (Ok tt, ws') ->
  HidraWorkspace._sample_log_dict ws'
  = <[name := foldl (fun log entry => <[entry.1 := entry.2]> log) ∅
                    (zip sub_runs values)]> (HidraWorkspace._sample_log_dict ws).
Proof.
  unfold Workspace.set_sample_log.
  destruct (check_string_variable _ _) as [[]|e]; [|done].
  destruct (check_numpy_arrays _ _ _ _) as [[]|e]; [|done].
  by intros [= <-].
Qed.

Lemma sample_log_lookup (sub_runs : list Z) (values : list float64)
    (i : nat) (s : Z) (v : float64) :
  NoDup sub_runs -> sub_runs !! i = Some s -> values !! i = Some v ->
  foldl (fun log entry => <[entry.1 := entry.2]> log) (∅ : gmap Z float64)
        (zip sub_runs values) !! s = Some v.
Proof.
  intros Hnd Hs Hv. apply foldl_insert_in.
  - eapply NoDup_fmap_fst; [|].
    + intros k v1 v2 H1 H2.
      apply list_elem_of_lookup in H1 as [j1 H1], H2 as [j2 H2].
      apply lookup_zip_Some in H1 as [H1 H1'], H2 as [H2 H2'].
      assert (j1 = j2) by by eapply NoDup_lookup. congruence.
    + apply NoDup_zip_with_l_strong; [|done]. intros. congruence.
  - apply list_elem_of_lookup. exists i. by apply lookup_zip_Some.
Qed.

Lemma sample_log_lookup_None (sub_runs : list Z) (values : list float64) (s : Z) :
  s ∉ sub_runs ->
  foldl (fun log entry => <[entry.1 := entry.2]> log) (∅ : gmap Z float64)
        (zip sub_runs values) !! s = None.
Proof.
  intros Hs. rewrite foldl_insert_notin; [done|].
  intros Hin. apply Hs. apply list_elem_of_fmap in Hin as ([s' v] & -> & Hin).
  by apply elem_of_zip_l in Hin.
Qed.

(** X13. After a [set_sample_log] of the 2theta log that returned, for
    sub runs without repetition: [get_2theta] of the i-th sub run is the
    i-th value whenever its argument check passes; for a sub run that is
    not in the list it raises RuntimeError, whatever the log held before
    (the log is replaced, not merged); [has_sample_log] is True; the other
    logs are as before. *)
Theorem sample_log_two_theta_round_trip (sub_runs : list Z)
    (values : list float64) (ws ws' : HidraWorkspace.t) :
  NoDup sub_runs ->
  Workspace.set_sample_log check_string_variable check_numpy_arrays TWO_THETA
    sub_runs values ws = (Ok tt, ws') ->
  (forall i s v, sub_runs !! i = Some s -> values !! i = Some v ->
     HidraWorkspace.get_2theta check_int_variable TWO_THETA s ws'
     = (_ ← check_int_variable "Sub run number" s (Some 0%Z, None); Ok v)) /\
  (forall s, s ∉ sub_runs ->
     HidraWorkspace.get_2theta check_int_variable TWO_THETA s ws'
     = (_ ← check_int_variable "Sub run number" s (Some 0%Z, None);
        Raise (RuntimeError
                 "Unable to retrieve 2theta value ({}) from sub run {} due to missing key {}."))) /\
  Workspace.has_sample_log check_string_variable TWO_THETA ws'
    = (_ ← check_string_variable "Sample log name" TWO_THETA; Ok true) /\
  (forall name, name <> TWO_THETA ->
     HidraWorkspace._sample_log_dict ws' !! name
     = HidraWorkspace._sample_log_dict ws !! name).
Proof.
  intros Hnd Hset. apply set_sample_log_inv in Hset.
  split; [|split; [|split]].
  - intros i s v Hs Hv. unfold HidraWorkspace.get_2theta.
    rewrite Hset, lookup_insert_eq. cbn [mbind option_bind].
    by rewrite (sample_log_lookup sub_runs values i s v).
  - intros s Hs. unfold HidraWorkspace.get_2theta.
    rewrite Hset, lookup_insert_eq. cbn [mbind option_bind].
    by rewrite sample_log_lookup_None.
  - unfold Workspace.has_sample_log. rewrite Hset, lookup_insert_eq.
    by rewrite bool_decide_eq_true_2 by by eexists.
  - intros name Hne. by rewrite Hset, lookup_insert_ne.
Qed.

(** X14. [get_l2] returns None on a workspace without an L2 log, for every
    sub run its argument check accepts; after a [set_sample_log] of the L2
    log it returns the value of the sub run, and raises RuntimeError for a
    sub run the log does not have. *)
Theorem get_l2_default_and_round_trip (name : string) (sub_runs : list Z)
    (values : list float64) (ws ws' : HidraWorkspace.t) :
  NoDup sub_runs ->
  Workspace.set_sample_log check_string_variable check_numpy_arrays L2
    sub_runs values ws = (Ok tt, ws') ->
  (forall s, Workspace.get_l2 check_int_variable L2 s (HidraWorkspace.__init__ name)
     = (_ ← check_int_variable "Sub run number" s (Some 0%Z, None); Ok None)) /\
  (forall i s v, sub_runs !! i = Some s -> values !! i = Some v ->
     Workspace.get_l2 check_int_variable L2 s ws'
     = (_ ← check_int_variable "Sub run number" s (Some 0%Z, None); Ok (Some v))) /\
  (forall s, s ∉ sub_runs ->
     Workspace.get_l2 check_int_variable L2 s ws'
     = (_ ← check_int_variable "Sub run number" s (Some 0%Z, None);
        Raise (RuntimeError
                 "Unable to retrieve L2 value for {} due to {}. Available sun runs are {}"))).
Proof.
  intros Hnd Hset. apply set_sample_log_inv in Hset.
  split; [|split].
  - intros s. unfold Workspace.get_l2. cbn [HidraWorkspace.__init__
      HidraWorkspace._sample_log_dict]. by rewrite lookup_empty.
  - intros i s v Hs Hv. unfold Workspace.get_l2.
    rewrite Hset, lookup_insert_eq.
    by rewrite (sample_log_lookup sub_runs values i s v).
  - intros s Hs. unfold Workspace.get_l2.
    rewrite Hset, lookup_insert_eq. by rewrite sample_log_lookup_None.
Qed.


(** X15. After a [set_sample_log] that returned, for a non-empty list of
    sub runs without repetition and as many values:
    [get_sample_log_values] with the same sub runs returns the values as
    they were given; with any non-empty selection of them it returns the
    values of the selected sub runs in the order of the selection; with no
    sub runs it returns what it returns for the sorted sub runs where [zip]
    gives a list (Python 2), and raises AttributeError at
    [tuple_list.sort()] where [zip] gives an iterator (Python 3). *)
Theorem sample_log_values_order (zip_returns_list : bool) (name : string)
    (sub_runs : list Z) (values : list float64) (ws ws' : HidraWorkspace.t) :
  NoDup sub_runs -> length sub_runs = length values -> sub_runs <> [] ->
  Workspace.set_sample_log check_string_variable check_numpy_arrays name
    sub_runs values ws = (Ok tt, ws') ->
  let get := Workspace.get_sample_log_values check_string_variable_in SUB_RUNS
               zip_returns_list name in
  let checked (r : result log_values) :=
    _ ← check_string_variable_in "Sample log name" name
          (Workspace.sample_log_names ws');
    r in
  get (Some sub_runs) ws' = checked (Ok (LogArray values)) /\
  get None ws'
    = (if zip_returns_list then get (Some (Workspace.sorted sub_runs)) ws'
       else checked (Raise (AttributeError "zip" "sort"))) /\
  (forall sel, sel <> [] -> Forall (fun s => s ∈ sub_runs) sel ->
     exists vs, get (Some sel) ws' = checked (Ok (LogArray vs)) /\
       Forall2 (fun s v => exists i, sub_runs !! i = Some s /\ values !! i = Some v)
               sel vs).
Proof.
  intros Hnd Hlen Hne Hset get checked. apply set_sample_log_inv in Hset.
  set (log := foldl (fun log entry => <[entry.1 := entry.2]> log)
                    (∅ : gmap Z float64) (zip sub_runs values)) in *.
  assert (Hlog : forall s, s ∈ sub_runs ->
            exists i v, sub_runs !! i = Some s /\ values !! i = Some v /\
                        log !! s = Some v).
  { intros s Hs. apply list_elem_of_lookup in Hs as [i Hi].
    destruct (lookup_lt_is_Some_2 values i) as [v Hv].
    { rewrite <- Hlen. by eapply lookup_lt_Some. }
    exists i, v. split; [done|]. split; [done|]. by eapply sample_log_lookup. }
  assert (Hsel : forall sel, sel <> [] -> Forall (fun s => s ∈ sub_runs) sel ->
            get (Some sel) ws'
            = checked (Ok (LogArray ((fun s => log !!! s) <$> sel)))).
  { intros sel Hsel Hall. subst get checked.
    unfold Workspace.get_sample_log_values, Workspace.sample_log_names.
    rewrite Hset, lookup_insert_eq.
    rewrite decide_False by (by intros [_ ?]).
    destruct (check_string_variable_in _ _ _) as [[]|e]; [|done].
    cbn [mbind result_bind].
    destruct sel as [|s0 sel]; [done|].
    inversion Hall as [|? ? Hs0 Hrest]; subst.
    destruct (Hlog s0 Hs0) as (i0 & v0 & _ & _ & Hv0). rewrite Hv0.
    cbn [mbind result_bind].
    rewrite result_mapM_lookup; [done|].
    eapply Forall_impl; [exact Hall|]. intros s Hs.
    destruct (Hlog s Hs) as (i & v & _ & _ & Hv). by eexists. }
  split; [|split].
  - rewrite Hsel; [|done|by apply Forall_forall].
    assert (E : (fun s => log !!! s) <$> sub_runs = values); [|by rewrite E].
    apply list_eq. intros i. rewrite list_lookup_fmap.
    destruct (sub_runs !! i) as [s|] eqn:Es.
    + destruct (lookup_lt_is_Some_2 values i) as [v Hv].
      { rewrite <- Hlen. by eapply lookup_lt_Some. }
      cbn. rewrite Hv. f_equal. apply lookup_total_correct.
      by eapply sample_log_lookup.
    + change (None = values !! i). symmetry. apply lookup_ge_None_2.
      rewrite <- Hlen. by apply lookup_ge_None_1.
  - destruct zip_returns_list; [|
      subst get checked;
      unfold Workspace.get_sample_log_values, Workspace.sample_log_names;
      rewrite Hset, lookup_insert_eq;
      rewrite decide_False by (by intros [_ ?]);
      by destruct (check_string_variable_in _ _ _) as [[]|e] ].
    rewrite Hsel.
    + subst get checked.
      unfold Workspace.get_sample_log_values, Workspace.sample_log_names.
      rewrite Hset, lookup_insert_eq.
      rewrite decide_False by (by intros [_ ?]).
      match goal with
      | |- context [check_string_variable_in ?a ?b ?c] =>
          destruct (check_string_variable_in a b c) as [[]|e]; [|done]
      end.
      cbn [mbind result_bind].
      destruct (sorted_items log) as [E1 E2].
      assert (Ekeys : Workspace.sorted (map_to_list log).*1 = Workspace.sorted sub_runs).
      { unfold log. rewrite sample_log_keys by done.
        by apply sorted_remove_dups_NoDup. }
      destruct (merge_sort key_le (map_to_list log)) as [|p l] eqn:El.
      * exfalso. rewrite Ekeys in E1. symmetry in E1.
        apply fmap_nil_inv in E1 || idtac.
        apply sorted_nil_inv in E1. done.
      * rewrite E2, Ekeys. done.
    + intros E. by apply sorted_nil_inv in E.
    + apply Forall_forall. intros s Hs. by apply sorted_elem_of.
  - intros sel Hsel' Hall. eexists. split; [by apply Hsel|].
    apply Forall2_fmap_r, Forall_Forall2_diag.
    eapply Forall_impl; [exact Hall|]. intros s Hs.
    destruct (Hlog s Hs) as (i & v & Hi & Hv & Hl). exists i. split; [done|].
    by rewrite (lookup_total_correct _ _ _ Hl).
Qed.

End WorkspaceProperties.

(** ** Reduced data in the workspace *)

(** ** From the reducer to the workspace *)

Lemma point_data_lengths (self : PyHB2BReduction.t) (h : store)
    (counts_array : int_array) (mask : option (list float64)) (num_bins : Z)
    (x_range : option (float64 * float64)) (centers hist : list float64) :
  PyHB2BReduction.reduce_to_2theta_histogram self h counts_array mask num_bins
    x_range true = Ok (centers, hist) ->
  length centers = length hist.
Proof.
  rewrite reduce_point_data.
  destruct (PyHB2BReduction.reduce_to_2theta_histogram self h counts_array mask
              num_bins x_range false) as [[edges hist']|e] eqn:E; [|done].
  cbn [fmap result_fmap fst snd]. intros [= <- <-].
  apply reduce_edges_inv in E as (arr & w & _ & _ & Hh).
  apply histogram_inv in Hh as (lo & hi & _ & _ & _ & _ & -> & Hlen & _).
  rewrite removelast_take, length_take, length_map, linspace_length. lia.
Qed.


Section ReducedData.

Variable check_int_variable :
  string -> Z -> option Z * option Z -> result unit.
Variable check_string_variable : string -> string -> result unit.
Variable junk : nat -> nat -> float64.

Lemma set_reduced_ok_inv (sub_run : Z) (mask_id : option string)
    (tth int : list float64) (ws ws' : HidraWorkspace.t) :
  HidraWorkspace.set_reduced_diffraction_data check_int_variable
    check_string_variable junk sub_run mask_id tth int ws = (Ok tt, ws') ->
  exists s2s spec_id n c rows n' c' rows',
    check_int_variable "Sub run number" sub_run (Some 1%Z, None) = Ok tt /\
    match mask_id with
    | Some m => check_string_variable "Mask ID" m
    | None => Ok tt
    end = Ok tt /\
    length tth = length int /\
    HidraWorkspace._sub_run_to_spectrum ws = Some s2s /\
    s2s !! sub_run = Some spec_id /\
    match HidraWorkspace._2theta_matrix ws with
    | Some (Arr2 a b r) => Arr2 a b r
    | _ => HidraWorkspace.ndarray (size s2s) (length tth) junk
    end = Arr2 n c rows /\
    spec_id < n /\ c = length tth /\
    match HidraWorkspace._diff_data_set ws !! mask_id with
    | Some a => a
    | None => HidraWorkspace.ndarray (size s2s) (length int) junk
    end = Arr2 n' c' rows' /\
    spec_id < n' /\ c' = length int /\
    HidraWorkspace._2theta_matrix ws' = Some (Arr2 n c (<[spec_id := tth]> rows)) /\
    HidraWorkspace._diff_data_set ws'
      = <[mask_id := Arr2 n' c' (<[spec_id := int]> rows')]>
          (HidraWorkspace._diff_data_set ws) /\
    HidraWorkspace._sub_run_to_spectrum ws' = Some s2s /\
    HidraWorkspace._spectrum_to_sub_run ws' = HidraWorkspace._spectrum_to_sub_run ws /\
    HidraWorkspace._raw_counts ws' = HidraWorkspace._raw_counts ws /\
    HidraWorkspace._sample_log_dict ws' = HidraWorkspace._sample_log_dict ws.
Proof.
  unfold HidraWorkspace.set_reduced_diffraction_data.
  destruct (HidraWorkspace._sub_run_to_spectrum ws) as [s2s|] eqn:Es2s; [|done].
  destruct (check_int_variable _ _ _) as [[]|e] eqn:Hci; [|done].
  destruct (match mask_id with
            | Some m => check_string_variable "Mask ID" m
            | None => Ok tt
            end) as [[]|e] eqn:Hcs; [|done].
  destruct (decide ([length tth] ≠ [length int])) as [|Hlen]; [done|].
  apply dec_stable in Hlen. injection Hlen as Hlen.
  destruct (HidraWorkspace._2theta_matrix ws) as [[v|a b r]|] eqn:ET;
    destruct (HidraWorkspace._diff_data_set ws !! mask_id) as [d|] eqn:ED;
    cbn [HidraWorkspace._2theta_matrix HidraWorkspace._diff_data_set
         HidraWorkspace.with_2theta_matrix HidraWorkspace.with_diff_data_set
         default].
  all: rewrite ?ET, ?ED, ?lookup_insert_eq.
  all: cbn [HidraWorkspace._2theta_matrix HidraWorkspace._diff_data_set
         HidraWorkspace.with_2theta_matrix HidraWorkspace.with_diff_data_set
         default].
  all: rewrite ?ET, ?ED, ?lookup_insert_eq.
  all: unfold HidraWorkspace.ndarray.
  all: cbn [default from_option Datatypes.id HidraWorkspace.shape1
            HidraWorkspace.set_row].
  all: destruct (s2s !! sub_run) as [spec_id|] eqn:Esp; [|done].
  all: try (destruct d as [vd|n' c' rows'];
            cbn [default HidraWorkspace.shape1 HidraWorkspace.set_row]; [done|]).
  all: match goal with
       | |- context [negb (?a =? ?b) || negb (?c =? ?d)] =>
           destruct (negb (a =? b) || negb (c =? d)) eqn:Hsz; [done|]
       end.
  all: apply orb_false_elim in Hsz as [Hsz1 Hsz2].
  all: apply negb_false_iff, Nat.eqb_eq in Hsz1, Hsz2.
  all: repeat case_decide; try done.
  all: intros [= <-].
  all: cbn [HidraWorkspace._2theta_matrix HidraWorkspace._diff_data_set
         HidraWorkspace.with_2theta_matrix HidraWorkspace.with_diff_data_set
         HidraWorkspace._sub_run_to_spectrum HidraWorkspace._spectrum_to_sub_run
         HidraWorkspace._raw_counts HidraWorkspace._sample_log_dict].
  all: rewrite ?insert_insert_eq.
  all: eexists _, _, _, _, _, _, _, _.
  all: repeat (split; [first [reflexivity | eassumption | done]|]); try done.
Qed.


Lemma ndarray_rows (n c : nat) (n0 c0 : nat) (rows : list (list float64)) :
  HidraWorkspace.ndarray n c junk = Arr2 n0 c0 rows -> length rows = n0.
Proof.
  unfold HidraWorkspace.ndarray. intros [= <- <- <-].
  by rewrite length_map, length_seq.
Qed.

Lemma base_2theta_rows (ws : HidraWorkspace.t) (k l n c : nat)
    (rows : list (list float64)) :
  Workspace.wf ws ->
  match HidraWorkspace._2theta_matrix ws with
  | Some (Arr2 a b r) => Arr2 a b r
  | _ => HidraWorkspace.ndarray k l junk
  end = Arr2 n c rows ->
  length rows = n.
Proof.
  intros [Hwf _] H.
  destruct (HidraWorkspace._2theta_matrix ws) as [[v|a b r]|] eqn:E.
  - by eapply ndarray_rows.
  - injection H as -> -> ->. exact (Hwf _ eq_refl).
  - by eapply ndarray_rows.
Qed.

Lemma base_intensity_rows (ws : HidraWorkspace.t) (mask_id : option string)
    (k l n c : nat) (rows : list (list float64)) :
  Workspace.wf ws ->
  match HidraWorkspace._diff_data_set ws !! mask_id with
  | Some a => a
  | None => HidraWorkspace.ndarray k l junk
  end = Arr2 n c rows ->
  length rows = n.
Proof.
  intros [_ Hwf] H.
  destruct (HidraWorkspace._diff_data_set ws !! mask_id) as [a|] eqn:E.
  - subst a. exact (Hwf _ _ E).
  - by eapply ndarray_rows.
Qed.

(** storing keeps the arrays well formed *)
Lemma set_reduced_wf (sub_run : Z) (mask_id : option string)
    (tth int : list float64) (ws ws' : HidraWorkspace.t) :
  Workspace.wf ws ->
  HidraWorkspace.set_reduced_diffraction_data check_int_variable
    check_string_variable junk sub_run mask_id tth int ws = (Ok tt, ws') ->
  Workspace.wf ws'.
Proof.
  intros Hwf Hset.
  destruct (set_reduced_ok_inv _ _ _ _ _ _ Hset)
    as (s2s & i & n & c & rows & n' & c' & rows' & _ & _ & _ & _ & _ & HT & _ & _
        & HD & _ & _ & ET & ED & _).
  apply (base_2theta_rows ws) in HT; [|done].
  apply (base_intensity_rows ws) in HD; [|done].
  split.
  - intros a. rewrite ET. intros [= <-]. cbn. by rewrite length_insert.
  - intros k a. rewrite ED. destruct (decide (k = mask_id)) as [->|Hne].
    + rewrite lookup_insert_eq. intros [= <-]. cbn. by rewrite length_insert.
    + rewrite lookup_insert_ne by done. apply Hwf.
Qed.

(** what was stored for a sub run under a mask is what is read back *)
Lemma set_reduced_get (sub_run : Z) (mask_id : option string)
    (tth int : list float64) (ws ws' : HidraWorkspace.t) :
  Workspace.wf ws ->
  HidraWorkspace.set_reduced_diffraction_data check_int_variable
    check_string_variable junk sub_run mask_id tth int ws = (Ok tt, ws') ->
  Workspace.get_reduced_diffraction_data check_int_variable check_string_variable
    sub_run mask_id ws' = Ok (tth, Item1 int).
Proof.
  intros Hwf Hset.
  destruct (set_reduced_ok_inv _ _ _ _ _ _ Hset)
    as (s2s & i & n & c & rows & n' & c' & rows' & Hci & Hcs & _ & _ & Hi & HT & Hin
        & _ & HD & Hin' & _ & ET & ED & Es2s & _).
  apply (base_2theta_rows ws) in HT; [|done].
  apply (base_intensity_rows ws) in HD; [|done].
  unfold Workspace.get_reduced_diffraction_data.
  rewrite Hci, Hcs, Es2s, ET, ED. cbn [mbind result_bind]. rewrite Hi.
  cbn [mbind result_bind Workspace.getitem].
  rewrite list_lookup_insert_eq by lia. cbn [mbind result_bind].
  rewrite lookup_insert_eq. cbn [Workspace.getitem].
  rewrite list_lookup_insert_eq by lia. done.
Qed.

(** X16. On a workspace whose stored arrays are well formed (as many rows
    and columns as their shape says): after a
    [set_reduced_diffraction_data] that returned,
    [get_reduced_diffraction_data] with the same sub run and mask returns
    the 2theta and intensity vectors that were stored,
    [get_reduced_diffraction_data_set] returns two matrices having them as
    the same row, and the arrays of the workspace stay well formed. *)
Theorem reduced_data_round_trip (sub_run : Z) (mask_id : option string)
    (tth int : list float64) (ws ws' : HidraWorkspace.t) :
  Workspace.wf ws ->
  HidraWorkspace.set_reduced_diffraction_data check_int_variable
    check_string_variable junk sub_run mask_id tth int ws = (Ok tt, ws') ->
  Workspace.get_reduced_diffraction_data check_int_variable check_string_variable
    sub_run mask_id ws' = Ok (tth, Item1 int) /\
  (exists m2 mi,
     Workspace.get_reduced_diffraction_data_set check_string_variable mask_id ws'
       = Ok (m2, mi) /\
     exists i, Workspace.getitem i m2 = Ok (Item1 tth) /\
               Workspace.getitem i mi = Ok (Item1 int)) /\
  Workspace.wf ws'.
Proof.
  intros Hwf Hset. split; [by apply (set_reduced_get _ _ _ _ ws)|].
  split; [|by eapply set_reduced_wf].
  destruct (set_reduced_ok_inv _ _ _ _ _ _ Hset)
    as (s2s & i & n & c & rows & n' & c' & rows' & Hci & Hcs & _ & _ & Hi & HT & Hin
        & _ & HD & Hin' & _ & ET & ED & Es2s & _).
  apply (base_2theta_rows ws) in HT; [|done].
  apply (base_intensity_rows ws) in HD; [|done].
  unfold Workspace.get_reduced_diffraction_data_set.
  rewrite Hcs, ET, ED, lookup_insert_eq. cbn [mbind result_bind].
  eexists _, _. split; [reflexivity|]. exists i.
  cbn [Workspace.getitem]. by rewrite !list_lookup_insert_eq by lia.
Qed.

(** X17. Storing the reduced data of one sub run leaves what
    [get_reduced_diffraction_data] returns for a sub run of another
    spectrum as it was, under every mask. *)
Theorem reduced_data_other_sub_runs_kept (sub_run sub_run' : Z)
    (mask_id mask_id' : option string) (tth int : list float64)
    (ws ws' : HidraWorkspace.t) (s2s : gmap Z nat)
    (r : list float64 * fl_item) :
  HidraWorkspace._sub_run_to_spectrum ws = Some s2s ->
  s2s !! sub_run <> s2s !! sub_run' ->
  HidraWorkspace.set_reduced_diffraction_data check_int_variable
    check_string_variable junk sub_run mask_id tth int ws = (Ok tt, ws') ->
  Workspace.get_reduced_diffraction_data check_int_variable check_string_variable
    sub_run' mask_id' ws = Ok r ->
  Workspace.get_reduced_diffraction_data check_int_variable check_string_variable
    sub_run' mask_id' ws' = Ok r.
Proof.
  intros Es Hne Hset Hget.
  destruct (set_reduced_ok_inv _ _ _ _ _ _ Hset)
    as (s2s' & i & n & c & rows & n' & c' & rows' & _ & _ & _ & Es' & Hi & HT & _
        & _ & HD & _ & _ & ET & ED & Es2s & _).
  rewrite Es in Es'. injection Es' as <-.
  unfold Workspace.get_reduced_diffraction_data in *.
  destruct (check_int_variable _ sub_run' _) as [[]|e]; [|done].
  destruct (match mask_id' with
            | Some m => check_string_variable "Mask ID" m
            | None => Ok tt
            end) as [[]|e]; [|done].
  cbn [mbind result_bind] in *. rewrite Es in Hget. rewrite Es2s.
  cbn [mbind result_bind] in *.
  destruct (s2s !! sub_run') as [j|] eqn:Ej; [|done].
  assert (Hij : i <> j) by congruence.
  cbn [mbind result_bind] in *.
  destruct (HidraWorkspace._2theta_matrix ws) as [[v|a b rs]|] eqn:ETw;
    cbn [mbind result_bind Workspace.getitem] in Hget; [| |done].
  { destruct (v !! j); done. }
  injection HT as -> -> ->.
  rewrite ET. cbn [mbind result_bind Workspace.getitem].
  rewrite list_lookup_insert_ne by done.
  destruct (rows !! j) as [x|]; [|done]. cbn [mbind result_bind] in *.
  rewrite ED. destruct (decide (mask_id' = mask_id)) as [->|Hm].
  - rewrite lookup_insert_eq.
    destruct (HidraWorkspace._diff_data_set ws !! mask_id) as [d|] eqn:EDw; [|done].
    subst d. cbn [Workspace.getitem] in *.
    by rewrite list_lookup_insert_ne by done.
  - by rewrite lookup_insert_ne by done.
Qed.

(** X18. The workspace keeps one 2theta matrix for all masks: after the
    data of a sub run was stored under mask a and then under another mask
    b, reading the sub run under a returns the intensities stored under a
    with the 2theta vector stored under b. *)
Theorem two_theta_shared_between_masks (sub_run : Z) (a b : option string)
    (tthA intA tthB intB : list float64) (ws ws1 ws2 : HidraWorkspace.t) :
  Workspace.wf ws -> a <> b ->
  HidraWorkspace.set_reduced_diffraction_data check_int_variable
    check_string_variable junk sub_run a tthA intA ws = (Ok tt, ws1) ->
  HidraWorkspace.set_reduced_diffraction_data check_int_variable
    check_string_variable junk sub_run b tthB intB ws1 = (Ok tt, ws2) ->
  Workspace.get_reduced_diffraction_data check_int_variable check_string_variable
    sub_run a ws2 = Ok (tthB, Item1 intA) /\
  Workspace.get_reduced_diffraction_data check_int_variable check_string_variable
    sub_run b ws2 = Ok (tthB, Item1 intB).
Proof.
  intros Hwf Hab Hset1 Hset2.
  pose proof (set_reduced_wf _ _ _ _ _ _ Hwf Hset1) as Hwf1.
  split; [|by apply (set_reduced_get _ _ _ _ ws1)].
  destruct (set_reduced_ok_inv _ _ _ _ _ _ Hset1)
    as (s2s & i & n & c & rows & n' & c' & rows' & Hci & Hcs & _ & _ & Hi & HT & Hin
        & _ & HD & Hin' & _ & ET & ED & Es2s & _).
  destruct (set_reduced_ok_inv _ _ _ _ _ _ Hset2)
    as (s2s2 & i2 & n2 & c2 & rows2 & n2' & c2' & rows2' & _ & _ & _ & Es1 & Hi2
        & HT2 & Hin2 & _ & _ & _ & _ & ET2 & ED2 & Es2s2 & _).
  rewrite Es2s in Es1. injection Es1 as <-.
  assert (i2 = i) as -> by congruence.
  apply (base_intensity_rows ws) in HD; [|done].
  apply (base_2theta_rows ws1) in HT2; [|done].
  unfold Workspace.get_reduced_diffraction_data.
  rewrite Hci, Hcs, Es2s2, ET2, ED2. cbn [mbind result_bind]. rewrite Hi.
  cbn [mbind result_bind Workspace.getitem].
  rewrite list_lookup_insert_eq by lia. cbn [mbind result_bind].
  rewrite lookup_insert_ne by done. rewrite ED, lookup_insert_eq.
  cbn [Workspace.getitem]. rewrite list_lookup_insert_eq by lia. done.
Qed.

(** X19. A [set_reduced_diffraction_data] for a registered sub run, with
    arguments that pass the checks and two vectors of one length, but of
    another length than the rows of the 2theta matrix the workspace holds,
    raises RuntimeError, but not without effect: a mask id that was unknown before the call (reading it
    raised 'Mask ID {} does not exist') is registered by it with an
    uninitialised intensity matrix. *)
Theorem size_mismatch_registers_mask (sub_run : Z) (mask_id : option string)
    (tth int : list float64) (ws : HidraWorkspace.t) (s2s : gmap Z nat)
    (spec n c : nat) (rows : list (list float64)) :
  HidraWorkspace._sub_run_to_spectrum ws = Some s2s ->
  s2s !! sub_run = Some spec ->
  check_int_variable "Sub run number" sub_run (Some 1%Z, None) = Ok tt ->
  match mask_id with
  | Some m => check_string_variable "Mask ID" m
  | None => Ok tt
  end = Ok tt ->
  length tth = length int ->
  HidraWorkspace._2theta_matrix ws = Some (Arr2 n c rows) ->
  c <> length tth ->
  HidraWorkspace._diff_data_set ws !! mask_id = None ->
  let out :=
    HidraWorkspace.set_reduced_diffraction_data check_int_variable
      check_string_variable junk sub_run mask_id tth int ws in
  (exists msg, out.1 = Raise (RuntimeError msg)) /\
  Workspace.get_reduced_diffraction_data_set check_string_variable mask_id ws
    = Raise (RuntimeError
               "Mask ID {} does not exist in reduced diffraction pattern. The available masks are {}") /\
  Workspace.get_reduced_diffraction_data_set check_string_variable mask_id out.2
    = Ok (Arr2 n c rows, HidraWorkspace.ndarray (size s2s) (length int) junk).
Proof.
  intros Es Hi Hci Hcs Hlen ET Hc ED out. subst out.
  unfold HidraWorkspace.set_reduced_diffraction_data,
    Workspace.get_reduced_diffraction_data_set.
  rewrite Es, Hci, Hcs, ET, ED.
  rewrite decide_False by (intros H; apply H; by rewrite Hlen).
  cbn [HidraWorkspace._2theta_matrix HidraWorkspace._diff_data_set
       HidraWorkspace.with_2theta_matrix HidraWorkspace.with_diff_data_set
       default mbind result_bind].
  rewrite Hi, ET, lookup_insert_eq.
  cbn [default from_option Datatypes.id HidraWorkspace.shape1 HidraWorkspace.ndarray].
  rewrite (proj2 (Nat.eqb_neq c (length tth)) Hc). cbn [negb orb fst snd].
  cbn [HidraWorkspace._2theta_matrix HidraWorkspace._diff_data_set
       HidraWorkspace.with_2theta_matrix HidraWorkspace.with_diff_data_set].
  rewrite ET, lookup_insert_eq. cbn [mbind result_bind].
  split; [by eexists|]. split; done.
Qed.

Lemma set_reduced_fresh_ok (sub_run : Z) (mask_id : option string)
    (tth int : list float64) (ws : HidraWorkspace.t) (s2s : gmap Z nat) (i : nat) :
  HidraWorkspace._sub_run_to_spectrum ws = Some s2s ->
  s2s !! sub_run = Some i -> i < size s2s ->
  check_int_variable "Sub run number" sub_run (Some 1%Z, None) = Ok tt ->
  match mask_id with
  | Some m => check_string_variable "Mask ID" m
  | None => Ok tt
  end = Ok tt ->
  length tth = length int ->
  HidraWorkspace._2theta_matrix ws = None ->
  HidraWorkspace._diff_data_set ws !! mask_id = None ->
  exists ws',
    HidraWorkspace.set_reduced_diffraction_data check_int_variable
      check_string_variable junk sub_run mask_id tth int ws = (Ok tt, ws').
Proof.
  intros Es Hi Hlt Hci Hcs Hlen ET ED.
  unfold HidraWorkspace.set_reduced_diffraction_data.
  rewrite Es, Hci, Hcs, ET.
  rewrite decide_False by (intros H; apply H; by rewrite Hlen).
  cbn [HidraWorkspace._2theta_matrix HidraWorkspace._diff_data_set
       HidraWorkspace.with_2theta_matrix HidraWorkspace.with_diff_data_set
       default mbind result_bind].
  rewrite ED.
  cbn [HidraWorkspace._2theta_matrix HidraWorkspace._diff_data_set
       HidraWorkspace.with_2theta_matrix HidraWorkspace.with_diff_data_set
       default mbind result_bind].
  rewrite Hi, lookup_insert_eq.
  cbn [default from_option Datatypes.id HidraWorkspace.shape1 HidraWorkspace.ndarray
       HidraWorkspace.set_row].
  rewrite !Nat.eqb_refl. cbn [negb orb].
  destruct (decide (i < size s2s)) as [_|Hge]; [|done]. by eexists.
Qed.

(** X20. Whatever [reduce_to_2theta_histogram] returns in point-data form
    passes the shape check of the workspace: on a new workspace with the
    sub run registered, storing the bin centres and intensities returns,
    and reading them back gives the same two vectors. *)
Theorem reduce_store_read (self : PyHB2BReduction.t) (h : store)
    (counts_array : int_array) (mask : option (list float64)) (num_bins : Z)
    (x_range : option (float64 * float64)) (centers hist : list float64)
    (name : string) (sub_runs : list Z) (s : Z) (mask_id : option string) :
  PyHB2BReduction.reduce_to_2theta_histogram self h counts_array mask num_bins
    x_range true = Ok (centers, hist) ->
  NoDup sub_runs -> s ∈ sub_runs ->
  check_int_variable "Sub run number" s (Some 1%Z, None) = Ok tt ->
  match mask_id with
  | Some m => check_string_variable "Mask ID" m
  | None => Ok tt
  end = Ok tt ->
  let ws := Workspace.set_sub_runs sub_runs (HidraWorkspace.__init__ name) in
  exists ws',
    HidraWorkspace.set_reduced_diffraction_data check_int_variable
      check_string_variable junk s mask_id centers hist ws = (Ok tt, ws') /\
    Workspace.get_reduced_diffraction_data check_int_variable
      check_string_variable s mask_id ws' = Ok (centers, Item1 hist).
Proof.
  intros Hred Hnd Hs Hci Hcs ws.
  apply point_data_lengths in Hred.
  apply sorted_elem_of, list_elem_of_lookup in Hs as [i Hi].
  assert (Hsi : (Workspace.subrun_spectrum_maps (Workspace.sorted sub_runs)).1 !! s
                = Some i).
  { apply subrun_spectrum_maps_1_NoDup; [by apply sorted_NoDup|].
    by rewrite sorted_idem. }
  assert (Hsize : i < size (Workspace.subrun_spectrum_maps (Workspace.sorted sub_runs)).1).
  { rewrite subrun_spectrum_maps_size by by apply sorted_NoDup.
    by eapply lookup_lt_Some. }
  destruct (set_reduced_fresh_ok s mask_id centers hist ws _ i eq_refl Hsi Hsize
              Hci Hcs Hred eq_refl) as [ws' Hset].
  { subst ws. cbn. apply lookup_empty. }
  exists ws'. split; [done|].
  apply (set_reduced_get s mask_id centers hist ws ws'); [|done].
  split.
  - subst ws. cbn. discriminate.
  - subst ws. cbn. intros k a. by rewrite lookup_empty.
Qed.


End ReducedData.

(** ** Wave lengths *)

Lemma foldl_const_lookup (w : float64) (l : list Z) (m : gmap Z float64) (s : Z) :
  foldl (fun d sub_run => <[sub_run := w]> d) m l !! s
  = if decide (s ∈ l) then Some w else m !! s.
Proof.
  revert m. induction l as [|x l IH]; intros m.
  - cbn. by rewrite decide_False by apply not_elem_of_nil.
  - cbn [foldl]. rewrite IH.
    destruct (decide (s ∈ l)) as [Hin|Hnin].
    + rewrite decide_True; [done|]. by right.
    + destruct (decide (s = x)) as [->|Hne].
      * rewrite decide_True by by left. by rewrite lookup_insert_eq.
      * rewrite decide_False.
        -- by rewrite lookup_insert_ne.
        -- rewrite elem_of_cons. tauto.
Qed.



(** X21. After [set_sub_runs]: [set_wave_length] with a float raises
    'Sub run - spectrum map has not been built' when the list of sub runs
    was empty, and leaves the wave lengths as they were; otherwise it
    returns, [get_wave_length] of the
    same kind (calibrated or not) returns a dictionary that maps exactly
    the registered sub runs to that float, and the wave length of the other
    kind is as before. *)
Theorem wave_length_round_trip (w : float64) (calibrated throw : bool)
    (sub_runs : list Z) (ws0 : HidraWorkspace.t) (wl : Workspace.wave_lengths) :
  let ws := Workspace.set_sub_runs sub_runs ws0 in
  let out := Workspace.set_wave_length (WlFloat w) calibrated ws wl in
  match sub_runs with
  | [] =>
      out = (Raise (RuntimeError "Sub run - spectrum map has not been built"), wl)
  | _ =>
      out.1 = Ok tt /\
      (exists d, Workspace.get_wave_length calibrated throw out.2 = Ok (Some d) /\
                 forall s, d !! s = if decide (s ∈ sub_runs) then Some w else None) /\
      Workspace.get_wave_length (negb calibrated) throw out.2
        = Workspace.get_wave_length (negb calibrated) throw wl
  end.
Proof.
  intros ws out. subst ws out. unfold Workspace.set_wave_length.
  rewrite get_sub_runs_after_set.
  destruct sub_runs as [|s0 l]; [done|].
  set (L := s0 :: l). cbn [fst snd].
  split; [done|]. split.
  - eexists. split.
    + unfold Workspace.get_wave_length.
      destruct calibrated; cbn [Workspace._wave_length_calibrated_dict
                                Workspace._wave_length_dict]; reflexivity.
    + intros s. rewrite foldl_const_lookup, lookup_empty.
      destruct (decide (s ∈ L)) as [Hin|Hnin].
      * rewrite decide_True; [done|]. by rewrite sorted_elem_of, elem_of_remove_dups.
      * rewrite decide_False; [done|]. by rewrite sorted_elem_of, elem_of_remove_dups.
  - unfold Workspace.get_wave_length.
    destruct calibrated; cbn [negb Workspace._wave_length_calibrated_dict
                              Workspace._wave_length_dict]; reflexivity.
Qed.

(** X22. After [set_sub_runs] with a non-empty list: [set_wave_length]
    with a dictionary returns exactly when the keys of the dictionary are
    the registered sub runs, and [get_wave_length] of
    the same kind then returns that dictionary; otherwise it raises
    RuntimeError and leaves the wave lengths as they were. *)
Theorem wave_length_dict_checked (d : gmap Z float64) (calibrated throw : bool)
    (s0 : Z) (l : list Z) (ws0 : HidraWorkspace.t) (wl : Workspace.wave_lengths) :
  let sub_runs := s0 :: l in
  let ws := Workspace.set_sub_runs sub_runs ws0 in
  let out := Workspace.set_wave_length (WlDict d) calibrated ws wl in
  if decide (dom d = list_to_set sub_runs) then
    out.1 = Ok tt /\
    Workspace.get_wave_length calibrated throw out.2 = Ok (Some d) /\
    Workspace.get_wave_length (negb calibrated) throw out.2
      = Workspace.get_wave_length (negb calibrated) throw wl
  else
    out = (Raise (RuntimeError
                    "Input wave length dictionary has different set of sub runs"),
           wl).
Proof.
  intros sub_runs ws out. subst ws out. unfold Workspace.set_wave_length.
  rewrite get_sub_runs_after_set. subst sub_runs. cbv match.
  set (L := s0 :: l).
  destruct (decide (dom d = list_to_set L)) as [Hdom|Hdom].
  - rewrite decide_False.
    + cbn [fst snd]. split; [done|].
      unfold Workspace.get_wave_length.
      destruct calibrated; cbn [negb Workspace._wave_length_calibrated_dict
                                Workspace._wave_length_dict]; done.
    + intros Hne. apply Hne. by apply sorted_keys.
  - rewrite decide_True; [done|].
    intros E. apply Hdom. apply set_eq. intros s.
    rewrite elem_of_dom, elem_of_list_to_set.
    rewrite <- (elem_of_remove_dups L), <- (sorted_elem_of s (remove_dups L)), <- E.
    rewrite sorted_elem_of, list_elem_of_fmap. split.
    + intros [v Hv]. exists (s, v). split; [done|]. by apply elem_of_map_to_list.
    + intros ([s' v] & -> & Hv). apply elem_of_map_to_list in Hv. by eexists.
Qed.

(** ** Sessions *)

Section Sessions.

Variable check_string_variable : string -> string -> result unit.
Variable MantidHB2BReduction : Type.

(** X23. [init_session] with an empty name or a name already in use
    raises and leaves the manager as it was.  With a new name that the
    argument check accepts it registers a new, empty workspace as the
    current one, leaves the workspaces of the other sessions as they were,
    and a second call with the same name raises and changes nothing. *)
Theorem init_session_unique (session_name : string)
    (m : HB2BReductionManager.t MantidHB2BReduction) :
  let out := HB2BReductionManager.init_session check_string_variable _
               session_name m in
  if decide (session_name = ""
             \/ is_Some (HB2BReductionManager._session_dict _ m !! session_name)) then
    (exists e, out.1 = Raise e) /\ out.2 = m
  else
    check_string_variable "Reduction session name" session_name = Ok tt ->
    out.1 = Ok tt /\
    (exists ref,
       HB2BReductionManager._session_dict _ out.2 !! session_name = Some ref /\
       HB2BReductionManager._curr_workspace _ out.2 = Some ref /\
       HB2BReductionManager.workspaces _ out.2 !! ref
         = Some (HidraWorkspace.__init__ "hidradata") /\
       forall ref', ref' <> ref ->
         HB2BReductionManager.workspaces _ out.2 !! ref'
         = HB2BReductionManager.workspaces _ m !! ref') /\
    (forall other, other <> session_name ->
       HB2BReductionManager._session_dict _ out.2 !! other
       = HB2BReductionManager._session_dict _ m !! other) /\
    (exists e, (HB2BReductionManager.init_session check_string_variable _
                  session_name out.2).1 = Raise e) /\
    (HB2BReductionManager.init_session check_string_variable _ session_name out.2).2
      = out.2.
Proof.
  intros out. subst out. unfold HB2BReductionManager.init_session.
  destruct (decide (session_name = ""
                    \/ is_Some (HB2BReductionManager._session_dict _ m !! session_name)))
    as [Hused|Hfree].
  - destruct (check_string_variable _ _) as [[]|e]; by eauto.
  - intros Hc. rewrite Hc.
    cbn [fst snd HB2BReductionManager._session_dict
         HB2BReductionManager._curr_workspace HB2BReductionManager.workspaces].
    split; [done|]. split; [|split].
    + exists session_name. rewrite !lookup_insert_eq. repeat split.
      intros ref' Hne. by rewrite lookup_insert_ne.
    + intros other Hne. by rewrite lookup_insert_ne.
    + rewrite decide_True; [by eauto|]. right. rewrite lookup_insert_eq. by eexists.
Qed.

End Sessions.

(** ** Workspace names *)

Lemma contains_app (c : Ascii.ascii) (s t : string) :
  Path.contains c (s +:+ t) = Path.contains c s || Path.contains c t.
Proof.
  induction s as [|a s IH]; [done|].
  change (String a s +:+ t) with (String a (s +:+ t)).
  cbn [Path.contains]. rewrite IH. by rewrite orb_assoc.
Qed.

Lemma basename_dir (dir rest : string) :
  Path.contains Path.slash rest = false ->
  Path.basename (dir +:+ String Path.slash rest) = rest.
Proof.
  intros Hrest. induction dir as [|a dir IH].
  - change ("" +:+ String Path.slash rest) with (String Path.slash rest).
    cbn [Path.basename]. rewrite Hrest.
    by rewrite Ascii.eqb_refl.
  - change (String a dir +:+ String Path.slash rest)
      with (String a (dir +:+ String Path.slash rest)).
    cbn [Path.basename].
    rewrite contains_app. cbn [Path.contains]. rewrite Ascii.eqb_refl.
    by rewrite orb_true_r.
Qed.

Lemma basename_no_slash (p : string) :
  Path.contains Path.slash (Path.basename p) = false.
Proof.
  induction p as [|a p IH]; [done|]. cbn [Path.basename].
  destruct (Path.contains Path.slash p) eqn:E; [done|].
  destruct (Ascii.eqb a Path.slash) eqn:Ea; [done|].
  cbn [Path.contains]. by rewrite Ea, E.
Qed.

Lemma before_app (c : Ascii.ascii) (name rest : string) :
  Path.contains c name = false ->
  Path.before c (name +:+ String c rest) = name.
Proof.
  induction name as [|a name IH]; intros Hn.
  - change ("" +:+ String c rest) with (String c rest).
    cbn [Path.before]. by rewrite Ascii.eqb_refl.
  - change (String a name +:+ String c rest)
      with (String a (name +:+ String c rest)).
    cbn [Path.before Path.contains] in *.
    apply orb_false_elim in Hn as [Ha Hn]. rewrite Ha. f_equal. by apply IH.
Qed.

Lemma before_no_char (c : Ascii.ascii) (s : string) :
  Path.contains c (Path.before c s) = false.
Proof.
  induction s as [|a s IH]; [done|]. cbn [Path.before].
  destruct (Ascii.eqb a c) eqn:Ea; [done|]. cbn [Path.contains]. by rewrite Ea, IH.
Qed.

Lemma before_keeps_absent (c c' : Ascii.ascii) (s : string) :
  Path.contains c' s = false -> Path.contains c' (Path.before c s) = false.
Proof.
  induction s as [|a s IH]; [done|]. cbn [Path.before Path.contains].
  intros H. apply orb_false_elim in H as [Ha Hs].
  destruct (Ascii.eqb a c); [done|]. cbn [Path.contains]. rewrite Ha. by apply IH.
Qed.

(** X24. For a file dir/name.ext, where name holds neither '/' nor '.'
    and ext holds no '/', [_generate_ws_name] returns name, and
    name__nexus for a NeXus file; for every file name the workspace name
    of a file that is not NeXus holds neither '/' nor '.'. *)
Theorem generate_ws_name_of_path (dir name ext : string) :
  Path.contains Path.slash name = false ->
  Path.contains Path.dot name = false ->
  Path.contains Path.slash ext = false ->
  let file_name := dir +:+ "/" +:+ name +:+ "." +:+ ext in
  ReductionManager._generate_ws_name file_name false = name /\
  ReductionManager._generate_ws_name file_name true = name +:+ "__nexus" /\
  (forall f,
     Path.contains Path.slash (ReductionManager._generate_ws_name f false) = false /\
     Path.contains Path.dot (ReductionManager._generate_ws_name f false) = false).
Proof.
  intros Hs Hd He file_name. subst file_name.
  unfold ReductionManager._generate_ws_name.
  change ("/" +:+ name +:+ "." +:+ ext)
    with (String Path.slash (name +:+ String Path.dot ext)).
  rewrite basename_dir.
  - rewrite before_app by done. split; [done|]. split; [done|].
    intros f. split.
    + apply before_keeps_absent, basename_no_slash.
    + apply before_no_char.
  - rewrite contains_app. cbn [Path.contains]. rewrite Hs, He.
    by rewrite orb_false_r.
Qed.

(** ** Instances of the properties above *)

(** a decidable fact about concrete data, by evaluation *)
Ltac by_decide :=
  match goal with |- ?P => apply (bool_decide_unpack P) end; vm_compute; exact I.

Lemma spectrum_index_round_trip_witness :
  exists i,
    Workspace.get_spectrum_index (fun _ _ _ => Ok tt) 3%Z
      (Workspace.set_sub_runs [3; 1]%Z (HidraWorkspace.__init__ "w")) = Ok i /\
    Workspace.sorted [3; 1]%Z !! i = Some 3%Z.
Proof.
  destruct (spectrum_index_round_trip (fun _ _ _ => Ok tt) [3; 1]%Z
              (HidraWorkspace.__init__ "w") 3%Z) as (i & H1 & _ & H3 & _).
  - by_decide.
  - by_decide.
  - reflexivity.
  - exists i. split; assumption.
Defined.

Lemma raw_counts_round_trip_witness :
  let ws := HidraWorkspace.__init__ "w" in
  let set := Workspace.set_raw_counts (fun _ _ _ => Ok tt) (fun _ _ _ _ => Ok tt)
               1%Z (counts_vector [5; 7]%Z) ws in
  HidraWorkspace.get_detector_counts (fun _ _ _ => Ok tt) 1%Z set.2
    = Ok (counts_vector [5; 7]%Z).
Proof.
  intros ws set.
  destruct (raw_counts_round_trip (fun _ _ _ => Ok tt) (fun _ _ _ _ => Ok tt)
              1%Z (counts_vector [5; 7]%Z) ws set.2) as (H1 & _).
  - reflexivity.
  - exact H1.
Defined.

Lemma sample_log_two_theta_round_trip_witness :
  let ws' :=
    (Workspace.set_sample_log (fun _ _ => Ok tt) (fun _ _ _ _ => Ok tt) "2theta"
       [1; 2]%Z [Fin 30; Fin 35] (HidraWorkspace.__init__ "w")).2 in
  HidraWorkspace.get_2theta (fun _ _ _ => Ok tt) "2theta" 2%Z ws' = Ok (Fin 35).
Proof.
  intros ws'.
  destruct (sample_log_two_theta_round_trip (fun _ _ _ => Ok tt) (fun _ _ => Ok tt)
              (fun _ _ _ _ => Ok tt) "2theta" [1; 2]%Z [Fin 30; Fin 35]
              (HidraWorkspace.__init__ "w") ws') as (H & _).
  - by_decide.
  - reflexivity.
  - exact (H 1 2%Z (Fin 35) eq_refl eq_refl).
Defined.

Lemma get_l2_default_and_round_trip_witness :
  let ws' :=
    (Workspace.set_sample_log (fun _ _ => Ok tt) (fun _ _ _ _ => Ok tt) "L2"
       [1; 2]%Z [Fin 1.5; Fin 2.5] (HidraWorkspace.__init__ "w")).2 in
  Workspace.get_l2 (fun _ _ _ => Ok tt) "L2" 1%Z (HidraWorkspace.__init__ "w")
    = Ok None /\
  Workspace.get_l2 (fun _ _ _ => Ok tt) "L2" 1%Z ws' = Ok (Some (Fin 1.5)).
Proof.
  intros ws'.
  destruct (get_l2_default_and_round_trip (fun _ _ _ => Ok tt) (fun _ _ => Ok tt)
              (fun _ _ _ _ => Ok tt) "L2" "w" [1; 2]%Z [Fin 1.5; Fin 2.5]
              (HidraWorkspace.__init__ "w") ws') as (H0 & H & _).
  - by_decide.
  - reflexivity.
  - split; [exact (H0 1%Z)|exact (H 0 1%Z (Fin 1.5) eq_refl eq_refl)].
Defined.

Lemma sample_log_values_order_witness :
  let ws' :=
    (Workspace.set_sample_log (fun _ _ => Ok tt) (fun _ _ _ _ => Ok tt) "chi"
       [2; 1]%Z [Fin 20; Fin 10] (HidraWorkspace.__init__ "w")).2 in
  let get := Workspace.get_sample_log_values (fun _ _ _ => Ok tt) "sub-runs" in
  get true "chi" (Some [2; 1]%Z) ws' = Ok (LogArray [Fin 20; Fin 10]) /\
  get true "chi" None ws' = Ok (LogArray [Fin 10; Fin 20]).
Proof.
  intros ws' get.
  destruct (sample_log_values_order (fun _ _ => Ok tt) (fun _ _ _ => Ok tt)
              (fun _ _ _ _ => Ok tt) "sub-runs" true "chi" [2; 1]%Z
              [Fin 20; Fin 10] (HidraWorkspace.__init__ "w") ws')
    as (H1 & H2 & _).
  - by_decide.
  - reflexivity.
  - discriminate.
  - reflexivity.
  - split; [exact H1|]. etrans; [exact H2|]. reflexivity.
Defined.

Lemma wf_fresh (name : string) (sub_runs : list Z) :
  Workspace.wf (Workspace.set_sub_runs sub_runs (HidraWorkspace.__init__ name)).
Proof.
  split.
  - intros a. cbn. discriminate.
  - intros k a. cbn. by rewrite lookup_empty.
Qed.

Lemma reduced_data_round_trip_witness :
  let ws := Workspace.set_sub_runs [1]%Z (HidraWorkspace.__init__ "w") in
  let out :=
    HidraWorkspace.set_reduced_diffraction_data (fun _ _ _ => Ok tt)
      (fun _ _ => Ok tt) (fun _ _ => NaN) 1%Z None [Fin 10; Fin 20]
      [Fin 1; Fin 2] ws in
  out.1 = Ok tt /\
  Workspace.get_reduced_diffraction_data (fun _ _ _ => Ok tt) (fun _ _ => Ok tt)
    1%Z None out.2 = Ok ([Fin 10; Fin 20], Item1 [Fin 1; Fin 2]).
Proof.
  intros ws out.
  assert (E : out = (Ok tt, out.2)) by (vm_compute; reflexivity).
  destruct (reduced_data_round_trip (fun _ _ _ => Ok tt) (fun _ _ => Ok tt)
              (fun _ _ => NaN) 1%Z None [Fin 10; Fin 20] [Fin 1; Fin 2] ws out.2
              (wf_fresh "w" [1]%Z) E) as (H & _).
  split; [by rewrite E|exact H].
Defined.

Lemma reduced_data_other_sub_runs_kept_witness :
  let chk_i : string -> Z -> option Z * option Z -> result unit :=
    fun _ _ _ => Ok tt in
  let chk_s : string -> string -> result unit := fun _ _ => Ok tt in
  let junk : nat -> nat -> float64 := fun _ _ => NaN in
  let ws0 := Workspace.set_sub_runs [1; 2]%Z (HidraWorkspace.__init__ "w") in
  let ws :=
    (HidraWorkspace.set_reduced_diffraction_data chk_i chk_s junk 1%Z None
       [Fin 10; Fin 20] [Fin 1; Fin 2] ws0).2 in
  let ws' :=
    (HidraWorkspace.set_reduced_diffraction_data chk_i chk_s junk 2%Z None
       [Fin 11; Fin 21] [Fin 3; Fin 4] ws).2 in
  Workspace.get_reduced_diffraction_data chk_i chk_s 1%Z None ws'
    = Ok ([Fin 10; Fin 20], Item1 [Fin 1; Fin 2]).
Proof.
  intros chk_i chk_s junk ws0 ws ws'.
  apply (reduced_data_other_sub_runs_kept chk_i chk_s junk 2%Z 1%Z None None
           [Fin 11; Fin 21] [Fin 3; Fin 4] ws ws'
           (Workspace.subrun_spectrum_maps (Workspace.sorted [1; 2]%Z)).1).
  - reflexivity.
  - vm_compute. discriminate.
  - vm_compute. reflexivity.
  - vm_compute. reflexivity.
Defined.

Lemma two_theta_shared_between_masks_witness :
  let chk_i : string -> Z -> option Z * option Z -> result unit :=
    fun _ _ _ => Ok tt in
  let chk_s : string -> string -> result unit := fun _ _ => Ok tt in
  let junk : nat -> nat -> float64 := fun _ _ => NaN in
  let ws := Workspace.set_sub_runs [1]%Z (HidraWorkspace.__init__ "w") in
  let ws1 :=
    (HidraWorkspace.set_reduced_diffraction_data chk_i chk_s junk 1%Z None
       [Fin 10; Fin 20] [Fin 1; Fin 2] ws).2 in
  let ws2 :=
    (HidraWorkspace.set_reduced_diffraction_data chk_i chk_s junk 1%Z (Some "roi")
       [Fin 11; Fin 21] [Fin 3; Fin 4] ws1).2 in
  Workspace.get_reduced_diffraction_data chk_i chk_s 1%Z None ws2
    = Ok ([Fin 11; Fin 21], Item1 [Fin 1; Fin 2]).
Proof.
  intros chk_i chk_s junk ws ws1 ws2.
  destruct (two_theta_shared_between_masks chk_i chk_s junk 1%Z None (Some "roi")
              [Fin 10; Fin 20] [Fin 1; Fin 2] [Fin 11; Fin 21] [Fin 3; Fin 4]
              ws ws1 ws2) as (H & _).
  - apply wf_fresh.
  - discriminate.
  - vm_compute. reflexivity.
  - vm_compute. reflexivity.
  - exact H.
Defined.

Lemma size_mismatch_registers_mask_witness :
  let chk_i : string -> Z -> option Z * option Z -> result unit :=
    fun _ _ _ => Ok tt in
  let chk_s : string -> string -> result unit := fun _ _ => Ok tt in
  let junk : nat -> nat -> float64 := fun _ _ => NaN in
  let ws0 := Workspace.set_sub_runs [1]%Z (HidraWorkspace.__init__ "w") in
  let ws :=
    (HidraWorkspace.set_reduced_diffraction_data chk_i chk_s junk 1%Z None
       [Fin 10; Fin 20] [Fin 1; Fin 2] ws0).2 in
  let out :=
    HidraWorkspace.set_reduced_diffraction_data chk_i chk_s junk 1%Z (Some "roi")
      [Fin 10] [Fin 1] ws in
  (exists msg, out.1 = Raise (RuntimeError msg)) /\
  Workspace.get_reduced_diffraction_data_set chk_s (Some "roi") out.2
    = Ok (Arr2 1 2 [[Fin 10; Fin 20]], Arr2 1 1 [[NaN]]).
Proof.
  intros chk_i chk_s junk ws0 ws out.
  destruct (size_mismatch_registers_mask chk_i chk_s junk 1%Z (Some "roi")
              [Fin 10] [Fin 1] ws
              (Workspace.subrun_spectrum_maps (Workspace.sorted [1]%Z)).1
              0 1 2 [[Fin 10; Fin 20]]) as (H1 & _ & H3).
  - reflexivity.
  - vm_compute. reflexivity.
  - reflexivity.
  - reflexivity.
  - reflexivity.
  - vm_compute. reflexivity.
  - cbn. lia.
  - vm_compute. reflexivity.
  - split; [exact H1|]. etrans; [exact H3|]. vm_compute. reflexivity.
Defined.

Lemma reduce_store_read_witness :
  let chk_i : string -> Z -> option Z * option Z -> result unit :=
    fun _ _ _ => Ok tt in
  let chk_s : string -> string -> result unit := fun _ _ => Ok tt in
  let junk : nat -> nat -> float64 := fun _ _ => NaN in
  let ws := Workspace.set_sub_runs [1]%Z (HidraWorkspace.__init__ "w") in
  exists centers hist ws',
    PyHB2BReduction.reduce_to_2theta_histogram Examples.engine12
      Examples.store12 (counts_vector [1%Z; 2%Z]) None 4
      (Some (Fin (-10), Fin 100)) true = Ok (centers, hist) /\
    HidraWorkspace.set_reduced_diffraction_data chk_i chk_s junk 1%Z None
      centers hist ws = (Ok tt, ws') /\
    Workspace.get_reduced_diffraction_data chk_i chk_s 1%Z None ws'
      = Ok (centers, Item1 hist).
Proof.
  intros chk_i chk_s junk ws.
  destruct (reduce_edges_ok Examples.engine12 Examples.store12 _
              [1%Z; 2%Z] 4 (-10) 100 pixel_array12)
    as (edges & hist & Hred & _); [reflexivity|lia|lra|].
  pose proof (reduce_point_data Examples.engine12 Examples.store12
                (counts_vector [1%Z; 2%Z]) None 4 (Some (Fin (-10), Fin 100)))
    as Hpoint.
  rewrite Hred in Hpoint. cbn [fmap result_fmap fst snd] in Hpoint.
  destruct (reduce_store_read chk_i chk_s junk _ _ _ _ _ _ _ _ "w" [1]%Z 1%Z None
              Hpoint) as (ws' & Hset & Hget).
  - by_decide.
  - by_decide.
  - reflexivity.
  - reflexivity.
  - eexists _, _, ws'. split; [exact Hpoint|]. split; [exact Hset|exact Hget].
Defined.

Lemma generate_ws_name_of_path_witness :
  ReductionManager._generate_ws_name "/HFIR/HB2B/data/HB2B_439.h5" false
    = "HB2B_439" /\
  ReductionManager._generate_ws_name "/HFIR/HB2B/data/HB2B_439.h5" true
    = "HB2B_439__nexus".
Proof.
  destruct (generate_ws_name_of_path "/HFIR/HB2B/data" "HB2B_439" "h5")
    as (H1 & H2 & _); [reflexivity..|].
  split; [exact H1|exact H2].
Defined.

Lemma build_on_empty_detector_witness :
  let setup :=
    {| detector_rows := 0; detector_columns := 3; pixel_size_x := Fin 1;
       pixel_size_y := Fin 1; arm_length := Fin 10 |} in
  let st := ResidualStressInstrument.__init__ setup Examples.junk0 ∅ in
  let out :=
    ResidualStressInstrument.build_instrument (Fin 30) Examples.no_calibration
      st.1 st.2 in
  out.1 = Raise (IndexError "index 0 is out of bounds") /\
  ResidualStressInstrument.get_pixel_array out.2.1 out.2.2 = Ok [].
Proof.
  intros setup st out.
  destruct (build_on_empty_detector setup Examples.junk0 ∅ (Fin 30)
              Examples.no_calibration) as (H1 & _ & H3).
  - left. reflexivity.
  - split; [exact H1|exact H3].
Defined.

Lemma rebuild_depends_on_last_call_witness :
  let st0 := Examples.instrument22 in
  let st := Spec.build_calls [(Fin 30, Examples.no_calibration)] st0 in
  let out :=
    ResidualStressInstrument.build_instrument (Fin 60) Examples.no_calibration
      st.1 st.2 in
  let out0 :=
    ResidualStressInstrument.build_instrument (Fin 60) Examples.no_calibration
      st0.1 st0.2 in
  exists pose,
    ResidualStressInstrument.get_pixel_matrix out.2.1 out.2.2 = Ok pose /\
    ResidualStressInstrument.get_pixel_matrix out0.2.1 out0.2.2 = Ok pose.
Proof.
  intros st0 st out out0.
  destruct (rebuild_depends_on_last_call Examples.setup22 Examples.junk0 ∅
              [(Fin 30, Examples.no_calibration)] (Fin 60)
              Examples.no_calibration) as (H & _).
  - cbn. lia.
  - cbn. lia.
  - exact H.
Defined.

Lemma rotate_detector_new_array_witness :
  let m : grid := [[V3 (Fin 1) (Fin 2) (Fin 3)]] in
  let h : store := {[ 1%positive := m ]} in
  let R := ResidualStressInstrument.generate_rotation_matrix (Fin 0.1) (Fin 0.2)
             (Fin 0.3) in
  let out := ResidualStressInstrument._rotate_detector 1%positive R h in
  h !! out.1 = None /\
  out.2 !! 1%positive = Some m /\
  exists m', out.2 !! out.1 = Some m' /\
    Nd.at2 0 0 m' = Some (Spec.rotate R (V3 (Fin 1) (Fin 2) (Fin 3))).
Proof.
  intros m h R out.
  destruct (rotate_detector_new_array R 1%positive h m)
    as (H1 & H2 & m' & H3 & _ & H5 & _).
  - reflexivity.
  - split; [exact H1|]. split; [apply H2; reflexivity|].
    exists m'. split; [exact H3|]. apply H5. reflexivity.
Defined.

Lemma mask_of_ones_and_zeros_witness :
  PyHB2BReduction.reduce_to_2theta_histogram Examples.engine12 Examples.store12
    (counts_vector [1%Z; 2%Z]) (Some [Fin 1; Fin 1]) 4
    (Some (Fin (-10), Fin 100)) true
  = PyHB2BReduction.reduce_to_2theta_histogram Examples.engine12 Examples.store12
      (counts_vector [1%Z; 2%Z]) None 4 (Some (Fin (-10), Fin 100)) true.
Proof.
  destruct (mask_of_ones_and_zeros Examples.engine12 Examples.store12 [1%Z; 2%Z]
              [Fin 1; Fin 1] 4 (Some (Fin (-10), Fin 100)) true eq_refl)
    as (H & _).
  apply H. by repeat constructor.
Defined.

Lemma init_session_unique_witness :
  let m0 := HB2BReductionManager.__init__ unit in
  let out := HB2BReductionManager.init_session (fun _ _ => Ok tt) unit "s" m0 in
  out.1 = Ok tt /\
  (exists e, (HB2BReductionManager.init_session (fun _ _ => Ok tt) unit "s" out.2).1
             = Raise e) /\
  (exists e, (HB2BReductionManager.init_session (fun _ _ => Ok tt) unit "" m0).1
             = Raise e).
Proof.
  intros m0 out.
  pose proof (init_session_unique (fun _ _ => Ok tt) unit "s" m0) as H.
  pose proof (init_session_unique (fun _ _ => Ok tt) unit "" m0) as H0.
  cbv zeta in H, H0.
  destruct (decide ("s" = "" \/ _)) as [[E|E]|_] in H.
  - discriminate E.
  - exfalso. revert E. vm_compute. intros [x E]. discriminate E.
  - destruct (H eq_refl) as (H1 & _ & _ & H4 & _).
    destruct (decide ("" = "" \/ _)) as [_|N] in H0.
    + destruct H0 as (H5 & _). split; [exact H1|]. split; [exact H4|exact H5].
    + exfalso. apply N. left. reflexivity.
Defined.
